(** * smartcommit: the interview session, its configuration and its provider clients

    A shallow embedding of the Go sources

    - [internal/config/config.go]  (module [config]),
    - [internal/git/git.go]        (module [git]),
    - [internal/ai/ai.go]          (module [ai]),
    - [internal/tui/model.go]      (module [tui]),

    followed by the properties of the interactive session that the
    specification states.

    Conventions.  A Go [string] is a byte string: Rocq's [string], whose
    [String.length] is Go's [len].  A Go [error] is represented by its message.
    A pair [(T, error)] is a [result T].  Code that talks to the operating
    system, to git or to the model backend runs in the monad [M], which threads
    the [World] and can stop with a run-time panic. *)

From Stdlib Require Import ZArith Lia Ascii String List.
From stdpp Require Import base option list strings gmap.
From stdpp Require Import pretty.

Local Open Scope Z_scope.

(** ** Errors and results *)

Definition error : Type := string.

Inductive result (A : Type) : Type :=
| ok (a : A)
| fail (e : error).
Arguments ok {A} a.
Arguments fail {A} e.

(** [fmt.Errorf("<prefix>: %w", err)] *)
Definition wrapf (prefix : string) (e : error) : error := prefix +:+ ": " +:+ e.

(** Go's [int] is 64 bits wide and wraps around. *)
Definition int_wrap (z : Z) : Z := (z + 2 ^ 63) mod 2 ^ 64 - 2 ^ 63.

(** ** The world outside the program *)

Inductive BackendOp : Type :=
| opGenerateQuestions
| opGenerateCommitMessage
| opAnalyzeHistory.

(** What the program did to the outside world, newest first.  [call_Save]
    records what was written and the error [Config.Save] returned. *)
Inductive Call : Type :=
| call_Load
| call_Save (data : string) (err : option error)
| call_IsRepo
| call_GetStagedDiff
| call_GetRecentHistory (n : Z)
| call_Commit (message : string)
| call_Backend (op : BackendOp).

Record World : Type := mkWorld {
  env_OPENAI_API_KEY : string;        (* os.Getenv("OPENAI_API_KEY") *)
  os_UserHomeDir : result string;     (* os.UserHomeDir *)
  os_MkdirAll : option error;         (* does creating ~/.config/smartcommit fail *)
  configFile : option string;         (* config.json, when os.Stat finds it *)
  os_ReadFile : option error;         (* does reading config.json fail *)
  os_WriteFile : option error;        (* does writing config.json fail *)
  git_rev_parse : bool;               (* git rev-parse --is-inside-work-tree exits with 0 *)
  git_diff_cached : result string;    (* git diff --cached *)
  git_log : Z -> result string;       (* git log -n<N> --pretty=format:... *)
  git_commit : list string -> option error;   (* running the commit command *)
  calls : list Call
}.

Definition set_configFile (f : option string) (w : World) : World :=
  mkWorld (env_OPENAI_API_KEY w) (os_UserHomeDir w) (os_MkdirAll w) f
          (os_ReadFile w) (os_WriteFile w) (git_rev_parse w) (git_diff_cached w)
          (git_log w) (git_commit w) (calls w).

Definition set_calls (l : list Call) (w : World) : World :=
  mkWorld (env_OPENAI_API_KEY w) (os_UserHomeDir w) (os_MkdirAll w) (configFile w)
          (os_ReadFile w) (os_WriteFile w) (git_rev_parse w) (git_diff_cached w)
          (git_log w) (git_commit w) l.

(** ** The monad of effectful code: world passing, [None] is a panic *)

Definition M (A : Type) : Type := World -> option (A * World).

Definition ret {A} (a : A) : M A := fun w => Some (a, w).

Definition bind {A B} (c : M A) (k : A -> M B) : M B :=
  fun w => match c w with
           | Some (a, w') => k a w'
           | None => None
           end.

Definition panic {A} : M A := fun _ => None.

Definition ask {A} (f : World -> A) : M A := fun w => Some (f w, w).

Definition record (c : Call) : M unit :=
  fun w => Some (tt, set_calls (c :: calls w) w).

Declare Scope go_scope.
Delimit Scope go_scope with go.
Notation "'let*' x ':=' c 'in' k" := (bind c (fun x => k))
  (at level 10, x pattern, c at level 100, k at level 200) : go_scope.
Notation "c ';;' k" := (bind c (fun _ => k))
  (at level 100, k at level 200, right associativity) : go_scope.
Local Open Scope go_scope.

(** The calls an effectful computation adds to the log of [w]. *)
Definition new_calls (w w' : World) : list Call :=
  take (length (calls w') - length (calls w))%nat (calls w').

(** ** Go's [strings] package, as far as the program uses it *)

Class GoStrings : Type := {
  TrimSpace : string -> string;       (* strings.TrimSpace *)
  ToLower : string -> string          (* strings.ToLower *)
}.

(** * internal/config/config.go *)

Module config.

Definition ProviderType : Type := string.

Definition ProviderOpenAI : ProviderType := "openai".
Definition ProviderOllama : ProviderType := "ollama".

Record Config : Type := mkConfig {
  Provider : ProviderType;     (* json:"provider" *)
  OpenAIAPIKey : string;       (* json:"openai_api_key" *)
  OllamaModel : string;        (* json:"ollama_model" *)
  OllamaURL : string           (* json:"ollama_url" *)
}.

Definition set_Provider (p : ProviderType) (c : Config) : Config :=
  mkConfig p (OpenAIAPIKey c) (OllamaModel c) (OllamaURL c).
Definition set_OpenAIAPIKey (k : string) (c : Config) : Config :=
  mkConfig (Provider c) k (OllamaModel c) (OllamaURL c).
Definition set_OllamaModel (s : string) (c : Config) : Config :=
  mkConfig (Provider c) (OpenAIAPIKey c) s (OllamaURL c).
Definition set_OllamaURL (u : string) (c : Config) : Config :=
  mkConfig (Provider c) (OpenAIAPIKey c) (OllamaModel c) u.

(** The zero value [var cfg Config]. *)
Definition zero : Config := mkConfig "" "" "" "".

(** *** encoding/json on [Config]

    [Config] is a struct of four strings, so [json.MarshalIndent] cannot
    fail on it and writes a flat object with the members in field order.
    String values are escaped as Go's encoder does for bytes below 0x80
    (HTML escaping is on); bytes from 0x80 on are copied, which is what the
    encoder does on well-formed UTF-8 text other than U+2028 and U+2029. *)

Definition quote : ascii := "034"%char.
Definition LF : ascii := "010"%char.

Definition hex_digit (n : nat) : ascii :=
  nth n (list_ascii_of_string "0123456789abcdef") "0"%char.

Definition htmlSafe (c : ascii) : bool :=
  let n := nat_of_ascii c in
  (32 <=? n)%nat && (n <? 128)%nat
  && negb (Ascii.eqb c quote) && negb (Ascii.eqb c "\"%char)
  && negb (Ascii.eqb c "&"%char) && negb (Ascii.eqb c "<"%char)
  && negb (Ascii.eqb c ">"%char).

Definition encode_byte (c : ascii) : string :=
  let n := nat_of_ascii c in
  if (128 <=? n)%nat || htmlSafe c then String c ""
  else if Ascii.eqb c quote || Ascii.eqb c "\"%char then String "\"%char (String c "")
  else if Ascii.eqb c "008"%char then "\b"
  else if Ascii.eqb c "012"%char then "\f"
  else if Ascii.eqb c "010"%char then "\n"
  else if Ascii.eqb c "013"%char then "\r"
  else if Ascii.eqb c "009"%char then "\t"
  else "\u00" +:+ String (hex_digit (n / 16)) (String (hex_digit (n mod 16)) "").

Fixpoint encode_bytes (s : string) : string :=
  match s with
  | EmptyString => ""
  | String c s' => encode_byte c +:+ encode_bytes s'
  end.

Definition encode_string (s : string) : string :=
  String quote (encode_bytes s +:+ String quote "").

Definition member (name value : string) : string :=
  "  " +:+ encode_string name +:+ ": " +:+ encode_string value.

(** [json.MarshalIndent(c, "", "  ")] *)
Definition MarshalIndent (c : Config) : string :=
  "{" +:+ String LF (member "provider" (Provider c)) +:+ "," +:+
  String LF (member "openai_api_key" (OpenAIAPIKey c)) +:+ "," +:+
  String LF (member "ollama_model" (OllamaModel c)) +:+ "," +:+
  String LF (member "ollama_url" (OllamaURL c)) +:+
  String LF "}".

(** The decoder covers the documents the program itself writes and their
    hand-edited variants: one flat object whose members are strings (or
    [null], which leaves the field alone).  Any other input is reported as
    a decoding error; the text of that error is not Go's. *)

Definition is_ws (c : ascii) : bool :=
  Ascii.eqb c " "%char || Ascii.eqb c "009"%char
  || Ascii.eqb c "010"%char || Ascii.eqb c "013"%char.

Fixpoint skip_ws (s : string) : string :=
  match s with
  | String c s' => if is_ws c then skip_ws s' else s
  | EmptyString => s
  end.

Definition hex_value (c : ascii) : option N :=
  let n := N_of_ascii c in
  if (48 <=? n)%N && (n <=? 57)%N then Some (n - 48)%N
  else if (97 <=? n)%N && (n <=? 102)%N then Some (n - 87)%N
  else if (65 <=? n)%N && (n <=? 70)%N then Some (n - 55)%N
  else None.

Definition hex4 (a b c d : ascii) : option N :=
  match hex_value a, hex_value b, hex_value c, hex_value d with
  | Some x, Some y, Some z, Some t => Some (((x * 16 + y) * 16 + z) * 16 + t)%N
  | _, _, _, _ => None
  end.

(** UTF-8 encoding of a code point. *)
Definition utf8 (n : N) : string :=
  if (n <? 128)%N then String (ascii_of_N n) ""
  else if (n <? 2048)%N then
    String (ascii_of_N (192 + n / 64)) (String (ascii_of_N (128 + n mod 64)) "")
  else if (n <? 65536)%N then
    String (ascii_of_N (224 + n / 4096))
      (String (ascii_of_N (128 + (n / 64) mod 64))
         (String (ascii_of_N (128 + n mod 64)) ""))
  else
    String (ascii_of_N (240 + n / 262144))
      (String (ascii_of_N (128 + (n / 4096) mod 64))
         (String (ascii_of_N (128 + (n / 64) mod 64))
            (String (ascii_of_N (128 + n mod 64)) ""))).

Definition isSurrogate (n : N) : bool := (55296 <=? n)%N && (n <? 57344)%N.

(** The text after an opening quote: the decoded string and what follows
    the closing quote. *)
Fixpoint read_string (s : string) : option (string * string) :=
  let cons := fun (p : string) (r : option (string * string)) =>
    match r with
    | Some (v, rest) => Some (p +:+ v, rest)
    | None => None
    end in
  match s with
  | EmptyString => None
  | String c s1 =>
      if Ascii.eqb c quote then Some ("", s1)
      else if Ascii.eqb c "\"%char then
        match s1 with
        | String e s2 =>
            if Ascii.eqb e quote || Ascii.eqb e "\"%char || Ascii.eqb e "/"%char
            then cons (String e "") (read_string s2)
            else if Ascii.eqb e "b"%char then cons (String "008"%char "") (read_string s2)
            else if Ascii.eqb e "f"%char then cons (String "012"%char "") (read_string s2)
            else if Ascii.eqb e "n"%char then cons (String "010"%char "") (read_string s2)
            else if Ascii.eqb e "r"%char then cons (String "013"%char "") (read_string s2)
            else if Ascii.eqb e "t"%char then cons (String "009"%char "") (read_string s2)
            else if Ascii.eqb e "u"%char then
              match s2 with
              | String h1 (String h2 (String h3 (String h4 s3))) =>
                  match hex4 h1 h2 h3 h4 with
                  | Some n =>
                      if isSurrogate n then
                        match s3 with
                        | String "\"%char (String "u"%char
                            (String k1 (String k2 (String k3 (String k4 s4))))) =>
                            match hex4 k1 k2 k3 k4 with
                            | Some n2 =>
                                if (n <? 56320)%N && (56320 <=? n2)%N && (n2 <? 57344)%N
                                then cons (utf8 (65536 + (n - 55296) * 1024 + (n2 - 56320))%N)
                                          (read_string s4)
                                else cons (utf8 65533) (read_string s3)
                            | None => cons (utf8 65533) (read_string s3)
                            end
                        | _ => cons (utf8 65533) (read_string s3)
                        end
                      else cons (utf8 n) (read_string s3)
                  | None => None
                  end
              | _ => None
              end
            else None
        | EmptyString => None
        end
      else if (nat_of_ascii c <? 32)%nat then None
      else cons (String c "") (read_string s1)
  end.

Definition asciiLower (c : ascii) : ascii :=
  let n := nat_of_ascii c in
  if (65 <=? n)%nat && (n <=? 90)%nat then ascii_of_nat (n + 32) else c.

Fixpoint fold (s : string) : string :=
  match s with
  | EmptyString => ""
  | String c s' => String (asciiLower c) (fold s')
  end.

(** A member is stored in the field whose tag equals its name, case
    ignored; members with other names are skipped. *)
Definition assign (name value : string) (c : Config) : Config :=
  let k := fold name in
  if String.eqb k "provider" then set_Provider value c
  else if String.eqb k "openai_api_key" then set_OpenAIAPIKey value c
  else if String.eqb k "ollama_model" then set_OllamaModel value c
  else if String.eqb k "ollama_url" then set_OllamaURL value c
  else c.

(** A member's value: a string, or [null]. *)
Definition read_value (s : string) : option (option string * string) :=
  match s with
  | String c s1 =>
      if Ascii.eqb c quote then
        match read_string s1 with
        | Some (v, rest) => Some (Some v, rest)
        | None => None
        end
      else
        match s with
        | String "n"%char (String "u"%char (String "l"%char (String "l"%char rest))) =>
            Some (None, rest)
        | _ => None
        end
  | EmptyString => None
  end.

(** The members of the object, from the first name on. *)
Fixpoint read_members (fuel : nat) (s : string) (c : Config) : option Config :=
  match fuel with
  | O => None
  | S fuel' =>
      match skip_ws s with
      | String q s1 =>
          if negb (Ascii.eqb q quote) then None else
          match read_string s1 with
          | Some (name, s2) =>
              match skip_ws s2 with
              | String ":"%char s3 =>
                  match read_value (skip_ws s3) with
                  | Some (v, s4) =>
                      let c' := match v with Some x => assign name x c | None => c end in
                      match skip_ws s4 with
                      | String ","%char s5 => read_members fuel' s5 c'
                      | String "}"%char s5 =>
                          match skip_ws s5 with
                          | EmptyString => Some c'
                          | _ => None
                          end
                      | _ => None
                      end
                  | None => None
                  end
              | _ => None
              end
          | None => None
          end
      | EmptyString => None
      end
  end.

(** [json.Unmarshal(data, &cfg)] with [cfg] the zero value. *)
Definition Unmarshal (data : string) : result Config :=
  let bad := fail "invalid JSON for the configuration" in
  match skip_ws data with
  | String "{"%char s1 =>
      match skip_ws s1 with
      | String "}"%char s2 =>
          match skip_ws s2 with
          | EmptyString => ok zero
          | _ => bad
          end
      | _ =>
          match read_members (String.length data) s1 zero with
          | Some c => ok c
          | None => bad
          end
      end
  | _ => bad
  end.

(** *** Load and Save *)

Definition getConfigPath : M (result string) :=
  let* home := ask os_UserHomeDir in
  match home with
  | fail e => ret (fail e)
  | ok home =>
      let* mk := ask os_MkdirAll in
      match mk with
      | Some e => ret (fail e)
      | None => ret (ok (home +:+ "/.config/smartcommit/config.json"))
      end
  end.

Definition Load : M (result Config) :=
  record call_Load ;;
  let* p := getConfigPath in
  match p with
  | fail e => ret (fail e)
  | ok _ =>
      let* file := ask configFile in
      match file with
      | Some data =>
          (* os.Stat succeeded: load from the file *)
          let* rd := ask os_ReadFile in
          match rd with
          | Some e => ret (fail e)
          | None => ret (Unmarshal data)
          end
      | None =>
          (* defaults, seeded from the environment *)
          let* key := ask env_OPENAI_API_KEY in
          ret (ok (mkConfig ProviderOpenAI key "llama3" "http://localhost:11434"))
      end
  end.

(** [os.WriteFile]: on failure the file is left as it was. *)
Definition writeConfigFile (data : string) : M (option error) :=
  let* wr := ask os_WriteFile in
  match wr with
  | Some e => ret (Some e)
  | None => fun w => Some (None, set_configFile (Some data) w)
  end.

Definition Save (c : Config) : M (option error) :=
  let data := MarshalIndent c in
  let* p := getConfigPath in
  let* err := match p with
              | fail e => ret (Some e)
              | ok _ => writeConfigFile data
              end in
  record (call_Save data err) ;;
  ret err.

End config.

(** * internal/git/git.go *)

Module git.

(** IsRepo checks if the current directory is a git repository. *)
Definition IsRepo : M bool :=
  record call_IsRepo ;;
  ask git_rev_parse.

(** GetStagedDiff returns the diff of staged changes. *)
Definition GetStagedDiff : M (result string) :=
  record call_GetStagedDiff ;;
  let* out := ask git_diff_cached in
  match out with
  | fail e => ret (fail (wrapf "failed to get staged diff" e))
  | ok s => ret (ok s)
  end.

(** GetRecentHistory returns the last n commit messages with their bodies. *)
Definition GetRecentHistory (n : Z) : M (result string) :=
  record (call_GetRecentHistory n) ;;
  let* out := ask (fun w => git_log w n) in
  match out with
  | fail e => ret (fail (wrapf "failed to get git history" e))
  | ok s => ret (ok s)
  end.

(** CommitCmd: the argument vector of the commit command; an empty message
    runs [git commit] without [-m]. *)
Definition CommitCmd (message : string) : list string :=
  if String.eqb message "" then ["git"; "commit"]
  else ["git"; "commit"; "-e"; "-m"; message].

(** GetStagedDiffSize returns the number of bytes in the staged diff. *)
Definition GetStagedDiffSize : M (result Z) :=
  let* d := GetStagedDiff in
  match d with
  | fail e => ret (fail e)
  | ok diff => ret (ok (Z.of_nat (String.length diff)))
  end.

End git.

(** * internal/ai/ai.go *)

Module ai.

(** An [openai.Client] as the program configures it: the base URL option,
    when given, and the API key. *)
Record Client : Type := mkClient {
  BaseURL : option string;
  APIKey : string
}.

Record OpenAIClient : Type := mkOpenAIClient { openai_client : Client }.

Record OllamaClient : Type := mkOllamaClient {
  ollama_client : Client;
  model : string
}.

(** The two implementations of the [Provider] interface. *)
Inductive Provider : Type :=
| OpenAI (c : OpenAIClient)
| Ollama (c : OllamaClient).

Record HistoryAnalysisResponse : Type := mkHistoryAnalysisResponse {
  IsRelevant : bool;
  KeyContext : list string
}.

Definition NewOpenAIClient (apiKey : string) : OpenAIClient :=
  mkOpenAIClient (mkClient None apiKey).

(** [baseURL[len(baseURL)-1]], for a non-empty [baseURL] *)
Definition lastByte (s : string) : option ascii :=
  String.get (String.length s - 1) s.

(** [baseURL[len(baseURL)-3:]], for [len(baseURL) >= 3] *)
Definition last3 (s : string) : string :=
  String.substring (String.length s - 3) 3 s.

Definition NewOllamaClient (baseURL model : string) : OllamaClient :=
  (* Ensure BaseURL ends with /v1/ for OpenAI compatibility *)
  let baseURL :=
    if negb (String.eqb baseURL "")
       && negb (bool_decide (lastByte baseURL = Some "/"%char))
    then baseURL +:+ "/" else baseURL in
  let baseURL :=
    if (String.length baseURL <? 3)%nat || negb (String.eqb (last3 baseURL) "v1/")
    then baseURL +:+ "v1/" else baseURL in
  mkOllamaClient (mkClient (Some baseURL) "ollama") model.

(** NewClient creates a new AI provider based on the configuration. *)
Definition NewClient (cfg : config.Config) : result Provider :=
  if String.eqb (config.Provider cfg) config.ProviderOpenAI then
    ok (OpenAI (NewOpenAIClient (config.OpenAIAPIKey cfg)))
  else if String.eqb (config.Provider cfg) config.ProviderOllama then
    ok (Ollama (NewOllamaClient (config.OllamaURL cfg) (config.OllamaModel cfg)))
  else
    (* For backward compatibility, if key is present, assume OpenAI. *)
    if negb (String.eqb (config.OpenAIAPIKey cfg) "") then
      ok (OpenAI (NewOpenAIClient (config.OpenAIAPIKey cfg)))
    else fail ("unknown provider: " +:+ config.Provider cfg).

(** The three operations of a provider go over the network.  They are
    taken at their interface: what a call returns is up to the backend. *)
Record Backend : Type := mkBackend {
  GenerateQuestions : Provider -> string -> string -> result (list string);
  GenerateCommitMessage :
    Provider -> string -> string -> gmap string string -> result string;
  AnalyzeHistory : Provider -> string -> string -> result HistoryAnalysisResponse
}.

End ai.

(** * internal/tui/model.go *)

Module tui.

Inductive SessionState : Type :=
| StateLoading
| StateAnalysis
| StateHistoryAnalysis
| StateQuestioning
| StateReview
| StateCommit
| StateError
| StateSuccess
| StateSetup
| StateNoRepo
| StateWelcome
| StateDiffTooLarge.

Inductive SetupStep : Type :=
| SetupStepProvider
| SetupStepOpenAIKey
| SetupStepConfirmOpenAIKey
| SetupStepOllamaURL
| SetupStepOllamaModel.

(** ** Messages

    A key press carries its [Type] and the name [msg.String()] that the
    toolkit gives it; only [KeyEnter] is ever tested among the types. *)

Inductive KeyType : Type :=
| KeyEnter
| KeyCtrlC
| KeyRunes
| KeyOther.

Record Key : Type := mkKey {
  keyType : KeyType;      (* msg.Type *)
  keyString : string      (* msg.String() *)
}.

(** The keys the properties speak of, as the toolkit reports them. *)
Definition enterKey : Key := mkKey KeyEnter "enter".
Definition qKey : Key := mkKey KeyRunes "q".
Definition ctrlC : Key := mkKey KeyCtrlC "ctrl+c".

Inductive Msg : Type :=
| WindowSizeMsg (width height : Z)
| KeyMsg (k : Key)
| TickMsg (tick : nat)
| errMsg (e : error)
| diffTooLargeMsg
| prerequisitesCheckedMsg (cfg : config.Config) (diff history : string)
| setupRequiredMsg (cfg : config.Config)
| noRepoMsg
| historyAnalysisResultMsg (keyContext : list string)
| analysisResultMsg (questions : list string)
| commitMsgGeneratedMsg (message : string)
| commitSuccessMsg
| otherMsg (tag : nat).   (* a message of any other type, such as the cursor blink *)

(** ** Widgets of the toolkit

    The spinner and the text area are third-party widgets.  Their states
    are abstract; the commands they hand back are opaque tokens, which the
    runtime turns into a tick or into a widget-internal message. *)

Definition WidgetCmd : Type := nat.

Class Widgets : Type := {
  spinner_Model : Type;
  spinner_New : spinner_Model;
  spinner_Tick : spinner_Model -> WidgetCmd;
  spinner_Update : spinner_Model -> nat -> spinner_Model * WidgetCmd;
  textarea_Model : Type;
  textarea_New : textarea_Model;
  SetPlaceholder : string -> textarea_Model -> textarea_Model;
  Value : textarea_Model -> string;
  SetValue : string -> textarea_Model -> textarea_Model;
  Reset : textarea_Model -> textarea_Model;
  Focus : textarea_Model -> textarea_Model;
  SetWidth : Z -> textarea_Model -> textarea_Model;
  textarea_Update : textarea_Model -> Msg -> textarea_Model * WidgetCmd;
  widget_fire : WidgetCmd -> option (nat + nat)   (* a tick, or another message *)
}.

Record viewport_Model : Type := mkViewport {
  vpWidth : Z;
  vpHeight : Z
}.

(** ** Commands

    A [tea.Cmd] is a closure; it is represented by its code and the values
    it captured.  [exec] below runs it. *)

Inductive Cmd : Type :=
| CmdNil                                     (* nil *)
| CmdQuit                                    (* tea.Quit *)
| CmdWidget (c : WidgetCmd)
| CmdErr (e : error)                         (* func() tea.Msg { return errMsg(err) } *)
| CmdCheckPrerequisites                      (* checkPrerequisitesCmd *)
| CmdAnalyzeHistory (client : option ai.Provider) (diff history : string)
| CmdAnalyzeChanges (client : option ai.Provider) (diff history : string)
| CmdGenerateCommitMsg (client : option ai.Provider) (diff history : string)
    (historyCtx : list string) (answers : gmap string string)
| CmdCommit (msg : string).

Section Session.

Context {strings : GoStrings} {widgets : Widgets}.

(** The field [SetupStep] is spelled [setupStep] here, as its type has the
    name. *)
Record Model : Type := mkModel {
  State : SessionState;
  Spinner : spinner_Model;
  TextArea : textarea_Model;
  Viewport : viewport_Model;
  Err : option error;
  Config : option config.Config;
  AIClient : option ai.Provider;
  Diff : string;
  History : string;
  HistoryCtx : list string;
  Questions : list string;
  Answers : gmap string string;
  CurrentQIdx : Z;
  CommitMsg : string;
  setupStep : SetupStep;
  SelectedProvider : config.ProviderType;
  Width : Z;
  Height : Z
}.

(** Field updates, [m.F = v]. *)
Definition set_State (v : SessionState) (m : Model) : Model :=
  mkModel v (Spinner m) (TextArea m) (Viewport m) (Err m) (Config m) (AIClient m)
    (Diff m) (History m) (HistoryCtx m) (Questions m) (Answers m) (CurrentQIdx m)
    (CommitMsg m) (setupStep m) (SelectedProvider m) (Width m) (Height m).
Definition set_Spinner (v : spinner_Model) (m : Model) : Model :=
  mkModel (State m) v (TextArea m) (Viewport m) (Err m) (Config m) (AIClient m)
    (Diff m) (History m) (HistoryCtx m) (Questions m) (Answers m) (CurrentQIdx m)
    (CommitMsg m) (setupStep m) (SelectedProvider m) (Width m) (Height m).
Definition set_TextArea (v : textarea_Model) (m : Model) : Model :=
  mkModel (State m) (Spinner m) v (Viewport m) (Err m) (Config m) (AIClient m)
    (Diff m) (History m) (HistoryCtx m) (Questions m) (Answers m) (CurrentQIdx m)
    (CommitMsg m) (setupStep m) (SelectedProvider m) (Width m) (Height m).
Definition set_Viewport (v : viewport_Model) (m : Model) : Model :=
  mkModel (State m) (Spinner m) (TextArea m) v (Err m) (Config m) (AIClient m)
    (Diff m) (History m) (HistoryCtx m) (Questions m) (Answers m) (CurrentQIdx m)
    (CommitMsg m) (setupStep m) (SelectedProvider m) (Width m) (Height m).
Definition set_Err (v : option error) (m : Model) : Model :=
  mkModel (State m) (Spinner m) (TextArea m) (Viewport m) v (Config m) (AIClient m)
    (Diff m) (History m) (HistoryCtx m) (Questions m) (Answers m) (CurrentQIdx m)
    (CommitMsg m) (setupStep m) (SelectedProvider m) (Width m) (Height m).
Definition set_Config (v : option config.Config) (m : Model) : Model :=
  mkModel (State m) (Spinner m) (TextArea m) (Viewport m) (Err m) v (AIClient m)
    (Diff m) (History m) (HistoryCtx m) (Questions m) (Answers m) (CurrentQIdx m)
    (CommitMsg m) (setupStep m) (SelectedProvider m) (Width m) (Height m).
Definition set_AIClient (v : option ai.Provider) (m : Model) : Model :=
  mkModel (State m) (Spinner m) (TextArea m) (Viewport m) (Err m) (Config m) v
    (Diff m) (History m) (HistoryCtx m) (Questions m) (Answers m) (CurrentQIdx m)
    (CommitMsg m) (setupStep m) (SelectedProvider m) (Width m) (Height m).
Definition set_Diff (v : string) (m : Model) : Model :=
  mkModel (State m) (Spinner m) (TextArea m) (Viewport m) (Err m) (Config m)
    (AIClient m) v (History m) (HistoryCtx m) (Questions m) (Answers m) (CurrentQIdx m)
    (CommitMsg m) (setupStep m) (SelectedProvider m) (Width m) (Height m).
Definition set_History (v : string) (m : Model) : Model :=
  mkModel (State m) (Spinner m) (TextArea m) (Viewport m) (Err m) (Config m)
    (AIClient m) (Diff m) v (HistoryCtx m) (Questions m) (Answers m) (CurrentQIdx m)
    (CommitMsg m) (setupStep m) (SelectedProvider m) (Width m) (Height m).
Definition set_HistoryCtx (v : list string) (m : Model) : Model :=
  mkModel (State m) (Spinner m) (TextArea m) (Viewport m) (Err m) (Config m)
    (AIClient m) (Diff m) (History m) v (Questions m) (Answers m) (CurrentQIdx m)
    (CommitMsg m) (setupStep m) (SelectedProvider m) (Width m) (Height m).
Definition set_Questions (v : list string) (m : Model) : Model :=
  mkModel (State m) (Spinner m) (TextArea m) (Viewport m) (Err m) (Config m)
    (AIClient m) (Diff m) (History m) (HistoryCtx m) v (Answers m) (CurrentQIdx m)
    (CommitMsg m) (setupStep m) (SelectedProvider m) (Width m) (Height m).
Definition set_Answers (v : gmap string string) (m : Model) : Model :=
  mkModel (State m) (Spinner m) (TextArea m) (Viewport m) (Err m) (Config m)
    (AIClient m) (Diff m) (History m) (HistoryCtx m) (Questions m) v (CurrentQIdx m)
    (CommitMsg m) (setupStep m) (SelectedProvider m) (Width m) (Height m).
Definition set_CurrentQIdx (v : Z) (m : Model) : Model :=
  mkModel (State m) (Spinner m) (TextArea m) (Viewport m) (Err m) (Config m)
    (AIClient m) (Diff m) (History m) (HistoryCtx m) (Questions m) (Answers m) v
    (CommitMsg m) (setupStep m) (SelectedProvider m) (Width m) (Height m).
Definition set_CommitMsg (v : string) (m : Model) : Model :=
  mkModel (State m) (Spinner m) (TextArea m) (Viewport m) (Err m) (Config m)
    (AIClient m) (Diff m) (History m) (HistoryCtx m) (Questions m) (Answers m)
    (CurrentQIdx m) v (setupStep m) (SelectedProvider m) (Width m) (Height m).
Definition set_setupStep (v : SetupStep) (m : Model) : Model :=
  mkModel (State m) (Spinner m) (TextArea m) (Viewport m) (Err m) (Config m)
    (AIClient m) (Diff m) (History m) (HistoryCtx m) (Questions m) (Answers m)
    (CurrentQIdx m) (CommitMsg m) v (SelectedProvider m) (Width m) (Height m).
Definition set_SelectedProvider (v : config.ProviderType) (m : Model) : Model :=
  mkModel (State m) (Spinner m) (TextArea m) (Viewport m) (Err m) (Config m)
    (AIClient m) (Diff m) (History m) (HistoryCtx m) (Questions m) (Answers m)
    (CurrentQIdx m) (CommitMsg m) (setupStep m) v (Width m) (Height m).
Definition set_Width (v : Z) (m : Model) : Model :=
  mkModel (State m) (Spinner m) (TextArea m) (Viewport m) (Err m) (Config m)
    (AIClient m) (Diff m) (History m) (HistoryCtx m) (Questions m) (Answers m)
    (CurrentQIdx m) (CommitMsg m) (setupStep m) (SelectedProvider m) v (Height m).
Definition set_Height (v : Z) (m : Model) : Model :=
  mkModel (State m) (Spinner m) (TextArea m) (Viewport m) (Err m) (Config m)
    (AIClient m) (Diff m) (History m) (HistoryCtx m) (Questions m) (Answers m)
    (CurrentQIdx m) (CommitMsg m) (setupStep m) (SelectedProvider m) (Width m) v.

Definition NewModel : Model :=
  mkModel StateLoading spinner_New
    (Focus (SetPlaceholder "Type your answer here..." textarea_New))
    (mkViewport 80 20) None None None "" "" [] [] ∅ 0 "" SetupStepProvider ""
    80 24.

Definition Init (m : Model) : list Cmd :=
  [CmdWidget (spinner_Tick (Spinner m)); CmdCheckPrerequisites].

(** ** Update *)

(** The states in which the key "q" quits at once. *)
Definition quitsOnQ (s : SessionState) : bool :=
  match s with
  | StateQuestioning | StateReview | StateSetup | StateWelcome
  | StateDiffTooLarge => false
  | _ => true
  end.

(** [m.TextArea, cmd = m.TextArea.Update(msg); return m, cmd] *)
Definition textAreaUpdate (m : Model) (msg : Msg) : M (Model * Cmd) :=
  let '(ta, c) := textarea_Update (TextArea m) msg in
  ret (set_TextArea ta m, CmdWidget c).

(** [m.Config.F = v]: a nil [m.Config] panics. *)
Definition withConfig {A} (m : Model) (k : config.Config -> M A) : M A :=
  match Config m with
  | Some cfg => k cfg
  | None => panic
  end.

(** [if err := m.Config.Save(); err != nil { ...; return m, nil }] followed
    by what [rest] does to [m] before it returns [checkPrerequisitesCmd]. *)
Definition saveConfig (cfg : config.Config) (m : Model) (rest : Model -> Model)
  : M (option (Model * Cmd)) :=
  let m := set_Config (Some cfg) m in
  let* err := config.Save cfg in
  match err with
  | Some e => ret (Some (set_State StateError (set_Err (Some e) m), CmdNil))
  | None => ret (Some (rest m, CmdCheckPrerequisites))
  end.

(** The key handling of [StateSetup]; [None] when no case returned. *)
Definition setupKey (m : Model) (k : Key) : M (option (Model * Cmd)) :=
  match setupStep m with
  | SetupStepProvider =>
      if String.eqb (keyString k) "1" then
        let m := set_SelectedProvider config.ProviderOpenAI m in
        let* env := ask env_OPENAI_API_KEY in
        let m := if negb (String.eqb env "")
                 then set_setupStep SetupStepConfirmOpenAIKey m
                 else set_setupStep SetupStepOpenAIKey m in
        ret (Some (set_TextArea (Reset (TextArea m)) m, CmdNil))
      else if String.eqb (keyString k) "2" then
        let m := set_SelectedProvider config.ProviderOllama m in
        let m := set_setupStep SetupStepOllamaURL m in
        let m := set_TextArea (Reset (TextArea m)) m in
        let m := set_TextArea (SetValue "http://localhost:11434" (TextArea m)) m in
        ret (Some (m, CmdNil))
      else ret None
  | SetupStepConfirmOpenAIKey =>
      let s := ToLower (keyString k) in
      if String.eqb s "y" || String.eqb s "enter" then
        withConfig m (fun cfg =>
          let cfg := config.set_Provider config.ProviderOpenAI cfg in
          let* env := ask env_OPENAI_API_KEY in
          let cfg := config.set_OpenAIAPIKey env cfg in
          saveConfig cfg m (fun m => m))
      else if String.eqb s "n" then
        let m := set_setupStep SetupStepOpenAIKey m in
        ret (Some (set_TextArea (Reset (TextArea m)) m, CmdNil))
      else ret None
  | SetupStepOpenAIKey =>
      match keyType k with
      | KeyEnter =>
          let input := TrimSpace (Value (TextArea m)) in
          if negb (String.eqb input "") then
            withConfig m (fun cfg =>
              let cfg := config.set_Provider config.ProviderOpenAI cfg in
              let cfg := config.set_OpenAIAPIKey input cfg in
              saveConfig cfg m (fun m => set_TextArea (Reset (TextArea m)) m))
          else ret None
      | _ => ret None
      end
  | SetupStepOllamaURL =>
      match keyType k with
      | KeyEnter =>
          let input := TrimSpace (Value (TextArea m)) in
          if negb (String.eqb input "") then
            withConfig m (fun cfg =>
              let m := set_Config (Some (config.set_OllamaURL input cfg)) m in
              let m := set_setupStep SetupStepOllamaModel m in
              let m := set_TextArea (Reset (TextArea m)) m in
              let m := set_TextArea (SetValue "llama3.1" (TextArea m)) m in
              ret (Some (m, CmdNil)))
          else ret None
      | _ => ret None
      end
  | SetupStepOllamaModel =>
      match keyType k with
      | KeyEnter =>
          let input := TrimSpace (Value (TextArea m)) in
          if negb (String.eqb input "") then
            withConfig m (fun cfg =>
              let cfg := config.set_Provider config.ProviderOllama cfg in
              let cfg := config.set_OllamaModel input cfg in
              saveConfig cfg m (fun m => set_TextArea (Reset (TextArea m)) m))
          else ret None
      | _ => ret None
      end
  end.

(** The key handling of [StateQuestioning]; [None] when nothing returned.
    [m.Questions[m.CurrentQIdx]] panics out of range.  The increment cannot
    wrap around: the index was just found below [len(m.Questions)]. *)
Definition questioningKey (m : Model) (k : Key) : M (option (Model * Cmd)) :=
  match keyType k with
  | KeyEnter =>
      (* Submit the current answer *)
      let answer := TrimSpace (Value (TextArea m)) in
      if negb (String.eqb answer "") then
        match (if 0 <=? CurrentQIdx m
               then Questions m !! Z.to_nat (CurrentQIdx m) else None) with
        | None => panic
        | Some question =>
            let m := set_Answers (<[question := answer]> (Answers m)) m in
            let m := set_CurrentQIdx (CurrentQIdx m + 1) m in
            let m := set_TextArea (Reset (TextArea m)) m in
            let m := set_TextArea (Focus (TextArea m)) m in
            (* Check if we've answered all questions *)
            if CurrentQIdx m >=? Z.of_nat (length (Questions m)) then
              let m := set_State StateLoading m in
              ret (Some (m, CmdGenerateCommitMsg (AIClient m) (Diff m) (History m)
                              (HistoryCtx m) (Answers m)))
            else ret (Some (m, CmdNil))
        end
      else ret None
  | _ => ret None
  end.

(** The second switch of [Update]: the state-specific handling. *)
Definition updateState (m : Model) (msg : Msg) : M (Model * Cmd) :=
  match State m with
  | StateDiffTooLarge =>
      match msg with
      | KeyMsg k =>
          if String.eqb (keyString k) "m" || String.eqb (keyString k) "enter" then
            (* Manual Mode *)
            let m := set_CommitMsg "" m in
            let m := set_State StateCommit m in
            ret (m, CmdCommit (CommitMsg m))
          else if String.eqb (keyString k) "q" || String.eqb (keyString k) "ctrl+c"
          then ret (m, CmdQuit)
          else ret (m, CmdNil)
      | _ => ret (m, CmdNil)
      end
  | StateWelcome =>
      match msg with
      | KeyMsg k =>
          if String.eqb (keyString k) "1" || String.eqb (keyString k) "enter" then
            (* AI Mode *)
            let m := set_State StateHistoryAnalysis m in
            ret (m, CmdAnalyzeHistory (AIClient m) (Diff m) (History m))
          else if String.eqb (keyString k) "2" then
            (* Manual Mode *)
            let m := set_CommitMsg "" m in
            let m := set_State StateCommit m in
            ret (m, CmdCommit (CommitMsg m))
          else if String.eqb (keyString k) "c" || String.eqb (keyString k) "C" then
            (* Reconfigure provider *)
            let m := set_State StateSetup m in
            let m := set_setupStep SetupStepProvider m in
            ret (m, CmdNil)
          else ret (m, CmdNil)
      | _ => ret (m, CmdNil)
      end
  | StateSetup =>
      match msg with
      | KeyMsg k =>
          let* r := setupKey m k in
          match r with
          | Some out => ret out
          | None => textAreaUpdate m msg
          end
      | _ => textAreaUpdate m msg
      end
  | StateQuestioning =>
      match msg with
      | KeyMsg k =>
          let* r := questioningKey m k in
          match r with
          | Some out => ret out
          | None => textAreaUpdate m msg
          end
      | _ => textAreaUpdate m msg
      end
  | StateNoRepo =>
      match msg with
      | KeyMsg k =>
          if String.eqb (keyString k) "q" || String.eqb (keyString k) "ctrl+c"
          then ret (m, CmdQuit)
          else ret (m, CmdNil)
      | _ => ret (m, CmdNil)
      end
  | _ => ret (m, CmdNil)
  end.

Definition Update (m : Model) (msg : Msg) : M (Model * Cmd) :=
  match msg with
  | WindowSizeMsg width height =>
      let m := set_Width width m in
      let m := set_Height height m in
      let m := set_Viewport (mkViewport width (vpHeight (Viewport m))) m in
      let m := set_Viewport (mkViewport (vpWidth (Viewport m)) height) m in
      let m := set_TextArea (SetWidth (int_wrap (width - 4)) (TextArea m)) m in
      updateState m msg
  | KeyMsg k =>
      if String.eqb (keyString k) "ctrl+c" then ret (m, CmdQuit)
      else if String.eqb (keyString k) "q" && quitsOnQ (State m) then ret (m, CmdQuit)
      else updateState m msg
  | TickMsg tick =>
      let '(s, c) := spinner_Update (Spinner m) tick in
      ret (set_Spinner s m, CmdWidget c)
  | errMsg e =>
      let m := set_Err (Some e) m in
      let m := set_State StateError m in
      ret (m, CmdNil)
  | diffTooLargeMsg =>
      ret (set_State StateDiffTooLarge m, CmdNil)
  | prerequisitesCheckedMsg cfg diff history =>
      let m := set_Config (Some cfg) m in
      match ai.NewClient cfg with
      | fail err => ret (m, CmdErr err)
      | ok client =>
          let m := set_AIClient (Some client) m in
          let m := set_Diff diff m in
          let m := set_History history m in
          (* Transition to Welcome screen instead of History Analysis *)
          let m := set_State StateWelcome m in
          ret (m, CmdNil)
      end
  | historyAnalysisResultMsg keyContext =>
      let m := set_HistoryCtx keyContext m in
      let m := set_State StateAnalysis m in
      ret (m, CmdAnalyzeChanges (AIClient m) (Diff m) (History m))
  | analysisResultMsg questions =>
      let m := set_Questions questions m in
      if (length (Questions m) =? 0)%nat then
        ret (m, CmdGenerateCommitMsg (AIClient m) (Diff m) (History m)
                  (HistoryCtx m) (Answers m))
      else
        let m := set_State StateQuestioning m in
        let m := set_TextArea (Focus (TextArea m)) m in
        ret (m, CmdNil)
  | commitMsgGeneratedMsg message =>
      let m := set_CommitMsg message m in
      let m := set_State StateCommit m in
      ret (m, CmdCommit (CommitMsg m))
  | commitSuccessMsg =>
      ret (set_State StateSuccess m, CmdQuit)
  | setupRequiredMsg cfg =>
      let m := set_Config (Some cfg) m in
      ret (set_State StateSetup m, CmdNil)
  | noRepoMsg =>
      ret (set_State StateNoRepo m, CmdNil)
  | otherMsg _ => updateState m msg
  end.

(** ** Commands *)

(** The validation block of [checkPrerequisitesCmd]: the value of its
    variable [needsSetup], and [cfg] as the block leaves it. *)
Definition needsSetup (cfg : config.Config) : M (bool * config.Config) :=
  if String.eqb (config.Provider cfg) "" then ret (true, cfg)
  else if String.eqb (config.Provider cfg) config.ProviderOpenAI then
    (* For OpenAI, check config first, then fall back to env var *)
    if String.eqb (config.OpenAIAPIKey cfg) "" then
      let* envKey := ask env_OPENAI_API_KEY in
      if negb (String.eqb envKey "") then
        (* Use env var and save it to config for consistency *)
        let cfg := config.set_OpenAIAPIKey envKey cfg in
        config.Save cfg ;;   (* Ignore error, not critical *)
        ret (false, cfg)
      else ret (true, cfg)
    else ret (false, cfg)
  else if String.eqb (config.Provider cfg) config.ProviderOllama
          && (String.eqb (config.OllamaURL cfg) ""
              || String.eqb (config.OllamaModel cfg) "")
  then ret (true, cfg)
  else ret (false, cfg).

Definition checkPrerequisitesCmd : M Msg :=
  let* loaded := config.Load in
  match loaded with
  | fail err => ret (errMsg err)
  | ok cfg =>
      (* Check if setup is needed - validate provider-specific requirements *)
      let* (needsSetup, cfg) := needsSetup cfg in
      if needsSetup then ret (setupRequiredMsg cfg) else
      let* repo := git.IsRepo in
      if negb repo then ret noRepoMsg else
      let* staged := git.GetStagedDiff in
      match staged with
      | fail err => ret (errMsg err)
      | ok diff =>
          if String.eqb (TrimSpace diff) "" then
            ret (errMsg "no staged changes found")
          else if Z.of_nat (String.length diff) >? 40000 then
            (* ~10k tokens, safety limit *)
            ret diffTooLargeMsg
          else
            let* log := git.GetRecentHistory 10 in   (* Get last 10 commits *)
            match log with
            | fail err => ret (errMsg err)
            | ok history => ret (prerequisitesCheckedMsg cfg diff history)
            end
      end
  end.

Context (net : ai.Backend).

(** A method call on a nil [ai.Provider] panics. *)
Definition callBackend {A} (op : BackendOp) (client : option ai.Provider)
    (call : ai.Provider -> A) : M A :=
  match client with
  | None => panic
  | Some p => record (call_Backend op) ;; ret (call p)
  end.

Definition analyzeHistoryCmd (client : option ai.Provider) (diff history : string)
  : M Msg :=
  let* r := callBackend opAnalyzeHistory client
              (fun p => ai.AnalyzeHistory net p diff history) in
  match r with
  | fail err => ret (errMsg err)
  | ok analysis => ret (historyAnalysisResultMsg (ai.KeyContext analysis))
  end.

Definition analyzeChangesCmd (client : option ai.Provider) (diff history : string)
  : M Msg :=
  let* r := callBackend opGenerateQuestions client
              (fun p => ai.GenerateQuestions net p diff history) in
  match r with
  | fail err => ret (errMsg err)
  | ok questions => ret (analysisResultMsg questions)
  end.

(** [strings.Join(elems, sep)] *)
Fixpoint Join (elems : list string) (sep : string) : string :=
  match elems with
  | [] => ""
  | [x] => x
  | x :: rest => x +:+ sep +:+ Join rest sep
  end.

Definition NL : string := String config.LF "".

Definition generateCommitMsgCmd (client : option ai.Provider) (diff history : string)
    (historyCtx : list string) (answers : gmap string string) : M Msg :=
  let fullHistoryContext :=
    if (0 <? length historyCtx)%nat then
      history +:+ NL +:+ NL +:+ "Key Context from History:" +:+ NL +:+ "- "
              +:+ Join historyCtx (NL +:+ "- ")
    else history in
  let* r := callBackend opGenerateCommitMessage client
              (fun p => ai.GenerateCommitMessage net p diff fullHistoryContext answers) in
  match r with
  | fail err => ret (errMsg err)
  | ok msg => ret (commitMsgGeneratedMsg msg)
  end.

Definition commitCmd (msg : string) : M Msg :=
  let c := git.CommitCmd msg in
  record (call_Commit msg) ;;
  let* err := ask (fun w => git_commit w c) in
  match err with
  | Some e => ret (errMsg e)
  | None => ret commitSuccessMsg
  end.

(** Running a command gives the message the runtime then hands to
    [Update]; [nil] and [tea.Quit] hand it none. *)
Definition exec (c : Cmd) : M (option Msg) :=
  let some := fun (run : M Msg) => let* msg := run in ret (Some msg) in
  match c with
  | CmdNil => ret None
  | CmdQuit => ret None
  | CmdWidget t =>
      ret (match widget_fire t with
           | Some (inl tick) => Some (TickMsg tick)
           | Some (inr tag) => Some (otherMsg tag)
           | None => None
           end)
  | CmdErr e => ret (Some (errMsg e))
  | CmdCheckPrerequisites => some checkPrerequisitesCmd
  | CmdAnalyzeHistory client diff history => some (analyzeHistoryCmd client diff history)
  | CmdAnalyzeChanges client diff history => some (analyzeChangesCmd client diff history)
  | CmdGenerateCommitMsg client diff history historyCtx answers =>
      some (generateCommitMsgCmd client diff history historyCtx answers)
  | CmdCommit msg => some (commitCmd msg)
  end.

(** ** The event loop

    The runtime holds the model and the commands that were returned and
    have not completed.  It hands [Update] either an input of the user (a
    key, a resize) or the message of a command that completes, in any order.
    A pending [tea.Quit] ends the program; the relation lets the loop go on,
    which only adds behaviours. *)

Record Sys : Type := mkSys {
  model : Model;
  pending : list Cmd;
  world : World
}.

Definition userInput (msg : Msg) : bool :=
  match msg with
  | KeyMsg _ | WindowSizeMsg _ _ => true
  | _ => false
  end.

Inductive step : Sys -> Sys -> Prop :=
| step_input m P w msg m' c w' :
    userInput msg = true ->
    Update m msg w = Some ((m', c), w') ->
    step (mkSys m P w) (mkSys m' (c :: P) w')
| step_complete m P1 c0 P2 w msg w1 m' c w' :
    exec c0 w = Some (Some msg, w1) ->
    Update m msg w1 = Some ((m', c), w') ->
    step (mkSys m (P1 ++ c0 :: P2) w) (mkSys m' (c :: P1 ++ P2) w').

Inductive steps : Sys -> Sys -> Prop :=
| steps_refl s : steps s s
| steps_next s1 s2 s3 : step s1 s2 -> steps s2 s3 -> steps s1 s3.

(** Delivering a list of messages in order. *)
Fixpoint deliver (m : Model) (msgs : list Msg) : M Model :=
  match msgs with
  | [] => ret m
  | msg :: rest =>
      let* (next, _) := Update m msg in
      deliver next rest
  end.

End Session.

End tui.

(** * Vocabulary of the specification *)

Module spec.

Definition endsWith (s suffix : string) : Prop := exists p, s = p +:+ suffix.

(** [url] is [s] with "v1/" appended unless [s] already ends with it. *)
Definition withV1 (s url : string) : Prop :=
  (endsWith s "v1/" /\ url = s) \/ (~ endsWith s "v1/" /\ url = s +:+ "v1/").

(** The provider configuration is incomplete: no provider chosen, the
    remote provider without a key in the record or in the environment, or
    the local provider without its URL or its model name. *)
Definition incomplete (cfg : config.Config) (envKey : string) : Prop :=
  config.Provider cfg = ""
  \/ (config.Provider cfg = config.ProviderOpenAI
      /\ config.OpenAIAPIKey cfg = "" /\ envKey = "")
  \/ (config.Provider cfg = config.ProviderOllama
      /\ (config.OllamaURL cfg = "" \/ config.OllamaModel cfg = "")).

(** The configuration the check hands on: a remote provider without a key
    takes the key of the environment. *)
Definition effective (cfg : config.Config) (envKey : string) : config.Config :=
  if String.eqb (config.Provider cfg) config.ProviderOpenAI
     && String.eqb (config.OpenAIAPIKey cfg) ""
  then config.set_OpenAIAPIKey envKey cfg else cfg.

(** Bytes below 0x80 only. *)
Definition isASCII (s : string) : Prop :=
  Forall (fun c => (nat_of_ascii c < 128)%nat) (list_ascii_of_string s).

(** What decoding makes of the byte [c] in front of an already decoded rest. *)
Definition consByte (c : ascii) (r : option (string * string)) : option (string * string) :=
  match r with
  | Some (v, rest) => Some (String c v, rest)
  | None => None
  end.

(** The records the round trip is stated for: ASCII text in every field. *)
Definition plain (c : config.Config) : Prop :=
  isASCII (config.Provider c) /\ isASCII (config.OpenAIAPIKey c)
  /\ isASCII (config.OllamaModel c) /\ isASCII (config.OllamaURL c).

(** Two worlds that differ at most in the configuration file and in the
    log of calls. *)
Definition sameMachine (w w' : World) : Prop :=
  env_OPENAI_API_KEY w' = env_OPENAI_API_KEY w
  /\ os_UserHomeDir w' = os_UserHomeDir w
  /\ os_MkdirAll w' = os_MkdirAll w
  /\ os_ReadFile w' = os_ReadFile w
  /\ os_WriteFile w' = os_WriteFile w
  /\ git_rev_parse w' = git_rev_parse w
  /\ git_diff_cached w' = git_diff_cached w
  /\ git_log w' = git_log w
  /\ git_commit w' = git_commit w.

(** The error [Config.Save] returns in a world, if any. *)
Definition saveError (w : World) : option error :=
  match os_UserHomeDir w with
  | fail e => Some e
  | ok _ =>
      match os_MkdirAll w with
      | Some e => Some e
      | None => os_WriteFile w
      end
  end.

Definition isSave (c : Call) : Prop :=
  match c with
  | call_Save _ _ => True
  | _ => False
  end.

Definition isBackend (c : Call) : Prop :=
  match c with
  | call_Backend _ => True
  | _ => False
  end.

(** On [msg] the session moves to state [s] and dispatches nothing. *)
Definition goesTo `{GoStrings} `{tui.Widgets} (m : tui.Model) (msg : tui.Msg)
    (w : World) (s : tui.SessionState) : Prop :=
  exists m', tui.Update m msg w = Some ((m', tui.CmdNil), w) /\ tui.State m' = s.

(** Commands that stand for no operation of the program: nothing, the
    request to quit, and the commands of the widgets. *)
Definition inert (c : tui.Cmd) : Prop :=
  match c with
  | tui.CmdNil | tui.CmdQuit | tui.CmdWidget _ => True
  | _ => False
  end.

(** What the user and the widgets send: keys, resizes, ticks and
    widget-internal messages. *)
Definition quiet (msg : tui.Msg) : Prop :=
  match msg with
  | tui.KeyMsg _ | tui.WindowSizeMsg _ _ | tui.TickMsg _ | tui.otherMsg _ => True
  | _ => False
  end.

(** No answer was accepted yet: the session has not been in Questioning. *)
Definition fresh `{tui.Widgets} (m : tui.Model) : Prop :=
  tui.State m <> tui.StateQuestioning
  /\ tui.CurrentQIdx m = 0
  /\ tui.Answers m = ∅.

(** A message that brings a non-empty list of questions. *)
Definition bringsQuestions (msg : tui.Msg) : Prop :=
  match msg with
  | tui.analysisResultMsg (_ :: _) => True
  | _ => False
  end.

(** The answer a text area holds: its text, trimmed. *)
Definition answerOf `{GoStrings} `{tui.Widgets} (ta : tui.textarea_Model) : string :=
  TrimSpace (tui.Value ta).

(** A submission: Enter is pressed while the text area is [ta].  Whatever was
    typed since the last submission went to the text area only. *)
Definition submit `{GoStrings} `{tui.Widgets} (m : tui.Model) (ta : tui.textarea_Model)
  : M tui.Model :=
  let* (next, _) := tui.Update (tui.set_TextArea ta m) (tui.KeyMsg tui.enterKey) in
  ret next.

Fixpoint submitAll `{GoStrings} `{tui.Widgets} (m : tui.Model)
    (tas : list tui.textarea_Model) : M tui.Model :=
  match tas with
  | [] => ret m
  | ta :: rest =>
      let* next := submit m ta in
      submitAll next rest
  end.

(** The answers after the pairs of [l] were stored one after the other. *)
Definition stored (answers : gmap string string) (l : list (string * string))
  : gmap string string :=
  foldl (fun a p => <[p.1 := p.2]> a) answers l.

End spec.

(** * Concrete instances, for running the model

    [strings.TrimSpace] and [strings.ToLower] restricted to what they do on
    ASCII text, a text area that is only written from outside, and a backend
    that always answers the same. *)

Module concrete.

Fixpoint trimLeft (s : string) : string :=
  match s with
  | String c s' => if Ascii.is_space c then trimLeft s' else s
  | EmptyString => s
  end.

Fixpoint trimRight (s : string) : string :=
  match s with
  | String c s' =>
      match trimRight s' with
      | EmptyString => if Ascii.is_space c then "" else String c ""
      | r => String c r
      end
  | EmptyString => s
  end.

Definition asciiStrings : GoStrings :=
  {| TrimSpace := fun s => trimRight (trimLeft s);
     ToLower := config.fold |}.

Record plainTextArea : Type := mkTextArea {
  text : string;
  placeholder : string;
  focused : bool;
  columns : Z
}.

Definition plainWidgets : tui.Widgets :=
  {| tui.spinner_Model := nat;
     tui.spinner_New := O;
     tui.spinner_Tick := fun frame => frame;
     tui.spinner_Update := fun frame _ => (S frame, S frame);
     tui.textarea_Model := plainTextArea;
     tui.textarea_New := mkTextArea "" "" false 0;
     tui.SetPlaceholder := fun p t => mkTextArea (text t) p (focused t) (columns t);
     tui.Value := text;
     tui.SetValue := fun v t => mkTextArea v (placeholder t) (focused t) (columns t);
     tui.Reset := fun t => mkTextArea "" (placeholder t) (focused t) (columns t);
     tui.Focus := fun t => mkTextArea (text t) (placeholder t) true (columns t);
     tui.SetWidth := fun n t => mkTextArea (text t) (placeholder t) (focused t) n;
     tui.textarea_Update := fun t _ => (t, O);
     tui.widget_fire := fun c => Some (inl c) |}.

Definition fixedBackend (questions : list string) : ai.Backend :=
  {| ai.GenerateQuestions := fun _ _ _ => ok questions;
     ai.GenerateCommitMessage := fun _ _ _ _ => ok "feat: change";
     ai.AnalyzeHistory := fun _ _ _ => ok (ai.mkHistoryAnalysisResponse false []) |}.

(** A machine on which every system call succeeds, inside a repository,
    with [file] as the configuration file and [diff] staged. *)
Definition machine (file : option string) (envKey diff : string) : World :=
  {| env_OPENAI_API_KEY := envKey;
     os_UserHomeDir := ok "/home/dev";
     os_MkdirAll := None;
     configFile := file;
     os_ReadFile := None;
     os_WriteFile := None;
     git_rev_parse := true;
     git_diff_cached := ok diff;
     git_log := fun _ => ok "Commit: 1a2b3c4";
     git_commit := fun _ => None;
     calls := [] |}.

(** The same machine with a configuration file that cannot be written. *)
Definition readOnly (w : World) : World :=
  mkWorld (env_OPENAI_API_KEY w) (os_UserHomeDir w) (os_MkdirAll w) (configFile w)
          (os_ReadFile w) (Some "open config.json: permission denied")
          (git_rev_parse w) (git_diff_cached w) (git_log w) (git_commit w) (calls w).

Definition Update := @tui.Update asciiStrings plainWidgets.
Definition NewModel := @tui.NewModel plainWidgets.
Definition checkPrerequisitesCmd := @tui.checkPrerequisitesCmd asciiStrings.
Definition exec := @tui.exec asciiStrings plainWidgets (fixedBackend []).

(** The model in a given state, with given text in the text area, and in
    Questioning with given questions. *)
Definition inState (s : tui.SessionState) : @tui.Model plainWidgets :=
  tui.set_State s NewModel.

Definition withText (s : string) (m : @tui.Model plainWidgets) : @tui.Model plainWidgets :=
  @tui.set_TextArea plainWidgets (mkTextArea s "Type your answer here..." true 76) m.

Definition asking (questions : list string) : @tui.Model plainWidgets :=
  tui.set_Questions questions (inState tui.StateQuestioning).

(** The model in a step of Setup, with [cfg] as the configuration. *)
Definition configuring (step : tui.SetupStep) (cfg : config.Config)
  : @tui.Model plainWidgets :=
  tui.set_setupStep step (tui.set_Config (Some cfg) (inState tui.StateSetup)).

(** A text area that holds [s]. *)
Definition typed (s : string) : plainTextArea :=
  mkTextArea s "Type your answer here..." true 76.

Definition submitAll := @spec.submitAll asciiStrings plainWidgets.

(** The model after a failure of the backend. *)
Definition failed : @tui.Model plainWidgets :=
  tui.set_State tui.StateError (tui.set_Err (Some "connection refused") NewModel).

(** Configuration records and the files that hold them. *)
Definition ollamaConfig : config.Config :=
  config.mkConfig "ollama" "" "llama3.1" "http://localhost:11434".
Definition geminiConfig : config.Config := config.mkConfig "gemini" "" "" "".
Definition keylessConfig : config.Config :=
  config.mkConfig "openai" "" "llama3" "http://localhost:11434".

Definition fileOf (c : config.Config) : option string := Some (config.MarshalIndent c).

(** Staged changes: a short diff, and one of 40,001 bytes. *)
Definition smallDiff : string := "diff --git a/main.go b/main.go".

Fixpoint filler (n : nat) : string :=
  match n with
  | O => ""
  | S n' => String "+"%char (filler n')
  end.

Definition largeDiff : string := filler (Z.to_nat 40001).

End concrete.

(** * internal/tui/model.go, continued: View *)

Module screen.

(** A [lipgloss.Style], as far as the program sets it. *)
Record Style : Type := mkStyle {
  bold : bool;
  foreground : option string;    (* lipgloss.Color *)
  faint : bool;
  width : option Z
}.

Definition NewStyle : Style := mkStyle false None false None.
Definition Bold (v : bool) (s : Style) : Style :=
  mkStyle v (foreground s) (faint s) (width s).
Definition Foreground (c : string) (s : Style) : Style :=
  mkStyle (bold s) (Some c) (faint s) (width s).
Definition Faint (v : bool) (s : Style) : Style :=
  mkStyle (bold s) (foreground s) v (width s).
Definition Width (n : Z) (s : Style) : Style :=
  mkStyle (bold s) (foreground s) (faint s) (Some n).

(** [strings.Contains] *)
Fixpoint Contains (s substr : string) : bool :=
  String.prefix substr s
  || match s with
     | String _ rest => Contains rest substr
     | EmptyString => false
     end.

(** [%d] of [fmt.Sprintf] *)
Definition decimal (z : Z) : string := pretty z.

(** The lines of a text, each ended by its line feed but the last. *)
Definition lines (l : list string) : string := tui.Join l tui.NL.

Section View.

Context {widgets : tui.Widgets}.

(** Rendering is up to the toolkit: what a style makes of a text, and the
    views of the spinner and of the text area. *)
Class Renderer : Type := {
  Render : Style -> string -> string;
  spinner_View : tui.spinner_Model -> string;
  textarea_View : tui.textarea_Model -> string
}.

Context {renderer : Renderer}.

(** [None] when [m.Questions[m.CurrentQIdx]] panics. *)
Definition View (m : tui.Model) : option string :=
  let titleStyle := Bold true NewStyle in
  let infoStyle := Foreground "241" NewStyle in
  let errorStyle := Bold true (Foreground "196" NewStyle) in
  match tui.Err m with
  | Some errStr =>
      (* Check for Ollama model not found error *)
      match tui.Config m with
      | Some cfg =>
          if String.eqb (config.Provider cfg) config.ProviderOllama
             && Contains errStr "404" && Contains errStr "model"
             && Contains errStr "not found"
          then
            let modelName := config.OllamaModel cfg in
            let cmd := "ollama pull " +:+ modelName in
            let cmdStyle := Bold true (Foreground "12" NewStyle) in
            Some (lines [""; " " +:+ Render errorStyle "Error:" +:+ " Model '"
                                 +:+ modelName +:+ "' not found.";
                         "";
                         " You don't have this model installed through Ollama.";
                         " To install it, run the following command:";
                         "";
                         "   " +:+ Render cmdStyle cmd;
                         "";
                         " Press ctrl+c to quit.";
                         ""])
          else Some (lines [Render errorStyle "Error:" +:+ " " +:+ errStr;
                            "Press ctrl+c to quit."])
      | None => Some (lines [Render errorStyle "Error:" +:+ " " +:+ errStr;
                             "Press ctrl+c to quit."])
      end
  | None =>
      match tui.State m with
      | tui.StateLoading =>
          Some (lines [""; " " +:+ spinner_View (tui.Spinner m)
                               +:+ " Checking prerequisites..."; ""; ""])
      | tui.StateDiffTooLarge =>
          Some (lines [""; " " +:+ Render errorStyle "Warning: Large Diff Detected";
                       "";
                       " The staged changes are too large for AI analysis.";
                       " (> 40k characters)";
                       "";
                       " You can:";
                       " 1. Press 'm' or Enter to write the commit message manually.";
                       " 2. Press 'q' to quit and stage fewer changes.";
                       "";
                       ""])
      | tui.StateWelcome =>
          let providerInfo :=
            match tui.Config m with
            | Some cfg =>
                if String.eqb (config.Provider cfg) config.ProviderOpenAI
                then Render infoStyle " (using OpenAI)"
                else if String.eqb (config.Provider cfg) config.ProviderOllama
                then Render infoStyle (" (using Ollama: " +:+ config.OllamaModel cfg +:+ ")")
                else ""
            | None => ""
            end in
          Some (lines [""; " " +:+ Render titleStyle "SmartCommit" +:+ providerInfo;
                       "";
                       " How would you like to proceed?";
                       "";
                       " 1. I need help writing a commit message (Recommended)";
                       " 2. I already know what to write";
                       "";
                       " " +:+ Render infoStyle "Press 'c' to reconfigure provider";
                       " (Press 1 or 2)";
                       ""])
      | tui.StateSetup =>
          let prompt := fun (title hint : string) =>
            Some (lines [""; " " +:+ Render titleStyle title; "";
                         textarea_View (tui.TextArea m); "";
                         Render infoStyle hint; ""]) in
          match tui.setupStep m with
          | tui.SetupStepProvider =>
              Some (lines [""; "";
                           " Choose your AI provider:";
                           "";
                           " 1. OpenAI (GPT-4o)";
                           "    " +:+ Render (Faint true infoStyle)
                                        "Not private, costs money, great accuracy/performance";
                           "";
                           " 2. Ollama (llama3.1)";
                           "    " +:+ Render (Faint true infoStyle)
                                        "Private, free, low accuracy/performance";
                           "";
                           " (Press 1 or 2)";
                           ""])
          | tui.SetupStepConfirmOpenAIKey =>
              Some (lines [""; " " +:+ Render titleStyle "OpenAI API Key Detected"; "";
                           " Found OPENAI_API_KEY in your environment.";
                           " Would you like to use it?";
                           "";
                           " " +:+ Render infoStyle "(y/n)";
                           ""])
          | tui.SetupStepOpenAIKey =>
              prompt "Please enter your OpenAI API Key:" "(Press Enter to save)"
          | tui.SetupStepOllamaURL =>
              prompt "Please enter your Ollama URL:" "(Press Enter to continue)"
          | tui.SetupStepOllamaModel =>
              prompt "Please enter the Ollama model name:" "(Press Enter to save)"
          end
      | tui.StateNoRepo =>
          Some (lines [""; " " +:+ Render errorStyle "Error:" +:+ " Not a git repository.";
                       "";
                       " Please run smartcommit inside a git repository.";
                       " Press q to quit.";
                       ""; ""])
      | tui.StateHistoryAnalysis =>
          Some (lines [""; " " +:+ spinner_View (tui.Spinner m)
                               +:+ " Analyzing history context..."; ""; ""])
      | tui.StateAnalysis =>
          Some (lines [""; " " +:+ spinner_View (tui.Spinner m)
                               +:+ " Analyzing changes and generating questions...";
                       ""; ""])
      | tui.StateQuestioning =>
          if tui.CurrentQIdx m <? Z.of_nat (length (tui.Questions m)) then
            (* Use dynamic width, defaulting to 70 if width is small or not set *)
            let wrapWidth := int_wrap (tui.Width m - 10) in
            let wrapWidth := if wrapWidth <? 40 then 40 else wrapWidth in
            let questionStyle := Width wrapWidth NewStyle in
            match (if 0 <=? tui.CurrentQIdx m
                   then tui.Questions m !! Z.to_nat (tui.CurrentQIdx m) else None) with
            | None => None
            | Some question =>
                Some (lines [""; Render titleStyle
                                   ("Question " +:+ decimal (int_wrap (tui.CurrentQIdx m + 1))
                                    +:+ "/" +:+ decimal (Z.of_nat (length (tui.Questions m)))
                                    +:+ ":")
                                 +:+ " " +:+ Render questionStyle question;
                             "";
                             textarea_View (tui.TextArea m);
                             "";
                             Render infoStyle "(Press Enter to submit)";
                             ""])
            end
          else Some (lines [""; " Unknown state"; ""; ""])
      | tui.StateReview =>
          (* Deprecated state, should not be reached *)
          Some ""
      | tui.StateCommit => Some (lines [""; " Opening editor..."; ""; ""])
      | tui.StateSuccess =>
          let successMsg := lines ["Successfully committed!"; ""; ""] in
          let cta := Render infoStyle
            "If you're enjoying smartcommit, give us a star on GitHub: https://github.com/arpxspace/smartcommit" in
          Some (successMsg +:+ cta +:+ lines [""; ""; ""])
      | tui.StateError => Some (lines [""; " Unknown state"; ""; ""])
      end
  end.

End View.

End screen.

(** * Vocabulary of the further properties *)

Module run.

(** ** Provider clients *)

(** The base URL a local client was built on. *)
Definition baseURLOf (c : ai.OllamaClient) : string :=
  default "" (ai.BaseURL (ai.ollama_client c)).

(** ** The prerequisite check *)

(** The calls of the prerequisite check: loading and saving the
    configuration, and the three queries to git. *)
Definition isCheckCall (c : Call) : Prop :=
  match c with
  | call_Backend _ | call_Commit _ => False
  | _ => True
  end.

Definition isGitQuery (c : Call) : Prop :=
  match c with
  | call_IsRepo | call_GetStagedDiff | call_GetRecentHistory _ => True
  | _ => False
  end.

(** A diff the check lets through to the interview: not blank and of at most
    40,000 bytes. *)
Definition checkedDiff `{GoStrings} (diff : string) : Prop :=
  TrimSpace diff <> "" /\ Z.of_nat (String.length diff) <= 40000.

(** What the queries to git showed, for each message the check can return
    after the configuration was found complete. *)
Definition gitFound `{GoStrings} (w : World) (msg : tui.Msg) : Prop :=
  match msg with
  | tui.noRepoMsg => git_rev_parse w = false
  | tui.errMsg e =>
      git_rev_parse w = true
      /\ ((exists e0, git_diff_cached w = fail e0
                      /\ e = "failed to get staged diff: " +:+ e0)
          \/ (exists diff, git_diff_cached w = ok diff /\ TrimSpace diff = ""
                           /\ e = "no staged changes found")
          \/ (exists diff e0, git_diff_cached w = ok diff /\ checkedDiff diff
                              /\ git_log w 10 = fail e0
                              /\ e = "failed to get git history: " +:+ e0))
  | tui.diffTooLargeMsg =>
      git_rev_parse w = true
      /\ exists diff, git_diff_cached w = ok diff /\ TrimSpace diff <> ""
                      /\ 40000 < Z.of_nat (String.length diff)
  | tui.prerequisitesCheckedMsg _ diff history =>
      git_rev_parse w = true
      /\ git_diff_cached w = ok diff /\ checkedDiff diff
      /\ git_log w 10 = ok history
  | _ => False
  end.

(** What the prerequisite check found when it returns [msg]. *)
Definition checkFound `{GoStrings} (w : World) (msg : tui.Msg) : Prop :=
  (exists e w1, config.Load w = Some (fail e, w1) /\ msg = tui.errMsg e)
  \/ (exists cfg w1, config.Load w = Some (ok cfg, w1)
                     /\ spec.incomplete cfg (env_OPENAI_API_KEY w)
                     /\ msg = tui.setupRequiredMsg cfg)
  \/ (exists cfg w1, config.Load w = Some (ok cfg, w1)
                     /\ ~ spec.incomplete cfg (env_OPENAI_API_KEY w)
                     /\ gitFound w msg
                     /\ forall c diff history,
                          msg = tui.prerequisitesCheckedMsg c diff history ->
                          c = spec.effective cfg (env_OPENAI_API_KEY w)).

(** The check takes the key of the environment into the record. *)
Definition adopts (cfg : config.Config) (envKey : string) : Prop :=
  config.Provider cfg = config.ProviderOpenAI
  /\ config.OpenAIAPIKey cfg = "" /\ envKey <> "".

(** ** Safety of the transition function *)

(** In Setup and in Welcome a configuration record is at hand. *)
Definition configured `{tui.Widgets} (m : tui.Model) : Prop :=
  tui.State m = tui.StateSetup \/ tui.State m = tui.StateWelcome ->
  tui.Config m <> None.

(** In Questioning the index points at a question. *)
Definition inRange `{tui.Widgets} (m : tui.Model) : Prop :=
  tui.State m = tui.StateQuestioning ->
  0 <= tui.CurrentQIdx m < Z.of_nat (length (tui.Questions m)).

Definition isAnalysisResult (msg : tui.Msg) : bool :=
  match msg with
  | tui.analysisResultMsg _ => true
  | _ => false
  end.

(** How many times the question generation completed. *)
Definition analyses (msgs : list tui.Msg) : nat :=
  length (filter (fun msg => isAnalysisResult msg = true) msgs).

(** ** The running session *)

(** The session as the program starts it. *)
Definition initial `{tui.Widgets} (w : World) : tui.Sys :=
  tui.mkSys tui.NewModel (tui.Init tui.NewModel) w.

(** The client, the diff and the history a command hands to the backend. *)
Definition backendArgs (c : tui.Cmd) : option (option ai.Provider * string * string) :=
  match c with
  | tui.CmdAnalyzeHistory client diff history
  | tui.CmdAnalyzeChanges client diff history
  | tui.CmdGenerateCommitMsg client diff history _ _ => Some (client, diff, history)
  | _ => None
  end.

(** [diff] and [history] are what git reports as staged and as the last 10
    commits, and the diff passes the check. *)
Definition staged `{GoStrings} (w : World) (diff history : string) : Prop :=
  git_diff_cached w = ok diff /\ checkedDiff diff /\ git_log w 10 = ok history.

(** A command for the backend has a client and carries the staged diff. *)
Definition wellFormed `{GoStrings} (w : World) (c : tui.Cmd) : Prop :=
  match backendArgs c with
  | Some (client, diff, history) => client <> None /\ staged w diff history
  | None => True
  end.

(** Without a client the session is neither in Welcome nor in Questioning;
    with a client, the model holds the staged diff and the history. *)
Definition modelInv `{GoStrings} `{tui.Widgets} (w : World) (m : tui.Model) : Prop :=
  (tui.AIClient m = None ->
   tui.State m <> tui.StateWelcome /\ tui.State m <> tui.StateQuestioning)
  /\ (tui.AIClient m <> None -> staged w (tui.Diff m) (tui.History m)).

(** What is known of a message when it reaches [Update]. *)
Definition msgInv `{GoStrings} `{tui.Widgets} (w : World) (m : tui.Model) (msg : tui.Msg)
  : Prop :=
  match msg with
  | tui.prerequisitesCheckedMsg _ diff history => staged w diff history
  | tui.historyAnalysisResultMsg _ | tui.analysisResultMsg _ => tui.AIClient m <> None
  | _ => True
  end.

(** The invariant of the running session. *)
Definition sysInv `{GoStrings} `{tui.Widgets} (w : World) (s : tui.Sys) : Prop :=
  spec.sameMachine w (tui.world s)
  /\ modelInv w (tui.model s)
  /\ Forall (wellFormed w) (tui.pending s)
  /\ (tui.AIClient (tui.model s) = None ->
      Forall (fun c => backendArgs c = None) (tui.pending s)).

(** ** The log of a running session *)

(** What must have happened before a call, given the earlier calls. *)
Definition preceded (c : Call) (earlier : list Call) : Prop :=
  match c with
  | call_Backend opAnalyzeHistory => In (call_GetRecentHistory 10) earlier
  | call_Backend opGenerateQuestions => In (call_Backend opAnalyzeHistory) earlier
  | call_Backend opGenerateCommitMessage => In (call_Backend opGenerateQuestions) earlier
  | _ => True
  end.

(** The log (newest first) keeps the order of the interview: the history is
    analysed after the check fetched it, questions are generated after the
    history was analysed, and the message after the questions. *)
Fixpoint inOrder (l : list Call) : Prop :=
  match l with
  | [] => True
  | c :: earlier => preceded c earlier /\ inOrder earlier
  end.

(** A commit message the session may use: none, or one the backend generated. *)
Definition generated (net : ai.Backend) (message : string) : Prop :=
  message = ""
  \/ exists p diff context answers,
       ai.GenerateCommitMessage net p diff context answers = ok message.

(** [git commit] ran for [message] and succeeded. *)
Definition committed (w : World) (l : list Call) (message : string) : Prop :=
  In (call_Commit message) l /\ git_commit w (git.CommitCmd message) = None.

(** What the log holds when a command is pending. *)
Definition cmdLogged (net : ai.Backend) (l : list Call) (c : tui.Cmd) : Prop :=
  match c with
  | tui.CmdAnalyzeHistory _ _ _ => In (call_GetRecentHistory 10) l
  | tui.CmdAnalyzeChanges _ _ _ => In (call_Backend opAnalyzeHistory) l
  | tui.CmdGenerateCommitMsg _ _ _ _ _ => In (call_Backend opGenerateQuestions) l
  | tui.CmdCommit message => generated net message
  | _ => True
  end.

(** What the log holds when a message reaches [Update]. *)
Definition msgLogged (net : ai.Backend) (w : World) (l : list Call) (msg : tui.Msg) : Prop :=
  match msg with
  | tui.prerequisitesCheckedMsg _ _ _ => In (call_GetRecentHistory 10) l
  | tui.historyAnalysisResultMsg _ => In (call_Backend opAnalyzeHistory) l
  | tui.analysisResultMsg _ => In (call_Backend opGenerateQuestions) l
  | tui.commitMsgGeneratedMsg message => generated net message
  | tui.commitSuccessMsg => exists message, committed w l message
  | _ => True
  end.

Definition modelLogged `{tui.Widgets} (w : World) (l : list Call) (m : tui.Model) : Prop :=
  (tui.State m = tui.StateWelcome -> In (call_GetRecentHistory 10) l)
  /\ (tui.State m = tui.StateQuestioning -> In (call_Backend opGenerateQuestions) l)
  /\ (tui.State m = tui.StateSuccess -> exists message, committed w l message).

(** The invariant of the log of a running session that started in [w]. *)
Definition logInv `{tui.Widgets} (net : ai.Backend) (w : World) (s : tui.Sys) : Prop :=
  spec.sameMachine w (tui.world s)
  /\ exists l,
       calls (tui.world s) = l ++ calls w
       /\ inOrder l
       /\ modelLogged w l (tui.model s)
       /\ Forall (cmdLogged net l) (tui.pending s).

(** ** The interview as a whole *)

Section Driver.

Context {strings : GoStrings} {widgets : tui.Widgets} (net : ai.Backend).

(** The runtime completes the command [c] and hands its message to
    [Update]. *)
Definition complete (mc : tui.Model * tui.Cmd) : M (tui.Model * tui.Cmd) :=
  let* r := tui.exec net mc.2 in
  match r with
  | Some msg => tui.Update mc.1 msg
  | None => ret (mc.1, tui.CmdNil)
  end.

(** The user submits the texts of [tas] one after the other. *)
Fixpoint answerAll (mc : tui.Model * tui.Cmd) (tas : list tui.textarea_Model)
  : M (tui.Model * tui.Cmd) :=
  match tas with
  | [] => ret mc
  | ta :: rest =>
      let* next := tui.Update (tui.set_TextArea ta mc.1) (tui.KeyMsg tui.enterKey) in
      answerAll next rest
  end.

(** The interview from Welcome on: the user asks for help, the history is
    analysed, the questions are generated and answered, and the message is
    generated. *)
Definition interview (m : tui.Model) (tas : list tui.textarea_Model)
  : M (tui.Model * tui.Cmd) :=
  let* asked := tui.Update m (tui.KeyMsg (tui.mkKey tui.KeyRunes "1")) in
  let* analysed := complete asked in
  let* questioned := complete analysed in
  let* answered := answerAll questioned tas in
  complete answered.

End Driver.

(** ** Scheduling the event loop *)

Section Scheduler.

Context {strings : GoStrings} {widgets : tui.Widgets} (net : ai.Backend).

(** What the runtime does next: it hands [Update] an input of the user, or
    the message of the [n]-th outstanding command, which completes. *)
Inductive Event : Type :=
| input (msg : tui.Msg)
| completes (n : nat).

Definition occur (s : tui.Sys) (e : Event) : option tui.Sys :=
  match e with
  | input msg =>
      if tui.userInput msg then
        match tui.Update (tui.model s) msg (tui.world s) with
        | Some ((m', c), w') => Some (tui.mkSys m' (c :: tui.pending s) w')
        | None => None
        end
      else None
  | completes n =>
      match tui.pending s !! n with
      | Some c0 =>
          match tui.exec net c0 (tui.world s) with
          | Some (Some msg, w1) =>
              match tui.Update (tui.model s) msg w1 with
              | Some ((m', c), w') =>
                  Some (tui.mkSys m'
                          (c :: take n (tui.pending s) ++ drop (S n) (tui.pending s)) w')
              | None => None
              end
          | _ => None
          end
      | None => None
      end
  end.

Fixpoint schedule (s : tui.Sys) (events : list Event) : option tui.Sys :=
  match events with
  | [] => Some s
  | e :: rest =>
      match occur s e with
      | Some next => schedule next rest
      | None => None
      end
  end.

End Scheduler.

End run.

(** * Sample inputs *)

Module sample.

(** A renderer that leaves the text as it is. *)
Definition plainRenderer : @screen.Renderer concrete.plainWidgets :=
  @screen.Build_Renderer concrete.plainWidgets
    (fun _ s => s) (fun _ => "*") concrete.text.

(** A machine on which the home directory cannot be found, and one on which
    git cannot read the index. *)
Definition noHome (w : World) : World :=
  mkWorld (env_OPENAI_API_KEY w) (fail "$HOME is not defined") (os_MkdirAll w)
          (configFile w) (os_ReadFile w) (os_WriteFile w) (git_rev_parse w)
          (git_diff_cached w) (git_log w) (git_commit w) (calls w).

Definition lockedIndex (w : World) : World :=
  mkWorld (env_OPENAI_API_KEY w) (os_UserHomeDir w) (os_MkdirAll w)
          (configFile w) (os_ReadFile w) (os_WriteFile w) (git_rev_parse w)
          (fail "exit status 128") (git_log w) (git_commit w) (calls w).

(** A repository with the local provider configured and a short diff staged. *)
Definition repo : World :=
  concrete.machine (concrete.fileOf concrete.ollamaConfig) "" concrete.smallDiff.

(** The same after the prerequisite check ran. *)
Definition checked : World :=
  set_calls [call_GetRecentHistory 10; call_GetStagedDiff; call_IsRepo; call_Load] repo.

Definition ollama : ai.Provider :=
  ai.Ollama (ai.NewOllamaClient "http://localhost:11434" "llama3.1").

(** The model in Welcome, as the check of [repo] leaves it. *)
Definition welcome : @tui.Model concrete.plainWidgets :=
  tui.set_State tui.StateWelcome
    (tui.set_History "Commit: 1a2b3c4"
       (tui.set_Diff concrete.smallDiff
          (tui.set_AIClient (Some ollama)
             (tui.set_Config (Some concrete.ollamaConfig) concrete.NewModel)))).

(** A backend that asks two questions. *)
Definition interviewer : ai.Backend :=
  {| ai.GenerateQuestions := fun _ _ _ => ok ["Why?"; "How?"];
     ai.GenerateCommitMessage := fun _ _ _ _ => ok "fix: pin the version";
     ai.AnalyzeHistory := fun _ _ _ =>
       ok (ai.mkHistoryAnalysisResponse true ["Conventional commits"]) |}.

(** A text area that takes the runes typed into it. *)
Definition typingWidgets : tui.Widgets :=
  {| tui.spinner_Model := nat;
     tui.spinner_New := O;
     tui.spinner_Tick := fun frame => frame;
     tui.spinner_Update := fun frame _ => (S frame, S frame);
     tui.textarea_Model := concrete.plainTextArea;
     tui.textarea_New := concrete.mkTextArea "" "" false 0;
     tui.SetPlaceholder := fun p t =>
       concrete.mkTextArea (concrete.text t) p (concrete.focused t) (concrete.columns t);
     tui.Value := concrete.text;
     tui.SetValue := fun v t =>
       concrete.mkTextArea v (concrete.placeholder t) (concrete.focused t) (concrete.columns t);
     tui.Reset := fun t =>
       concrete.mkTextArea "" (concrete.placeholder t) (concrete.focused t) (concrete.columns t);
     tui.Focus := fun t =>
       concrete.mkTextArea (concrete.text t) (concrete.placeholder t) true (concrete.columns t);
     tui.SetWidth := fun n t =>
       concrete.mkTextArea (concrete.text t) (concrete.placeholder t) (concrete.focused t) n;
     tui.textarea_Update := fun t msg =>
       (match msg with
        | tui.KeyMsg (tui.mkKey tui.KeyRunes runes) =>
            concrete.mkTextArea (concrete.text t +:+ runes) (concrete.placeholder t)
              (concrete.focused t) (concrete.columns t)
        | _ => t
        end, O);
     tui.widget_fire := fun c => Some (inl c) |}.


(** A repository in which the stored record names the local provider
    without a model, while the environment holds a key. *)
Definition unconfigured : World :=
  concrete.machine
    (concrete.fileOf (config.mkConfig "ollama" "" "" "http://localhost:11434"))
    "sk-env" concrete.smallDiff.

Definition rune (s : string) : run.Event :=
  run.input (tui.KeyMsg (tui.mkKey tui.KeyRunes s)).

(** Setup in which "y" is pressed twice on the confirmation, so that two
    prerequisite checks are dispatched; the first one completes and the user
    asks for help. *)
Definition twoChecks : list run.Event :=
  [run.completes 1; rune "1"; rune "y"; rune "y"; run.completes 1; rune "1"].

(** The interview that follows, the user answering "a" and "b"; then the
    second check completes, the user asks for help again and the history is
    analysed a second time. *)
Definition secondAnalysis : list run.Event :=
  twoChecks
  ++ [run.completes 0; run.completes 0;
      rune "a"; run.input (tui.KeyMsg tui.enterKey);
      rune "b"; run.input (tui.KeyMsg tui.enterKey);
      run.completes 6; rune "1"; run.completes 0].

End sample.


(** * Properties *)

(** ** Byte strings *)

Lemma app_cons (c : ascii) (s t : string) : String c s +:+ t = String c (s +:+ t).
Proof. reflexivity. Qed.

Lemma app_empty_l (t : string) : "" +:+ t = t.
Proof. reflexivity. Qed.

Lemma app_empty_r (s : string) : s +:+ "" = s.
Proof. induction s as [|c s IH]; [reflexivity|]. rewrite app_cons, IH. reflexivity. Qed.

Lemma app_assoc_str (s t u : string) : (s +:+ t) +:+ u = s +:+ (t +:+ u).
Proof.
  induction s as [|c s IH]; [reflexivity|].
  rewrite !app_cons, IH. reflexivity.
Qed.

Lemma strlen_app (s t : string) :
  String.length (s +:+ t) = (String.length s + String.length t)%nat.
Proof.
  induction s as [|c s IH]; [reflexivity|].
  rewrite app_cons. simpl. rewrite IH. reflexivity.
Qed.

Lemma substring_all (x : string) : String.substring 0 (String.length x) x = x.
Proof. induction x as [|c x IH]; [reflexivity|]. simpl. rewrite IH. reflexivity. Qed.

Lemma substring_skip (p x : string) :
  String.substring (String.length p) (String.length x) (p +:+ x) = x.
Proof.
  induction p as [|c p IH].
  - rewrite app_empty_l. apply substring_all.
  - rewrite app_cons. simpl. exact IH.
Qed.

Lemma get_skip (p : string) (c : ascii) (x : string) :
  String.get (String.length p) (p +:+ String c x) = Some c.
Proof.
  induction p as [|a p IH]; [reflexivity|].
  rewrite app_cons. simpl. exact IH.
Qed.

(** Every string splits before its last [n] bytes. *)
Lemma split_last (n : nat) (s : string) :
  (n <= String.length s)%nat ->
  exists p x, s = p +:+ x /\ String.length x = n.
Proof.
  revert n. induction s as [|c s IH]; intros n Hn.
  - exists "", "". simpl in Hn. split; [reflexivity|]. simpl. lia.
  - simpl in Hn. destruct (decide (n = S (String.length s))) as [->|Hne].
    + exists "", (String c s). split; reflexivity.
    + destruct (IH n) as (p & x & -> & Hx); [lia|].
      exists (String c p), x. split; [reflexivity|exact Hx].
Qed.

Lemma lastByte_app (p : string) (c : ascii) : ai.lastByte (p +:+ String c "") = Some c.
Proof.
  unfold ai.lastByte. rewrite strlen_app. simpl.
  replace (String.length p + 1 - 1)%nat with (String.length p) by lia.
  apply get_skip.
Qed.

Lemma lastByte_spec (s : string) (c : ascii) :
  ai.lastByte s = Some c <-> spec.endsWith s (String c "").
Proof.
  split.
  - intros H. destruct (decide (s = "")) as [->|Hne]; [discriminate H|].
    destruct (split_last 1 s) as (p & x & -> & Hx).
    { destruct s; [congruence|simpl; lia]. }
    destruct x as [|a [|b x]]; simpl in Hx; try lia.
    rewrite lastByte_app in H. injection H as ->. exists p. reflexivity.
  - intros [p ->]. apply lastByte_app.
Qed.

Lemma last3_app (p x : string) : String.length x = 3%nat -> ai.last3 (p +:+ x) = x.
Proof.
  intros Hx. unfold ai.last3. rewrite strlen_app, Hx.
  replace (String.length p + 3 - 3)%nat with (String.length p) by lia.
  rewrite <- Hx. apply substring_skip.
Qed.

Lemma last3_spec (s : string) :
  ((String.length s <? 3)%nat || negb (String.eqb (ai.last3 s) "v1/")) = false
  <-> spec.endsWith s "v1/".
Proof.
  rewrite orb_false_iff, negb_false_iff, Nat.ltb_ge, String.eqb_eq. split.
  - intros [Hlen H3]. destruct (split_last 3 s Hlen) as (p & x & -> & Hx).
    rewrite (last3_app _ _ Hx) in H3. subst x. exists p. reflexivity.
  - intros [p ->]. split.
    + rewrite strlen_app. simpl. lia.
    + apply last3_app. reflexivity.
Qed.

Lemma endsWith_app (p s suffix : string) :
  spec.endsWith s suffix -> spec.endsWith (p +:+ s) suffix.
Proof. intros [q ->]. exists (p +:+ q). symmetry. apply app_assoc_str. Qed.

Lemma eqb_false_of_neq (a b : string) : a <> b -> String.eqb a b = false.
Proof. apply String.eqb_neq. Qed.

(** ** Provider clients *)

Lemma appendV1_spec (s : string) :
  spec.withV1 s
    (if (String.length s <? 3)%nat || negb (String.eqb (ai.last3 s) "v1/")
     then s +:+ "v1/" else s).
Proof.
  destruct ((String.length s <? 3)%nat || negb (String.eqb (ai.last3 s) "v1/"))
    eqn:E.
  - right. split; [|reflexivity]. intros H. apply last3_spec in H. congruence.
  - left. split; [|reflexivity]. apply last3_spec. exact E.
Qed.

(** C10.  The local client is built on a base URL that always ends with
    "v1/": the URL is extended by "/" when its last byte is not a slash, and
    then by "v1/" unless it already ends with it; the default
    "http://localhost:11434" becomes "http://localhost:11434/v1/".  (The empty
    URL has no last byte and becomes "v1/".) *)
Theorem NewOllamaClient_baseURL (baseURL model : string) :
  exists url,
    ai.BaseURL (ai.ollama_client (ai.NewOllamaClient baseURL model)) = Some url
    /\ spec.endsWith url "v1/"
    /\ (forall c, ai.lastByte baseURL = Some c -> c <> "/"%char ->
        spec.withV1 (baseURL +:+ "/") url)
    /\ (spec.endsWith baseURL "/" -> spec.withV1 baseURL url)
    /\ (baseURL = "" -> url = "v1/")
    /\ (baseURL = "http://localhost:11434" -> url = "http://localhost:11434/v1/").
Proof.
  unfold ai.NewOllamaClient. cbn [ai.ollama_client ai.BaseURL].
  eexists. split; [reflexivity|].
  set (b1 := if negb (String.eqb baseURL "")
                && negb (bool_decide (ai.lastByte baseURL = Some "/"%char))
             then baseURL +:+ "/" else baseURL).
  pose proof (appendV1_spec b1) as Hv.
  split; [|split; [|split; [|split]]].
  - destruct Hv as [[He ->]|[_ ->]]; [exact He|]. exists b1. reflexivity.
  - intros c Hc Hne.
    assert (Hb : b1 = baseURL +:+ "/"); [|rewrite <- Hb; exact Hv].
    subst b1. destruct (String.eqb_spec baseURL "") as [->|_]; [discriminate Hc|].
    rewrite bool_decide_eq_false_2; [reflexivity|congruence].
  - intros Hs.
    assert (Hb : b1 = baseURL); [|rewrite <- Hb; exact Hv].
    subst b1. apply lastByte_spec in Hs.
    rewrite (bool_decide_eq_true_2 _ Hs), andb_false_r. reflexivity.
  - intros ->. reflexivity.
  - intros ->. reflexivity.
Qed.

Lemma NewOllamaClient_baseURL_witness :
  exists url,
    ai.BaseURL (ai.ollama_client (ai.NewOllamaClient "http://ollama.lan:11434/api" "llama3.1"))
      = Some url
    /\ url = "http://ollama.lan:11434/api/v1/".
Proof.
  destruct (NewOllamaClient_baseURL "http://ollama.lan:11434/api" "llama3.1")
    as (url & Hurl & _ & Hslash & _).
  exists url. split; [exact Hurl|].
  destruct (Hslash "i"%char) as [[_ ->]|[_ ->]]; reflexivity || discriminate.
Defined.

(** C9.  With a provider kind that is neither "openai" nor "ollama",
    [NewClient] does not always fail: when the record holds an API key it
    returns the remote client built on that key, and it returns the error
    "unknown provider: <kind>" exactly when the key is empty. *)
Theorem NewClient_unknown_provider (cfg : config.Config) :
  config.Provider cfg <> config.ProviderOpenAI ->
  config.Provider cfg <> config.ProviderOllama ->
  (config.OpenAIAPIKey cfg <> "" ->
   ai.NewClient cfg = ok (ai.OpenAI (ai.NewOpenAIClient (config.OpenAIAPIKey cfg))))
  /\ (config.OpenAIAPIKey cfg = "" ->
      ai.NewClient cfg = fail ("unknown provider: " +:+ config.Provider cfg))
  /\ (forall e, ai.NewClient cfg = fail e -> config.OpenAIAPIKey cfg = "").
Proof.
  intros H1 H2. unfold ai.NewClient.
  apply String.eqb_neq in H1, H2. rewrite H1, H2.
  destruct (String.eqb_spec (config.OpenAIAPIKey cfg) "") as [E|E]; cbn [negb].
  - split; [congruence|]. split; [reflexivity|]. intros _ _. exact E.
  - split; [reflexivity|]. split; [congruence|discriminate].
Qed.

Lemma NewClient_unknown_provider_witness :
  ai.NewClient (config.mkConfig "gemini" "sk-test" "" "")
  = ok (ai.OpenAI (ai.NewOpenAIClient "sk-test"))
  /\ (ai.NewClient (config.mkConfig "gemini" "" "" "") = fail "unknown provider: gemini").
Proof.
  split.
  - apply (NewClient_unknown_provider (config.mkConfig "gemini" "sk-test" "" ""));
      discriminate.
  - apply (NewClient_unknown_provider (config.mkConfig "gemini" "" "" ""));
      discriminate || reflexivity.
Defined.

(** ** The world and the log of calls *)

Lemma sameMachine_refl (w : World) : spec.sameMachine w w.
Proof. repeat split. Qed.

Lemma sameMachine_trans (w1 w2 w3 : World) :
  spec.sameMachine w1 w2 -> spec.sameMachine w2 w3 -> spec.sameMachine w1 w3.
Proof.
  unfold spec.sameMachine. intros H1 H2.
  destruct H1 as (?&?&?&?&?&?&?&?&?), H2 as (?&?&?&?&?&?&?&?&?).
  repeat split; congruence.
Qed.

Lemma sameMachine_calls (l : list Call) (w : World) : spec.sameMachine w (set_calls l w).
Proof. repeat split. Qed.

Lemma new_calls_app (l : list Call) (w w' : World) :
  calls w' = l ++ calls w -> new_calls w w' = l.
Proof.
  intros H. unfold new_calls. rewrite H, length_app.
  replace (length l + length (calls w) - length (calls w))%nat with (length l) by lia.
  apply take_app_length.
Qed.

Lemma new_calls_same (w w' : World) : calls w' = calls w -> new_calls w w' = [].
Proof. intros H. apply (new_calls_app [] w w' H). Qed.

Lemma Load_run (w : World) :
  exists r, config.Load w = Some (r, set_calls (call_Load :: calls w) w).
Proof.
  unfold config.Load, config.getConfigPath, bind, record, ask, ret.
  destruct w as [env home mk file rd wr rp dc lg cm cs]. cbn.
  destruct home; [|eauto].
  destruct mk; [eauto|].
  destruct file; [|eauto].
  destruct rd; eauto.
Qed.

Lemma Load_inv (w w1 : World) (r : result config.Config) :
  config.Load w = Some (r, w1) -> w1 = set_calls (call_Load :: calls w) w.
Proof. destruct (Load_run w) as [r' H]. rewrite H. congruence. Qed.

Lemma Save_run (cfg : config.Config) (w : World) :
  exists w',
    config.Save cfg w = Some (spec.saveError w, w')
    /\ spec.sameMachine w w'
    /\ calls w' = call_Save (config.MarshalIndent cfg) (spec.saveError w) :: calls w
    /\ (spec.saveError w = None -> configFile w' = Some (config.MarshalIndent cfg)).
Proof.
  unfold config.Save, config.getConfigPath, config.writeConfigFile, spec.saveError,
    spec.sameMachine, bind, record, ask, ret.
  destruct w as [env home mk file rd wr rp dc lg cm cs]. cbn.
  destruct home; [|eexists; repeat split; discriminate].
  destruct mk; [eexists; repeat split; discriminate|].
  destruct wr; eexists; repeat split; discriminate.
Qed.

(** ** The prerequisite check *)

Lemma needsSetup_spec (cfg : config.Config) (w : World) :
  exists b cfg' w',
    tui.needsSetup cfg w = Some ((b, cfg'), w')
    /\ (b = true <-> spec.incomplete cfg (env_OPENAI_API_KEY w))
    /\ cfg' = (if b then cfg else spec.effective cfg (env_OPENAI_API_KEY w))
    /\ spec.sameMachine w w'
    /\ exists l, calls w' = l ++ calls w /\ Forall spec.isSave l.
Proof.
  unfold tui.needsSetup, spec.incomplete, spec.effective, bind, ask, ret.
  unfold config.ProviderOpenAI, config.ProviderOllama.
  destruct (String.eqb_spec (config.Provider cfg) "") as [Hp|Hp].
  { exists true, cfg, w. split; [reflexivity|]. split; [tauto|].
    split; [reflexivity|]. split; [apply sameMachine_refl|]. exists []. split; [reflexivity|constructor]. }
  destruct (String.eqb_spec (config.Provider cfg) "openai") as [Ho|Ho].
  { destruct (String.eqb_spec (config.OpenAIAPIKey cfg) "") as [Hk|Hk]; cbn.
    - destruct (String.eqb_spec (env_OPENAI_API_KEY w) "") as [He|He]; cbn.
      + exists true, cfg, w. split; [reflexivity|]. split; [tauto|].
        split; [reflexivity|]. split; [apply sameMachine_refl|].
        exists []. split; [reflexivity|constructor].
      + destruct (Save_run (config.set_OpenAIAPIKey (env_OPENAI_API_KEY w) cfg) w)
          as (w' & HS & Hsame & Hcalls & _).
        rewrite HS. exists false, (config.set_OpenAIAPIKey (env_OPENAI_API_KEY w) cfg), w'.
        split; [reflexivity|]. split.
        { split; [discriminate|]. intros [H|[(_ & _ & H)|(H & _)]]; congruence. }
        split; [reflexivity|]. split; [exact Hsame|].
        eexists [_]. split; [exact Hcalls|]. repeat constructor.
    - exists false, cfg, w. split; [reflexivity|]. split.
      { split; [discriminate|]. intros [H|[(_ & H & _)|(H & _)]]; congruence. }
      split; [reflexivity|]. split; [apply sameMachine_refl|].
      exists []. split; [reflexivity|constructor]. }
  destruct (String.eqb_spec (config.Provider cfg) "ollama") as [Hl|Hl]; cbn.
  - destruct (String.eqb_spec (config.OllamaURL cfg) "") as [Hu|Hu]; cbn.
    + exists true, cfg, w. split; [reflexivity|]. split; [tauto|].
      split; [reflexivity|]. split; [apply sameMachine_refl|].
      exists []. split; [reflexivity|constructor].
    + destruct (String.eqb_spec (config.OllamaModel cfg) "") as [Hm|Hm]; cbn.
      * exists true, cfg, w. split; [reflexivity|]. split; [tauto|].
        split; [reflexivity|]. split; [apply sameMachine_refl|].
        exists []. split; [reflexivity|constructor].
      * exists false, cfg, w. split; [reflexivity|]. split.
        { split; [discriminate|]. intros [H|[(H & _)|(_ & [H|H])]]; congruence. }
        split; [reflexivity|]. split; [apply sameMachine_refl|].
        exists []. split; [reflexivity|constructor].
  - exists false, cfg, w. split; [reflexivity|]. split.
    { split; [discriminate|]. intros [H|[(H & _)|(H & _)]]; congruence. }
    split; [reflexivity|]. split; [apply sameMachine_refl|].
    exists []. split; [reflexivity|constructor].
Qed.

Section Prerequisites.

Context {strings : GoStrings} {widgets : tui.Widgets}.

Lemma Update_diffTooLarge (m : tui.Model) (w : World) :
  tui.Update m tui.diffTooLargeMsg w
  = Some ((tui.set_State tui.StateDiffTooLarge m, tui.CmdNil), w).
Proof. reflexivity. Qed.

Lemma Update_prerequisitesChecked (m : tui.Model) (w : World) (cfg : config.Config)
    (diff history : string) (client : ai.Provider) :
  ai.NewClient cfg = ok client ->
  exists m',
    tui.Update m (tui.prerequisitesCheckedMsg cfg diff history) w
    = Some ((m', tui.CmdNil), w)
    /\ tui.State m' = tui.StateWelcome
    /\ tui.Diff m' = diff /\ tui.History m' = history
    /\ tui.Config m' = Some cfg /\ tui.AIClient m' = Some client.
Proof.
  intros H. unfold tui.Update. rewrite H. eexists. split; [reflexivity|].
  repeat split.
Qed.

(** A client can be built for the two known provider kinds, and for any
    other kind when the record holds a key. *)
Lemma NewClient_succeeds (cfg : config.Config) :
  config.Provider cfg = config.ProviderOpenAI
  \/ config.Provider cfg = config.ProviderOllama
  \/ config.OpenAIAPIKey cfg <> "" ->
  exists client, ai.NewClient cfg = ok client.
Proof.
  unfold ai.NewClient. intros [H|[H|H]].
  - rewrite H. cbn. eauto.
  - rewrite H. cbn. eauto.
  - destruct (String.eqb (config.Provider cfg) config.ProviderOpenAI); [eauto|].
    destruct (String.eqb (config.Provider cfg) config.ProviderOllama); [eauto|].
    rewrite (eqb_false_of_neq _ _ H). cbn. eauto.
Qed.

Lemma effective_Provider (cfg : config.Config) (envKey : string) :
  config.Provider (spec.effective cfg envKey) = config.Provider cfg.
Proof. unfold spec.effective. destruct (_ && _); reflexivity. Qed.

(** C1 (as amended).  When the configuration loads, the prerequisite check
    tests in this order, and runs a command of git only when the tests before
    it passed.  An incomplete provider configuration gives Setup, with no
    command of git run.  Otherwise, outside a repository, it gives NoRepo, with
    neither the diff nor the log fetched.  Otherwise, when git delivers the
    staged diff: a diff that is blank after trimming fails with "no staged
    changes found"; otherwise a diff longer than 40,000 bytes gives
    DiffTooLarge, on which [Update] dispatches nothing, and the log is not
    fetched; otherwise, when git delivers the log, the check hands on the
    configuration, the diff and the last 10 log entries, and the session goes
    to Welcome provided a provider client can be built from that
    configuration.  DiffTooLarge is given only for a staged diff of more than
    40,000 bytes, and the check makes no backend call. *)
Theorem prerequisite_check_order (w w1 : World) (cfg : config.Config) :
  config.Load w = Some (ok cfg, w1) ->
  exists msg w',
    tui.checkPrerequisitesCmd w = Some (msg, w')
    /\ (spec.incomplete cfg (env_OPENAI_API_KEY w) ->
        msg = tui.setupRequiredMsg cfg
        /\ (forall m, spec.goesTo m msg w' tui.StateSetup)
        /\ Forall (fun c => ~ run.isGitQuery c) (new_calls w w'))
    /\ (~ spec.incomplete cfg (env_OPENAI_API_KEY w) ->
        (git_rev_parse w = false ->
         msg = tui.noRepoMsg
         /\ (forall m, spec.goesTo m msg w' tui.StateNoRepo)
         /\ ~ In call_GetStagedDiff (new_calls w w')
         /\ ~ In (call_GetRecentHistory 10) (new_calls w w'))
        /\ (git_rev_parse w = true ->
            forall diff, git_diff_cached w = ok diff ->
            (TrimSpace diff = "" ->
             msg = tui.errMsg "no staged changes found"
             /\ (forall m, spec.goesTo m msg w' tui.StateError)
             /\ ~ In (call_GetRecentHistory 10) (new_calls w w'))
            /\ (TrimSpace diff <> "" ->
                (40000 < Z.of_nat (String.length diff) ->
                 msg = tui.diffTooLargeMsg
                 /\ (forall m, spec.goesTo m msg w' tui.StateDiffTooLarge)
                 /\ ~ In (call_GetRecentHistory 10) (new_calls w w'))
                /\ (Z.of_nat (String.length diff) <= 40000 ->
                    forall history, git_log w 10 = ok history ->
                    let cfg' := spec.effective cfg (env_OPENAI_API_KEY w) in
                    msg = tui.prerequisitesCheckedMsg cfg' diff history
                    /\ In (call_GetRecentHistory 10) (new_calls w w')
                    /\ (forall m client, ai.NewClient cfg' = ok client ->
                        exists m',
                          tui.Update m msg w' = Some ((m', tui.CmdNil), w')
                          /\ tui.State m' = tui.StateWelcome
                          /\ tui.Diff m' = diff /\ tui.History m' = history)
                    /\ (config.Provider cfg = config.ProviderOpenAI
                        \/ config.Provider cfg = config.ProviderOllama ->
                        forall m, spec.goesTo m msg w' tui.StateWelcome)))))
    /\ (msg = tui.diffTooLargeMsg ->
        exists diff, git_diff_cached w = ok diff
                     /\ 40000 < Z.of_nat (String.length diff))
    /\ (forall op, ~ In (call_Backend op) (new_calls w w')).
Proof.
  intros HLoad.
  pose proof (Load_inv _ _ _ HLoad) as ->.
  destruct (needsSetup_spec cfg (set_calls (call_Load :: calls w) w))
    as (b & cfg' & w2 & Hns & Hb & Hcfg & Hsame & l & Hcalls & Hl).
  cbn [env_OPENAI_API_KEY set_calls] in Hb, Hcfg.
  assert (Hsame' : spec.sameMachine w w2).
  { eapply sameMachine_trans; [apply sameMachine_calls|exact Hsame]. }
  destruct Hsame' as (_ & _ & _ & _ & _ & Hrp & Hdc & Hlg & _).
  (* what the log holds of the calls before the first git command *)
  assert (Hpre : forall c, In c (l ++ [call_Load]) ->
            ~ run.isGitQuery c /\ ~ spec.isBackend c).
  { intros c Hin. apply in_app_or in Hin. destruct Hin as [Hin|[<-|[]]]; [|split; intros []].
    rewrite Forall_forall in Hl. apply list_elem_of_In in Hin. specialize (Hl _ Hin).
    destruct c; try destruct Hl; split; intros []. }
  assert (Hnb : forall op, ~ In (call_Backend op) (l ++ [call_Load])).
  { intros op Hin. apply (proj2 (Hpre _ Hin)). exact I. }
  assert (Hnh : ~ In (call_GetRecentHistory 10) (l ++ [call_Load])).
  { intros Hin. apply (proj1 (Hpre _ Hin)). exact I. }
  assert (Hnd : ~ In call_GetStagedDiff (l ++ [call_Load])).
  { intros Hin. apply (proj1 (Hpre _ Hin)). exact I. }
  assert (Hnew : forall g w', calls w' = g ++ calls w2 ->
            new_calls w w' = g ++ l ++ [call_Load]).
  { intros g w' Hw'. apply new_calls_app. rewrite Hw', Hcalls. cbn.
    rewrite <- !app_assoc. reflexivity. }
  unfold tui.checkPrerequisitesCmd, bind. rewrite HLoad, Hns.
  destruct b.
  { (* setup is needed *)
    subst cfg'. exists (tui.setupRequiredMsg cfg), w2.
    rewrite (Hnew [] w2 eq_refl). cbn [app].
    split; [reflexivity|]. split.
    { intros _. split; [reflexivity|]. split; [intros m; eexists; split; reflexivity|].
      apply Forall_forall. intros c Hin. apply list_elem_of_In in Hin. apply (Hpre _ Hin). }
    split; [intros Hn; exfalso; apply Hn, Hb; reflexivity|].
    split; [discriminate|exact Hnb]. }
  assert (Hinc : ~ spec.incomplete cfg (env_OPENAI_API_KEY w)).
  { intros Hi. apply Hb in Hi. discriminate. }
  subst cfg'.
  unfold git.IsRepo, git.GetStagedDiff, git.GetRecentHistory, bind, record, ask, ret.
  cbn [git_rev_parse set_calls]. rewrite Hrp.
  destruct (git_rev_parse w) eqn:Erp;
    cbn [negb git_rev_parse git_diff_cached git_log set_calls calls].
  2:{ (* not a repository *)
      eexists _, _. split; [reflexivity|].
      rewrite (Hnew [call_IsRepo]) by reflexivity. cbn [app].
      split; [tauto|]. split.
      { intros _. split; [|discriminate]. intros _. split; [reflexivity|].
        split; [intros m; eexists; split; reflexivity|].
        split; intros [Hin|Hin]; (discriminate Hin || tauto). }
      split; [discriminate|].
      intros op [Hin|Hin]; [discriminate|]. exact (Hnb op Hin). }
  rewrite Hdc.
  destruct (git_diff_cached w) as [diff|e] eqn:Edc.
  2:{ (* git diff fails *)
      eexists _, _. split; [reflexivity|].
      rewrite (Hnew [call_GetStagedDiff; call_IsRepo]) by reflexivity. cbn [app].
      split; [tauto|]. split.
      { intros _. split; [discriminate|]. intros _ diff Hd. discriminate Hd. }
      split; [discriminate|].
      intros op [Hin|[Hin|Hin]]; [discriminate..|]. exact (Hnb op Hin). }
  destruct (String.eqb_spec (TrimSpace diff) "") as [Ht|Ht].
  { (* nothing staged *)
    eexists _, _. split; [reflexivity|].
    rewrite (Hnew [call_GetStagedDiff; call_IsRepo]) by reflexivity. cbn [app].
    split; [tauto|]. split.
    { intros _. split; [discriminate|]. intros _ d [= <-]. split; [|tauto].
      intros _. split; [reflexivity|]. split; [intros m; eexists; split; reflexivity|].
      intros [Hin|[Hin|Hin]]; (discriminate Hin || tauto). }
    split; [discriminate|].
    intros op [Hin|[Hin|Hin]]; [discriminate..|]. exact (Hnb op Hin). }
  destruct (Z.gtb_spec (Z.of_nat (String.length diff)) 40000) as [Hlen|Hlen].
  { (* the diff is too large *)
    eexists _, _. split; [reflexivity|].
    rewrite (Hnew [call_GetStagedDiff; call_IsRepo]) by reflexivity. cbn [app].
    split; [tauto|]. split.
    { intros _. split; [discriminate|]. intros _ d [= <-]. split; [tauto|]. intros _.
      split; [|lia]. intros _. split; [reflexivity|].
      split; [intros m; eexists; split; reflexivity|].
      intros [Hin|[Hin|Hin]]; (discriminate Hin || tauto). }
    split; [intros _; exists diff; split; [reflexivity|exact Hlen]|].
    intros op [Hin|[Hin|Hin]]; [discriminate..|]. exact (Hnb op Hin). }
  cbn [git_rev_parse git_diff_cached git_log set_calls calls].
  rewrite Hlg.
  destruct (git_log w 10) as [history|e] eqn:Elg.
  2:{ (* git log fails *)
      eexists _, _. split; [reflexivity|].
      rewrite (Hnew [call_GetRecentHistory 10; call_GetStagedDiff; call_IsRepo]) by reflexivity.
      cbn [app].
      split; [tauto|]. split.
      { intros _. split; [discriminate|]. intros _ d [= <-]. split; [tauto|]. intros _.
        split; [lia|]. intros _ h Hh. discriminate Hh. }
      split; [discriminate|].
      intros op [Hin|[Hin|[Hin|Hin]]]; [discriminate..|]. exact (Hnb op Hin). }
  eexists _, _. split; [reflexivity|].
  rewrite (Hnew [call_GetRecentHistory 10; call_GetStagedDiff; call_IsRepo]) by reflexivity.
  cbn [app].
  split; [tauto|]. split.
  { intros _. split; [discriminate|]. intros _ d [= <-]. split; [tauto|]. intros _.
    split; [lia|]. intros _ h [= <-]. cbv zeta.
    split; [reflexivity|]. split; [left; reflexivity|].
    assert (Hwelcome : forall m client,
              ai.NewClient (spec.effective cfg (env_OPENAI_API_KEY w)) = ok client ->
              exists m',
                tui.Update m
                  (tui.prerequisitesCheckedMsg
                     (spec.effective cfg (env_OPENAI_API_KEY w)) diff history)
                  (set_calls (call_GetRecentHistory 10 :: call_GetStagedDiff
                                :: call_IsRepo :: calls w2) w2)
                = Some ((m', tui.CmdNil),
                        set_calls (call_GetRecentHistory 10 :: call_GetStagedDiff
                                     :: call_IsRepo :: calls w2) w2)
                /\ tui.State m' = tui.StateWelcome
                /\ tui.Diff m' = diff /\ tui.History m' = history).
    { intros m client Hc.
      destruct (Update_prerequisitesChecked m
                  (set_calls (call_GetRecentHistory 10 :: call_GetStagedDiff
                                :: call_IsRepo :: calls w2) w2)
                  _ diff history client Hc) as (m' & HU & HS & HD & HH & _).
      exists m'. repeat split; assumption. }
    split; [exact Hwelcome|].
    intros Hkind m.
    destruct (NewClient_succeeds (spec.effective cfg (env_OPENAI_API_KEY w)))
      as [client Hc].
    { rewrite effective_Provider. tauto. }
    destruct (Hwelcome m client Hc) as (m' & HU & HS & _).
    exists m'. split; assumption. }
  split; [discriminate|].
  intros op [Hin|[Hin|[Hin|Hin]]]; [discriminate..|]. exact (Hnb op Hin).
Qed.

End Prerequisites.

Lemma filler_length (n : nat) : String.length (concrete.filler n) = n.
Proof. induction n as [|n IH]; [reflexivity|]. simpl. rewrite IH. reflexivity. Qed.

Lemma largeDiff_length : Z.of_nat (String.length concrete.largeDiff) = 40001.
Proof. unfold concrete.largeDiff. rewrite filler_length. apply Z2Nat.id. lia. Qed.

(** Text that starts with a visible byte does not trim to nothing. *)
Lemma trim_nonblank (c : ascii) (s : string) :
  Ascii.is_space c = false ->
  TrimSpace (GoStrings := concrete.asciiStrings) (String c s) <> "".
Proof.
  intros Hc. cbn [TrimSpace concrete.asciiStrings concrete.trimLeft].
  rewrite Hc. cbn [concrete.trimRight]. rewrite Hc.
  destruct (concrete.trimRight s); discriminate.
Qed.

Lemma largeDiff_nonblank :
  TrimSpace (GoStrings := concrete.asciiStrings) concrete.largeDiff <> "".
Proof.
  unfold concrete.largeDiff.
  replace (Z.to_nat 40001) with (S (Z.to_nat 40000)) by lia.
  apply trim_nonblank. reflexivity.
Qed.

Lemma prerequisite_check_order_witness :
  (exists w',
     concrete.checkPrerequisitesCmd
       (concrete.machine (concrete.fileOf concrete.ollamaConfig) "" concrete.largeDiff)
     = Some (tui.diffTooLargeMsg, w'))
  /\ (exists w' m',
        concrete.checkPrerequisitesCmd
          (concrete.machine (concrete.fileOf concrete.ollamaConfig) "" concrete.smallDiff)
        = Some (tui.prerequisitesCheckedMsg concrete.ollamaConfig concrete.smallDiff
                  "Commit: 1a2b3c4", w')
        /\ concrete.Update concrete.NewModel
             (tui.prerequisitesCheckedMsg concrete.ollamaConfig concrete.smallDiff
                "Commit: 1a2b3c4") w'
           = Some ((m', tui.CmdNil), w')
        /\ tui.State m' = tui.StateWelcome).
Proof.
  assert (Hinc : ~ spec.incomplete concrete.ollamaConfig "").
  { intros [H|[(H & _)|(_ & [H|H])]]; discriminate H. }
  split.
  - destruct (prerequisite_check_order (strings := concrete.asciiStrings)
                (widgets := concrete.plainWidgets)
                (concrete.machine (concrete.fileOf concrete.ollamaConfig) ""
                   concrete.largeDiff)
                _ concrete.ollamaConfig eq_refl)
      as (msg & w' & Hrun & _ & Hcomplete & _).
    destruct (Hcomplete Hinc) as [_ Hrepo].
    destruct (Hrepo eq_refl concrete.largeDiff eq_refl) as [_ Hstaged].
    destruct Hstaged as [Hlarge _]; [exact largeDiff_nonblank|].
    destruct Hlarge as [-> _]; [rewrite largeDiff_length; lia|].
    exists w'. exact Hrun.
  - destruct (prerequisite_check_order (strings := concrete.asciiStrings)
                (widgets := concrete.plainWidgets)
                (concrete.machine (concrete.fileOf concrete.ollamaConfig) ""
                   concrete.smallDiff)
                _ concrete.ollamaConfig eq_refl)
      as (msg & w' & Hrun & _ & Hcomplete & _).
    destruct (Hcomplete Hinc) as [_ Hrepo].
    destruct (Hrepo eq_refl concrete.smallDiff eq_refl) as [_ Hstaged].
    destruct Hstaged as [_ Hsmall].
    { intros H. vm_compute in H. discriminate H. }
    destruct (Hsmall ltac:(vm_compute; discriminate) "Commit: 1a2b3c4" eq_refl)
      as (-> & _ & Hwelcome & _).
    destruct (Hwelcome concrete.NewModel _ eq_refl) as (m' & HU & HS & _).
    exists w', m'. repeat split; assumption.
Defined.

(** C1, counterexample.  A record with the provider kind "gemini" and no key
    passes every test of the check (the configuration is not incomplete, the
    directory is a repository, the diff is not blank and is short), yet the
    session does not go to Welcome: no client can be built, [Update] stays in
    Loading and dispatches the failure, and the session ends in Error. *)
Lemma unknown_provider_misses_Welcome :
  let w := concrete.machine (concrete.fileOf concrete.geminiConfig) "" concrete.smallDiff in
  let msg := tui.prerequisitesCheckedMsg concrete.geminiConfig concrete.smallDiff
               "Commit: 1a2b3c4" in
  ~ spec.incomplete concrete.geminiConfig (env_OPENAI_API_KEY w)
  /\ git_rev_parse w = true
  /\ TrimSpace (GoStrings := concrete.asciiStrings) concrete.smallDiff <> ""
  /\ Z.of_nat (String.length concrete.smallDiff) <= 40000
  /\ exists w' m1 m2,
       concrete.checkPrerequisitesCmd w = Some (msg, w')
       /\ concrete.Update concrete.NewModel msg w'
          = Some ((m1, tui.CmdErr "unknown provider: gemini"), w')
       /\ tui.State m1 = tui.StateLoading
       /\ concrete.exec (tui.CmdErr "unknown provider: gemini") w'
          = Some (Some (tui.errMsg "unknown provider: gemini"), w')
       /\ concrete.Update m1 (tui.errMsg "unknown provider: gemini") w'
          = Some ((m2, tui.CmdNil), w')
       /\ tui.State m2 = tui.StateError
       /\ tui.State m2 <> tui.StateWelcome.
Proof.
  cbv zeta. split.
  { intros [H|[(H & _)|(H & _)]]; discriminate H. }
  split; [reflexivity|]. split; [vm_compute; discriminate|].
  split; [vm_compute; discriminate|].
  eexists _, _, _. split; [vm_compute; reflexivity|].
  split; [vm_compute; reflexivity|]. split; [reflexivity|].
  split; [reflexivity|]. split; [reflexivity|]. split; [reflexivity|discriminate].
Qed.

(** ** The transition function *)

(** Opening up [Update] in a hypothesis or in the goal. *)
Ltac open_Update :=
  unfold tui.Update, tui.updateState, tui.setupKey, tui.questioningKey,
    tui.textAreaUpdate, tui.withConfig, tui.saveConfig, bind, ret, ask, panic in *.

(** Case analysis on whatever [H] still branches on, tests first. *)
Ltac branch H :=
  match type of H with
  | context [match tui.State ?m with _ => _ end] => destruct (tui.State m) eqn:?
  | context [match tui.setupStep ?m with _ => _ end] => destruct (tui.setupStep m) eqn:?
  | context [match tui.keyType ?k with _ => _ end] => destruct (tui.keyType k) eqn:?
  | context [match tui.Config ?m with _ => _ end] => destruct (tui.Config m) eqn:?
  | context [if ?b then _ else _] => destruct b eqn:?
  | context [match lookup ?i ?l with _ => _ end] => destruct (lookup i l) eqn:?
  | context [match ai.NewClient ?cfg with _ => _ end] => destruct (ai.NewClient cfg) eqn:?
  | context [match spec.saveError ?w with _ => _ end] => destruct (spec.saveError w) eqn:?
  | context [match tui.textarea_Update ?t ?msg with _ => _ end] =>
      destruct (tui.textarea_Update t msg) eqn:?
  | context [match tui.spinner_Update ?t ?msg with _ => _ end] =>
      destruct (tui.spinner_Update t msg) eqn:?
  | context [match ?x with _ => _ end] => destruct x eqn:?
  end.

Ltac branches H := repeat (branch H; cbn beta iota in H); try discriminate H.

Section Interview.

Context {strings : GoStrings} {widgets : tui.Widgets}.

(** C3.  In Questioning, pressing Enter while the text is empty or blank
    leaves the question index, the answers and the state as they are. *)
Theorem blank_answer_not_accepted (m : tui.Model) (k : tui.Key) (w : World) :
  tui.State m = tui.StateQuestioning ->
  tui.keyType k = tui.KeyEnter ->
  TrimSpace (tui.Value (tui.TextArea m)) = "" ->
  exists m' c,
    tui.Update m (tui.KeyMsg k) w = Some ((m', c), w)
    /\ tui.CurrentQIdx m' = tui.CurrentQIdx m
    /\ tui.Answers m' = tui.Answers m
    /\ tui.State m' = tui.State m
    /\ tui.Questions m' = tui.Questions m.
Proof.
  intros HS HK HT. open_Update. rewrite HS, HK, HT. cbn.
  destruct (String.eqb (tui.keyString k) "ctrl+c"); [eauto 10|].
  rewrite andb_false_r.
  destruct (tui.textarea_Update (tui.TextArea m) (tui.KeyMsg k)) as [ta c].
  eexists _, _. split; [reflexivity|]. repeat split; assumption.
Qed.

(** C5 (as amended).  The key "q" quits in every state except Questioning,
    Setup, Welcome and Review, DiffTooLarge included; in Questioning and in
    Setup it is handed to the text area as ordinary input, and in Welcome and
    Review it does nothing. *)
Theorem quit_key (m : tui.Model) (w : World) :
  ToLower "q" = "q" ->
  (tui.State m <> tui.StateQuestioning -> tui.State m <> tui.StateSetup ->
   tui.State m <> tui.StateWelcome -> tui.State m <> tui.StateReview ->
   tui.Update m (tui.KeyMsg tui.qKey) w = Some ((m, tui.CmdQuit), w))
  /\ (tui.State m = tui.StateQuestioning \/ tui.State m = tui.StateSetup ->
      exists ta c,
        tui.textarea_Update (tui.TextArea m) (tui.KeyMsg tui.qKey) = (ta, c)
        /\ tui.Update m (tui.KeyMsg tui.qKey) w
           = Some ((tui.set_TextArea ta m, tui.CmdWidget c), w))
  /\ (tui.State m = tui.StateWelcome \/ tui.State m = tui.StateReview ->
      tui.Update m (tui.KeyMsg tui.qKey) w = Some ((m, tui.CmdNil), w)).
Proof.
  intros Hq. open_Update. cbn. rewrite Hq. cbn.
  split; [|split].
  - intros H1 H2 H3 H4. destruct (tui.State m); try reflexivity; congruence.
  - intros [H|H]; rewrite H; cbn.
    + destruct (tui.textarea_Update (tui.TextArea m) (tui.KeyMsg tui.qKey)) as [ta c].
      eauto.
    + destruct (tui.textarea_Update (tui.TextArea m) (tui.KeyMsg tui.qKey)) as [ta c].
      destruct (tui.setupStep m); cbn; eauto.
  - intros [H|H]; rewrite H; reflexivity.
Qed.

End Interview.

Lemma quit_key_witness :
  concrete.Update (concrete.inState tui.StateSetup) (tui.KeyMsg tui.qKey)
    (concrete.machine None "" "")
  = Some ((concrete.inState tui.StateSetup, tui.CmdWidget O),
          concrete.machine None "" "")
  /\ concrete.Update (concrete.inState tui.StateNoRepo)
       (tui.KeyMsg tui.qKey) (concrete.machine None "" "")
     = Some ((concrete.inState tui.StateNoRepo, tui.CmdQuit),
             concrete.machine None "" "").
Proof.
  split.
  - destruct (quit_key (strings := concrete.asciiStrings) (widgets := concrete.plainWidgets)
                (concrete.inState tui.StateSetup)
                (concrete.machine None "" "") eq_refl) as (_ & Hinput & _).
    destruct (Hinput (or_intror eq_refl)) as (ta & c & Hta & HU).
    injection Hta as <- <-. exact HU.
  - apply (quit_key (strings := concrete.asciiStrings) (widgets := concrete.plainWidgets)
             (concrete.inState tui.StateNoRepo)
             (concrete.machine None "" "") eq_refl); discriminate.
Defined.

(** C5, counterexample.  In DiffTooLarge the key "q" ends the session. *)
Lemma quit_key_in_DiffTooLarge :
  concrete.Update (concrete.inState tui.StateDiffTooLarge)
    (tui.KeyMsg tui.qKey) (concrete.machine None "" "")
  = Some ((concrete.inState tui.StateDiffTooLarge, tui.CmdQuit),
          concrete.machine None "" "").
Proof. reflexivity. Qed.

Lemma blank_answer_not_accepted_witness :
  exists m' c,
    concrete.Update (concrete.withText "  " (concrete.asking ["Why?"]))
      (tui.KeyMsg tui.enterKey) (concrete.machine None "" "")
    = Some ((m', c), concrete.machine None "" "")
    /\ tui.CurrentQIdx m' = 0
    /\ tui.Answers m' = ∅
    /\ tui.State m' = tui.StateQuestioning.
Proof.
  destruct (blank_answer_not_accepted (strings := concrete.asciiStrings)
              (widgets := concrete.plainWidgets)
              (concrete.withText "  " (concrete.asking ["Why?"]))
              tui.enterKey (concrete.machine None "" "") eq_refl eq_refl eq_refl)
    as (m' & c & HU & Hi & Ha & Hs & _).
  exists m', c. repeat split; assumption.
Defined.

(** ** Failures *)

Ltac save_step H :=
  match type of H with
  | context [config.Save ?cfg ?w] =>
      let w' := fresh "w" in
      let HS := fresh "HS" in
      let Hsame := fresh "Hsame" in
      let Hcalls := fresh "Hcalls" in
      destruct (Save_run cfg w) as (w' & HS & Hsame & Hcalls & _);
      rewrite HS in H; clear HS
  end.

Ltac cases_of H :=
  repeat (first [save_step H | branch H]; cbn beta iota in H); try discriminate H.

Section Failures.

Context {strings : GoStrings} {widgets : tui.Widgets} (net : ai.Backend).







End Failures.


(** ** Saving the configuration *)

Section Persistence.

Context {strings : GoStrings} {widgets : tui.Widgets}.

(** [Update] either leaves the log of calls alone or saves the configuration
    once; when that save fails, it moves to Error with the failure stored
    and dispatches nothing. *)
Lemma Update_calls (m m' : tui.Model) (msg : tui.Msg) (c : tui.Cmd) (w w' : World) :
  tui.Update m msg w = Some ((m', c), w') ->
  calls w' = calls w
  \/ tui.State m = tui.StateSetup
     /\ (exists data, calls w' = call_Save data (spec.saveError w) :: calls w)
     /\ (forall e, spec.saveError w = Some e ->
         tui.State m' = tui.StateError /\ tui.Err m' = Some e /\ c = tui.CmdNil)
     /\ (spec.saveError w = None -> c = tui.CmdCheckPrerequisites).
Proof.
  intros H. destruct msg; open_Update; cbn in H; cases_of H;
    injection H as <- <- <-;
    (left; reflexivity)
    || (right; split; [reflexivity|]; split; [eexists; eassumption|]; split;
        [intros ? Herr; try congruence; injection Herr as <-; repeat split
        |intros Herr; congruence || reflexivity]).
Qed.

(** C7 (as amended).  Whenever [Update] saves the configuration and the save
    fails, the session moves to Error with that failure stored and nothing is
    dispatched; these are the three saving steps of Setup.  (The prerequisite
    check also saves, when it adopts the key of the environment, and ignores
    the outcome.) *)
Theorem save_failure_is_fatal (m m' : tui.Model) (msg : tui.Msg) (c : tui.Cmd)
    (w w' : World) (data : string) (e : error) :
  tui.Update m msg w = Some ((m', c), w') ->
  In (call_Save data (Some e)) (new_calls w w') ->
  tui.State m = tui.StateSetup
  /\ tui.State m' = tui.StateError /\ tui.Err m' = Some e /\ c = tui.CmdNil.
Proof.
  intros HU Hin.
  destruct (Update_calls _ _ _ _ _ _ HU) as [Hc|(HS & [data' Hc] & Hfail & _)].
  - rewrite (new_calls_same _ _ Hc) in Hin. destruct Hin.
  - rewrite (new_calls_app [call_Save data' (spec.saveError w)] w w' Hc) in Hin.
    destruct Hin as [Hin|[]]. injection Hin as _ He.
    split; [exact HS|]. exact (Hfail e He).
Qed.

End Persistence.

Lemma save_failure_is_fatal_witness :
  exists m' w',
    concrete.Update
      (concrete.withText "llama3.1"
         (concrete.configuring tui.SetupStepOllamaModel concrete.keylessConfig))
      (tui.KeyMsg tui.enterKey) (concrete.readOnly (concrete.machine None "" ""))
    = Some ((m', tui.CmdNil), w')
    /\ tui.State m' = tui.StateError
    /\ tui.Err m' = Some "open config.json: permission denied".
Proof.
  assert (Hrun : exists m' c w' data,
            concrete.Update
              (concrete.withText "llama3.1"
                 (concrete.configuring tui.SetupStepOllamaModel concrete.keylessConfig))
              (tui.KeyMsg tui.enterKey) (concrete.readOnly (concrete.machine None "" ""))
            = Some ((m', c), w')
            /\ In (call_Save data (Some "open config.json: permission denied"))
                 (new_calls (concrete.readOnly (concrete.machine None "" "")) w')).
  { eexists _, _, _, _. split; [vm_compute; reflexivity|]. left. reflexivity. }
  destruct Hrun as (m' & c & w' & data & HU & Hin).
  destruct (save_failure_is_fatal (strings := concrete.asciiStrings)
              (widgets := concrete.plainWidgets) _ _ _ _ _ _ _ _ HU Hin)
    as (_ & HS & HE & ->).
  exists m', w'. repeat split; assumption.
Defined.

(** C7, counterexample.  The record names the remote provider without a key,
    the environment holds one, and the configuration file cannot be written:
    the prerequisite check saves, the save fails, and the session goes on to
    Welcome with no failure stored. *)
Lemma check_ignores_save_failure :
  let w := concrete.readOnly
             (concrete.machine (concrete.fileOf concrete.keylessConfig) "sk-env"
                concrete.smallDiff) in
  let msg := tui.prerequisitesCheckedMsg
               (config.set_OpenAIAPIKey "sk-env" concrete.keylessConfig)
               concrete.smallDiff "Commit: 1a2b3c4" in
  exists w' data m',
    concrete.checkPrerequisitesCmd w = Some (msg, w')
    /\ In (call_Save data (Some "open config.json: permission denied")) (new_calls w w')
    /\ concrete.Update concrete.NewModel msg w' = Some ((m', tui.CmdNil), w')
    /\ tui.State m' = tui.StateWelcome
    /\ tui.Err m' = None.
Proof.
  cbv zeta. eexists _, _, _. split; [vm_compute; reflexivity|].
  split; [vm_compute; right; right; right; left; reflexivity|].
  split; [vm_compute; reflexivity|]. split; reflexivity.
Qed.

(** ** Questions and answers *)

Section Questions.

Context {strings : GoStrings} {widgets : tui.Widgets}.

Lemma NewModel_fresh : spec.fresh tui.NewModel.
Proof. repeat split. discriminate. Qed.

Lemma Update_fresh (m m' : tui.Model) (msg : tui.Msg) (c : tui.Cmd) (w w' : World) :
  tui.Update m msg w = Some ((m', c), w') ->
  ~ spec.bringsQuestions msg ->
  spec.fresh m -> spec.fresh m'.
Proof.
  intros H Hmsg (HS & Hi & Ha).
  destruct msg as [| | | | | | | | |[|q qs]| | |]; try (exfalso; apply Hmsg; exact I);
    open_Update; cbn in H; cases_of H; try congruence;
    injection H as <- <- <-; repeat split; cbn; try assumption; try discriminate;
    congruence.
Qed.

Lemma deliver_fresh (msgs : list tui.Msg) (m m' : tui.Model) (w w' : World) :
  Forall (fun msg => ~ spec.bringsQuestions msg) msgs ->
  tui.deliver m msgs w = Some (m', w') ->
  spec.fresh m -> spec.fresh m'.
Proof.
  intros Hall. revert m w. induction Hall as [|msg msgs Hmsg Hall IH]; intros m w H Hm.
  - injection H as <- _. exact Hm.
  - cbn in H. unfold bind in H.
    destruct (tui.Update m msg w) as [[[m1 c1] w1]|] eqn:HU; [|discriminate H].
    exact (IH _ _ H (Update_fresh _ _ _ _ _ _ HU Hmsg Hm)).
Qed.

(** C4 (as amended).  Up to the first non-empty list of questions the session is never in
    Questioning.  An empty list dispatches the message generation at once and
    leaves the state alone; the first non-empty list moves the session to
    Questioning with the question index 0 and no answers. *)
Theorem first_questions (msgs : list tui.Msg) (m : tui.Model) (w w' : World)
    (questions : list string) :
  Forall (fun msg => ~ spec.bringsQuestions msg) msgs ->
  tui.deliver tui.NewModel msgs w = Some (m, w') ->
  tui.State m <> tui.StateQuestioning
  /\ (forall n mn wn, tui.deliver tui.NewModel (take n msgs) w = Some (mn, wn) ->
      tui.State mn <> tui.StateQuestioning)
  /\ (questions = [] ->
      exists m',
        tui.Update m (tui.analysisResultMsg questions) w'
        = Some ((m', tui.CmdGenerateCommitMsg (tui.AIClient m) (tui.Diff m)
                       (tui.History m) (tui.HistoryCtx m) (tui.Answers m)), w')
        /\ tui.State m' = tui.State m
        /\ tui.State m' <> tui.StateQuestioning)
  /\ (questions <> [] ->
      exists m',
        tui.Update m (tui.analysisResultMsg questions) w' = Some ((m', tui.CmdNil), w')
        /\ tui.State m' = tui.StateQuestioning
        /\ tui.CurrentQIdx m' = 0
        /\ tui.Questions m' = questions
        /\ tui.Answers m' = ∅).
Proof.
  intros Hall Hrun.
  destruct (deliver_fresh _ _ _ _ _ Hall Hrun NewModel_fresh) as (HS & Hi & Ha).
  split; [exact HS|]. split; [|split].
  - intros n mn wn Hn.
    apply (deliver_fresh (take n msgs) _ _ _ _ (Forall_take _ n _ Hall) Hn NewModel_fresh).
  - intros ->. eexists. split; [reflexivity|]. split; [reflexivity|exact HS].
  - intros Hq. destruct questions as [|q qs]; [congruence|].
    eexists. split; [cbn; reflexivity|]. repeat split; assumption.
Qed.

End Questions.

Lemma first_questions_witness :
  exists m m',
    tui.deliver (strings := concrete.asciiStrings) concrete.NewModel
      [tui.prerequisitesCheckedMsg concrete.ollamaConfig concrete.smallDiff "";
       tui.KeyMsg (tui.mkKey tui.KeyRunes "1");
       tui.historyAnalysisResultMsg []]
      (concrete.machine None "" "")
    = Some (m, concrete.machine None "" "")
    /\ concrete.Update m (tui.analysisResultMsg ["Why?"]) (concrete.machine None "" "")
       = Some ((m', tui.CmdNil), concrete.machine None "" "")
    /\ tui.State m = tui.StateAnalysis
    /\ tui.State m' = tui.StateQuestioning
    /\ tui.CurrentQIdx m' = 0.
Proof.
  assert (Hrun : exists m,
            tui.deliver (strings := concrete.asciiStrings) concrete.NewModel
              [tui.prerequisitesCheckedMsg concrete.ollamaConfig concrete.smallDiff "";
               tui.KeyMsg (tui.mkKey tui.KeyRunes "1");
               tui.historyAnalysisResultMsg []]
              (concrete.machine None "" "")
            = Some (m, concrete.machine None "" "")
            /\ tui.State m = tui.StateAnalysis).
  { eexists. split; [vm_compute; reflexivity|reflexivity]. }
  destruct Hrun as (m & Hrun & HS).
  assert (Hall : Forall (fun msg => ~ spec.bringsQuestions msg)
            [tui.prerequisitesCheckedMsg concrete.ollamaConfig concrete.smallDiff "";
             tui.KeyMsg (tui.mkKey tui.KeyRunes "1");
             tui.historyAnalysisResultMsg []]).
  { repeat constructor; intros []. }
  destruct (first_questions (strings := concrete.asciiStrings)
              (widgets := concrete.plainWidgets) _ m _ _ ["Why?"] Hall Hrun)
    as (_ & _ & _ & Hfirst).
  destruct Hfirst as (m' & HU & HQ & Hi & _); [discriminate|].
  exists m, m'. repeat split; assumption.
Defined.



Section Answers.

Context {strings : GoStrings} {widgets : tui.Widgets}.




End Answers.



(** ** The configuration file *)

Lemma read_string_encode_byte (c : ascii) (tail : string) :
  (nat_of_ascii c < 128)%nat ->
  config.read_string (config.encode_byte c +:+ tail) = spec.consByte c (config.read_string tail).
Proof.
  destruct c as [b0 b1 b2 b3 b4 b5 b6 b7]. intros H.
  assert (b7 = false) as ->.
  { destruct b7; [|reflexivity]. apply Nat.ltb_lt in H.
    destruct b0, b1, b2, b3, b4, b5, b6; vm_compute in H; discriminate H. }
  clear H. destruct b0, b1, b2, b3, b4, b5, b6; reflexivity.
Qed.

Lemma read_string_encode (s rest : string) :
  spec.isASCII s ->
  config.read_string (config.encode_bytes s +:+ String config.quote rest) = Some (s, rest).
Proof.
  unfold spec.isASCII. induction s as [|c s IH]; intros H.
  - reflexivity.
  - cbn [list_ascii_of_string] in H. apply Forall_cons in H. destruct H as [Hc Hs].
    cbn [config.encode_bytes]. rewrite app_assoc_str, (read_string_encode_byte _ _ Hc).
    rewrite (IH Hs). reflexivity.
Qed.

Lemma read_value_encode (s rest : string) :
  spec.isASCII s ->
  config.read_value (config.encode_string s +:+ rest) = Some (Some s, rest).
Proof.
  intros H. unfold config.encode_string. rewrite app_cons, app_assoc_str, app_cons.
  cbn [config.read_value]. rewrite Ascii.eqb_refl, app_empty_l.
  rewrite (read_string_encode _ _ H). reflexivity.
Qed.

(** The text of a member, byte by byte. *)
Lemma member_text (name value rest : string) :
  String config.LF (config.member name value) +:+ rest
  = String config.LF (String " " (String " " (String config.quote
      (config.encode_bytes name +:+ String config.quote (String ":" (String " "
         (String config.quote (config.encode_bytes value +:+ String config.quote rest)))))))).
Proof.
  unfold config.member, config.encode_string.
  repeat first [rewrite app_cons | rewrite app_assoc_str | rewrite app_empty_l].
  reflexivity.
Qed.

(** Reading one member that is followed by a comma, and the last one. *)
Lemma read_members_step (fuel : nat) (name value rest : string) (c : config.Config) :
  spec.isASCII name -> spec.isASCII value ->
  config.read_members (S fuel)
    (String config.LF (config.member name value) +:+ "," +:+ rest) c
  = config.read_members fuel rest (config.assign name value c).
Proof.
  intros Hn Hv. change ("," +:+ rest) with (String ","%char rest).
  rewrite member_text. simpl.
  rewrite (read_string_encode _ _ Hn). simpl.
  rewrite (read_string_encode _ _ Hv). simpl. reflexivity.
Qed.

Lemma read_members_last (fuel : nat) (name value : string) (c : config.Config) :
  spec.isASCII name -> spec.isASCII value ->
  config.read_members (S fuel)
    (String config.LF (config.member name value) +:+ String config.LF "}") c
  = Some (config.assign name value c).
Proof.
  intros Hn Hv. rewrite member_text. simpl.
  rewrite (read_string_encode _ _ Hn). simpl.
  rewrite (read_string_encode _ _ Hv). simpl. reflexivity.
Qed.

Lemma isASCII_literal (s : string) :
  forallb (fun c => (nat_of_ascii c <? 128)%nat) (list_ascii_of_string s) = true ->
  spec.isASCII s.
Proof.
  unfold spec.isASCII. intros H. apply Forall_forall. intros c Hc.
  rewrite forallb_forall in H. apply Nat.ltb_lt, H, list_elem_of_In, Hc.
Qed.

(** Decoding what [MarshalIndent] wrote gives the record back. *)
Lemma Unmarshal_MarshalIndent (c : config.Config) :
  spec.plain c -> config.Unmarshal (config.MarshalIndent c) = ok c.
Proof.
  intros (Hp & Hk & Hm & Hu). unfold config.Unmarshal.
  assert (Hfuel : exists fuel, String.length (config.MarshalIndent c) = S (S (S (S fuel)))).
  { unfold config.MarshalIndent. rewrite app_cons, member_text. simpl. eauto. }
  destruct Hfuel as [fuel ->].
  unfold config.MarshalIndent.
  rewrite app_cons, app_empty_l. cbn [config.skip_ws config.is_ws].
  replace (config.is_ws "{") with false by reflexivity.
  set (body := String config.LF (config.member "provider" (config.Provider c)) +:+ _).
  assert (Hbody : config.read_members (S (S (S (S fuel)))) body config.zero = Some c).
  { subst body.
    rewrite (read_members_step _ "provider"); [|apply isASCII_literal; reflexivity|exact Hp].
    rewrite (read_members_step _ "openai_api_key");
      [|apply isASCII_literal; reflexivity|exact Hk].
    rewrite (read_members_step _ "ollama_model");
      [|apply isASCII_literal; reflexivity|exact Hm].
    rewrite (read_members_last _ "ollama_url");
      [|apply isASCII_literal; reflexivity|exact Hu].
    destruct c. reflexivity. }
  rewrite Hbody.
  subst body. rewrite member_text. reflexivity.
Qed.

Lemma Save_Load_file (c : config.Config) (w : World) (home : string) :
  spec.plain c ->
  os_UserHomeDir w = ok home -> os_MkdirAll w = None ->
  os_WriteFile w = None -> os_ReadFile w = None ->
  exists w1 w2,
    config.Save c w = Some (None, w1)
    /\ configFile w1 = Some (config.MarshalIndent c)
    /\ config.Load w1 = Some (ok c, w2).
Proof.
  intros Hplain Hhome Hmk Hwr Hrd.
  assert (Herr : spec.saveError w = None).
  { unfold spec.saveError. rewrite Hhome, Hmk. exact Hwr. }
  destruct (Save_run c w) as (w1 & HS & Hsame & _ & Hfile).
  rewrite Herr in HS. specialize (Hfile Herr).
  destruct Hsame as (_ & Hhome1 & Hmk1 & Hrd1 & _).
  exists w1. eexists. split; [exact HS|]. split; [exact Hfile|].
  unfold config.Load, config.getConfigPath, bind, record, ask, ret.
  do 4 (cbn [os_UserHomeDir os_MkdirAll os_ReadFile configFile set_calls];
        rewrite ?Hhome1, ?Hhome, ?Hmk1, ?Hmk, ?Hfile, ?Hrd1, ?Hrd).
  rewrite (Unmarshal_MarshalIndent c Hplain). reflexivity.
Qed.

(** C8.  Saving the record with provider "ollama", URL
    "http://localhost:11434" and model "llama3.1" (and any API key of ASCII
    text) and then loading gives the same record back, on a machine where the
    file can be written and read; the same holds for every record of ASCII
    text. *)
Theorem save_then_load (w : World) (home key : string) :
  os_UserHomeDir w = ok home -> os_MkdirAll w = None ->
  os_WriteFile w = None -> os_ReadFile w = None ->
  (spec.isASCII key ->
   let c := config.mkConfig config.ProviderOllama key "llama3.1"
              "http://localhost:11434" in
   exists w1 w2,
     config.Save c w = Some (None, w1) /\ config.Load w1 = Some (ok c, w2))
  /\ (forall c, spec.plain c ->
      exists w1 w2,
        config.Save c w = Some (None, w1) /\ config.Load w1 = Some (ok c, w2)).
Proof.
  intros Hhome Hmk Hwr Hrd.
  assert (Hall : forall c, spec.plain c ->
            exists w1 w2,
              config.Save c w = Some (None, w1) /\ config.Load w1 = Some (ok c, w2)).
  { intros c Hc.
    destruct (Save_Load_file c w home Hc Hhome Hmk Hwr Hrd) as (w1 & w2 & H1 & _ & H2).
    eauto. }
  split; [|exact Hall].
  intros Hkey c. apply Hall. subst c. unfold spec.plain. cbn.
  repeat split; try exact Hkey; apply isASCII_literal; reflexivity.
Qed.

Lemma save_then_load_witness :
  exists w1 w2,
    config.Save concrete.ollamaConfig (concrete.machine None "" "") = Some (None, w1)
    /\ config.Load w1 = Some (ok concrete.ollamaConfig, w2).
Proof.
  destruct (save_then_load (concrete.machine None "" "") "/home/dev" ""
              eq_refl eq_refl eq_refl eq_refl) as [Hollama _].
  apply Hollama. apply isASCII_literal. reflexivity.
Defined.

(** * Further properties *)

(** ** Provider clients, continued *)

Lemma endsWith_v1_lastByte (s : string) :
  spec.endsWith s "v1/" -> ai.lastByte s = Some "/"%char.
Proof.
  intros [p ->]. change "v1/" with ("v1" +:+ "/").
  rewrite <- app_assoc_str. apply lastByte_app.
Qed.

Lemma endsWith_v1_nonempty (s : string) : spec.endsWith s "v1/" -> s <> "".
Proof. intros [p ->]. destruct p; discriminate. Qed.

Lemma NewOllamaClient_endsWith (baseURL model : string) :
  spec.endsWith (run.baseURLOf (ai.NewOllamaClient baseURL model)) "v1/".
Proof.
  unfold run.baseURLOf, ai.NewOllamaClient. cbn [ai.ollama_client ai.BaseURL default].
  set (b := if negb (String.eqb baseURL "") && _ then _ else _).
  destruct (appendV1_spec b) as [[He Hu]|[_ Hu]]; rewrite Hu;
    [exact He|exists b; reflexivity].
Qed.

(** X4.  [NewOllamaClient] only appends to the base URL it is given: the
    client is built on the URL followed by nothing, "/", "v1/" or "/v1/", with
    the API key "ollama" and the model name as given.  Building a client on
    the URL of a client changes nothing: the normalisation is idempotent. *)
Theorem NewOllamaClient_normal_form (baseURL model : string) :
  (exists suffix,
     In suffix [""; "/"; "v1/"; "/v1/"]
     /\ ai.NewOllamaClient baseURL model
        = ai.mkOllamaClient (ai.mkClient (Some (baseURL +:+ suffix)) "ollama") model)
  /\ ai.NewOllamaClient (run.baseURLOf (ai.NewOllamaClient baseURL model)) model
     = ai.NewOllamaClient baseURL model.
Proof.
  split.
  - unfold ai.NewOllamaClient.
    destruct (negb (String.eqb baseURL "")
              && negb (bool_decide (ai.lastByte baseURL = Some "/"%char)));
      match goal with |- context [if ?b then _ else _] => destruct b end.
    + exists "/v1/". rewrite app_assoc_str. cbn. tauto.
    + exists "/". cbn. tauto.
    + exists "v1/". cbn. tauto.
    + exists "". rewrite app_empty_r. cbn. tauto.
  - pose proof (NewOllamaClient_endsWith baseURL model) as He.
    set (url := run.baseURLOf (ai.NewOllamaClient baseURL model)) in *.
    assert (Hc : ai.NewOllamaClient baseURL model
                 = ai.mkOllamaClient (ai.mkClient (Some url) "ollama") model) by reflexivity.
    rewrite Hc. unfold ai.NewOllamaClient.
    rewrite (bool_decide_eq_true_2 _ (endsWith_v1_lastByte _ He)), andb_false_r.
    apply last3_spec in He. rewrite He. reflexivity.
Qed.

(** X3.  The kind of client [NewClient] builds: for the provider kind
    "openai" the remote client with the key of the record and no base URL,
    even when that key is empty; for "ollama" the local client on the URL and
    model of the record.  A local client is built for no other kind, and it
    carries the model of the record and the key "ollama"; every remote client,
    the one of the fallback for other kinds included, carries the key of the
    record and no base URL. *)
Theorem NewClient_kind (cfg : config.Config) :
  (config.Provider cfg = config.ProviderOpenAI ->
   ai.NewClient cfg
   = ok (ai.OpenAI (ai.mkOpenAIClient (ai.mkClient None (config.OpenAIAPIKey cfg)))))
  /\ (config.Provider cfg = config.ProviderOllama ->
      ai.NewClient cfg
      = ok (ai.Ollama (ai.NewOllamaClient (config.OllamaURL cfg) (config.OllamaModel cfg))))
  /\ (forall c, ai.NewClient cfg = ok (ai.Ollama c) ->
      config.Provider cfg = config.ProviderOllama
      /\ ai.model c = config.OllamaModel cfg
      /\ ai.APIKey (ai.ollama_client c) = "ollama")
  /\ (forall c, ai.NewClient cfg = ok (ai.OpenAI c) ->
      ai.APIKey (ai.openai_client c) = config.OpenAIAPIKey cfg
      /\ ai.BaseURL (ai.openai_client c) = None).
Proof.
  unfold ai.NewClient, ai.NewOpenAIClient.
  destruct (String.eqb_spec (config.Provider cfg) config.ProviderOpenAI) as [Ho|Ho].
  { rewrite Ho. split; [reflexivity|]. split; [discriminate|].
    split; [discriminate|]. intros c [= <-]. split; reflexivity. }
  destruct (String.eqb_spec (config.Provider cfg) config.ProviderOllama) as [Hl|Hl].
  { split; [congruence|]. split; [reflexivity|].
    split; [intros c [= <-]; repeat split; exact Hl|]. discriminate. }
  split; [congruence|]. split; [congruence|].
  destruct (negb (String.eqb (config.OpenAIAPIKey cfg) "")).
  - split; [discriminate|]. intros c [= <-]. split; reflexivity.
  - split; discriminate.
Qed.

(** ** The prerequisite check, continued *)

Section CheckCases.

Context {strings : GoStrings}.

Lemma Forall_isSave_check (l : list Call) :
  Forall spec.isSave l -> Forall run.isCheckCall l.
Proof. intros Hl. eapply Forall_impl; [exact Hl|]. intros [] H; try exact I; destruct H. Qed.

Lemma Forall_isGitQuery_check (l : list Call) :
  Forall run.isGitQuery l -> Forall run.isCheckCall l.
Proof. intros Hl. eapply Forall_impl; [exact Hl|]. intros [] H; try exact I; destruct H. Qed.

(** The validation block saves exactly when it adopts the key of the
    environment; otherwise it leaves the world alone. *)
Lemma needsSetup_adopts (cfg : config.Config) (w : World) :
  (run.adopts cfg (env_OPENAI_API_KEY w) ->
   exists w',
     config.Save (config.set_OpenAIAPIKey (env_OPENAI_API_KEY w) cfg) w
     = Some (spec.saveError w, w')
     /\ tui.needsSetup cfg w
        = Some ((false, config.set_OpenAIAPIKey (env_OPENAI_API_KEY w) cfg), w'))
  /\ (~ run.adopts cfg (env_OPENAI_API_KEY w) ->
      exists b, tui.needsSetup cfg w
                = Some ((b, spec.effective cfg (env_OPENAI_API_KEY w)), w)).
Proof.
  unfold run.adopts, tui.needsSetup, spec.effective, bind, ask, ret.
  unfold config.ProviderOpenAI, config.ProviderOllama.
  split.
  - intros (Hp & Hk & He). rewrite Hp, Hk. cbn. rewrite (eqb_false_of_neq _ _ He). cbn.
    destruct (Save_run (config.set_OpenAIAPIKey (env_OPENAI_API_KEY w) cfg) w)
      as (w' & HS & _). exists w'. rewrite HS. split; reflexivity.
  - intros Hn.
    destruct (String.eqb_spec (config.Provider cfg) "") as [Hp|Hp].
    { rewrite Hp. cbn. eauto. }
    destruct (String.eqb_spec (config.Provider cfg) "openai") as [Ho|Ho]; cbn.
    + destruct (String.eqb_spec (config.OpenAIAPIKey cfg) "") as [Hk|Hk]; cbn; [|eauto].
      destruct (String.eqb_spec (env_OPENAI_API_KEY w) "") as [He|He]; cbn.
      * rewrite He. destruct cfg; cbn in *; subst; eauto.
      * tauto.
    + destruct (_ && _); eauto.
Qed.

(** The part of the check that follows the validation block. *)
Lemma check_tail (w w1 w2 : World) (cfg cfg' : config.Config) (b : bool) :
  config.Load w = Some (ok cfg, w1) ->
  tui.needsSetup cfg w1 = Some ((b, cfg'), w2) ->
  exists msg w' g,
    tui.checkPrerequisitesCmd w = Some (msg, w')
    /\ calls w' = g ++ calls w2 /\ Forall run.isGitQuery g
    /\ configFile w' = configFile w2 /\ spec.sameMachine w2 w'
    /\ (b = true -> msg = tui.setupRequiredMsg cfg' /\ g = [])
    /\ (b = false ->
        run.gitFound w2 msg
        /\ forall c diff history,
             msg = tui.prerequisitesCheckedMsg c diff history -> c = cfg')
    /\ (forall c diff history,
          msg = tui.prerequisitesCheckedMsg c diff history ->
          In (call_GetRecentHistory 10) g).
Proof.
  intros HLoad Hns. unfold tui.checkPrerequisitesCmd, bind. rewrite HLoad, Hns.
  destruct b.
  { exists (tui.setupRequiredMsg cfg'), w2, []. split; [reflexivity|].
    split; [reflexivity|]. split; [constructor|]. split; [reflexivity|].
    split; [apply sameMachine_refl|]. split; [tauto|]. split; discriminate. }
  unfold git.IsRepo, git.GetStagedDiff, git.GetRecentHistory, bind, record, ask, ret.
  cbn [git_rev_parse set_calls].
  destruct (git_rev_parse w2) eqn:Erp;
    cbn [negb git_rev_parse git_diff_cached git_log set_calls calls].
  2:{ eexists _, _, [call_IsRepo]. split; [reflexivity|]. split; [reflexivity|].
      split; [repeat constructor|]. split; [reflexivity|].
      split; [repeat split|]. split; [discriminate|]. split; [intros _|try discriminate; intros; left; reflexivity].
      split; [exact Erp|discriminate]. }
  destruct (git_diff_cached w2) as [diff|e0] eqn:Edc.
  2:{ eexists _, _, [call_GetStagedDiff; call_IsRepo]. split; [reflexivity|].
      split; [reflexivity|]. split; [repeat constructor|]. split; [reflexivity|].
      split; [repeat split|]. split; [discriminate|]. split; [intros _|try discriminate; intros; left; reflexivity].
      split; [|discriminate]. split; [exact Erp|]. left. exists e0.
      split; [exact Edc|reflexivity]. }
  destruct (String.eqb_spec (TrimSpace diff) "") as [Ht|Ht].
  { eexists _, _, [call_GetStagedDiff; call_IsRepo]. split; [reflexivity|].
    split; [reflexivity|]. split; [repeat constructor|]. split; [reflexivity|].
    split; [repeat split|]. split; [discriminate|]. split; [intros _|try discriminate; intros; left; reflexivity].
    split; [|discriminate]. split; [exact Erp|]. right. left. exists diff.
    repeat split; assumption. }
  destruct (Z.gtb_spec (Z.of_nat (String.length diff)) 40000) as [Hlen|Hlen].
  { eexists _, _, [call_GetStagedDiff; call_IsRepo]. split; [reflexivity|].
    split; [reflexivity|]. split; [repeat constructor|]. split; [reflexivity|].
    split; [repeat split|]. split; [discriminate|]. split; [intros _|try discriminate; intros; left; reflexivity].
    split; [|discriminate]. split; [exact Erp|]. exists diff.
    repeat split; assumption. }
  cbn [git_rev_parse git_diff_cached git_log set_calls calls].
  destruct (git_log w2 10) as [history|e0] eqn:Elg.
  - eexists _, _, [call_GetRecentHistory 10; call_GetStagedDiff; call_IsRepo].
    split; [reflexivity|].
    split; [reflexivity|]. split; [repeat constructor|]. split; [reflexivity|].
    split; [repeat split|]. split; [discriminate|]. split; [intros _|try discriminate; intros; left; reflexivity].
    split; [|intros c d h [= <- _ _]; reflexivity].
    unfold run.checkedDiff. repeat split; assumption || lia.
  - eexists _, _, [call_GetRecentHistory 10; call_GetStagedDiff; call_IsRepo].
    split; [reflexivity|].
    split; [reflexivity|]. split; [repeat constructor|]. split; [reflexivity|].
    split; [repeat split|]. split; [discriminate|]. split; [intros _|try discriminate; intros; left; reflexivity].
    split; [|discriminate]. split; [exact Erp|]. right. right. exists diff, e0.
    unfold run.checkedDiff. repeat split; assumption || lia.
Qed.

Lemma gitFound_sameMachine (w w' : World) (msg : tui.Msg) :
  spec.sameMachine w w' -> run.gitFound w' msg -> run.gitFound w msg.
Proof.
  intros (_ & _ & _ & _ & _ & Hrp & Hdc & Hlg & _).
  unfold run.gitFound. rewrite Hrp, Hdc, Hlg. tauto.
Qed.

(** The check always returns; what it returns reflects what it found. *)
Lemma check_cases (w : World) :
  exists msg w',
    tui.checkPrerequisitesCmd w = Some (msg, w')
    /\ run.checkFound w msg
    /\ spec.sameMachine w w'
    /\ exists l, calls w' = l ++ calls w /\ Forall run.isCheckCall l
                 /\ (forall c diff history,
                       msg = tui.prerequisitesCheckedMsg c diff history ->
                       In (call_GetRecentHistory 10) l).
Proof.
  destruct (Load_run w) as [r HLoad].
  destruct r as [cfg|e].
  2:{ unfold tui.checkPrerequisitesCmd, bind. rewrite HLoad.
      eexists _, _. split; [reflexivity|]. split; [left; eauto|].
      split; [apply sameMachine_calls|]. exists [call_Load]. split; [reflexivity|].
      split; [repeat constructor|discriminate]. }
  destruct (needsSetup_spec cfg (set_calls (call_Load :: calls w) w))
    as (b & cfg' & w2 & Hns & Hb & Hcfg & Hsame & l & Hcalls & Hl).
  cbn [env_OPENAI_API_KEY set_calls calls] in Hb, Hcfg, Hcalls.
  assert (Hsame' : spec.sameMachine w w2).
  { eapply sameMachine_trans; [apply sameMachine_calls|exact Hsame]. }
  destruct (check_tail _ _ _ _ _ _ HLoad Hns)
    as (msg & w' & g & Hrun & Hg & Hgit & _ & Hsame2 & Htrue & Hfalse & Hlog).
  exists msg, w'. split; [exact Hrun|]. split; [|split].
  - destruct b.
    + right. left. exists cfg. eexists. split; [exact HLoad|].
      split; [apply Hb; reflexivity|]. subst cfg'. apply Htrue. reflexivity.
    + right. right. exists cfg. eexists. split; [exact HLoad|].
      split; [intros Hi; apply Hb in Hi; discriminate|].
      destruct (Hfalse eq_refl) as [Hfound Hc].
      split; [exact (gitFound_sameMachine _ _ _ Hsame' Hfound)|].
      subst cfg'. exact Hc.
  - eapply sameMachine_trans; [exact Hsame'|exact Hsame2].
  - exists (g ++ l ++ [call_Load]). split.
    + rewrite Hg, Hcalls, <- !app_assoc. reflexivity.
    + split.
      * apply Forall_app. split; [apply Forall_isGitQuery_check, Hgit|].
        apply Forall_app. split; [apply Forall_isSave_check, Hl|repeat constructor].
      * intros c d h Hm. apply in_or_app. left. exact (Hlog c d h Hm).
Qed.

End CheckCases.

Section CheckOutcomes.

Context {strings : GoStrings} {widgets : tui.Widgets}.

Lemma checkFound_loaded (w w1 : World) (cfg : config.Config) (msg : tui.Msg) :
  config.Load w = Some (ok cfg, w1) ->
  run.checkFound w msg ->
  (spec.incomplete cfg (env_OPENAI_API_KEY w) /\ msg = tui.setupRequiredMsg cfg)
  \/ (~ spec.incomplete cfg (env_OPENAI_API_KEY w) /\ run.gitFound w msg
      /\ forall c diff history,
           msg = tui.prerequisitesCheckedMsg c diff history ->
           c = spec.effective cfg (env_OPENAI_API_KEY w)).
Proof.
  intros HLoad [(e & w2 & H & _)|[(cfg2 & w2 & H & Hi & Hm)|(cfg2 & w2 & H & Hi & Hm)]];
    rewrite HLoad in H.
  - discriminate H.
  - injection H as <- _. left. split; assumption.
  - injection H as <- _. right. split; assumption.
Qed.

(** X5.  The prerequisite check always returns, and what it returns
    reflects what it found: a failure of loading, of [git diff] or of
    [git log], or a blank diff, for a failure message; an incomplete
    configuration for Setup; [git rev-parse] failing for NoRepo; a non-blank
    diff of more than 40,000 bytes for DiffTooLarge; and, for the message that
    leads on, a repository, a non-blank staged diff of at most 40,000 bytes
    and the last 10 log entries.  It returns no other message, leaves the
    machine as it is, and calls neither the backend nor [git commit]. *)
Theorem check_outcomes (w : World) :
  exists msg w',
    tui.checkPrerequisitesCmd w = Some (msg, w')
    /\ run.checkFound w msg
    /\ spec.sameMachine w w'
    /\ Forall run.isCheckCall (new_calls w w').
Proof.
  destruct (check_cases w) as (msg & w' & Hrun & Hfound & Hsame & l & Hcalls & Hl & _).
  exists msg, w'. rewrite (new_calls_app l w w' Hcalls).
  split; [exact Hrun|]. split; [exact Hfound|]. split; assumption.
Qed.

(** X6.  Failures of the prerequisite check reach the session.  When the
    configuration cannot be loaded the check returns that failure and has
    called nothing else, git included.  With a complete configuration inside a
    repository, a failing [git diff] gives "failed to get staged diff: ..."
    and a failing [git log] gives "failed to get git history: ...".  On each
    of them [Update] moves to Error and stores the failure. *)
Theorem check_reports_failures (w : World) :
  (forall e w1, config.Load w = Some (fail e, w1) ->
   tui.checkPrerequisitesCmd w = Some (tui.errMsg e, w1)
   /\ new_calls w w1 = [call_Load])
  /\ (forall cfg w1, config.Load w = Some (ok cfg, w1) ->
      ~ spec.incomplete cfg (env_OPENAI_API_KEY w) ->
      git_rev_parse w = true ->
      (forall e, git_diff_cached w = fail e ->
       exists w', tui.checkPrerequisitesCmd w
                  = Some (tui.errMsg ("failed to get staged diff: " +:+ e), w'))
      /\ (forall diff e, git_diff_cached w = ok diff -> run.checkedDiff diff ->
          git_log w 10 = fail e ->
          exists w', tui.checkPrerequisitesCmd w
                     = Some (tui.errMsg ("failed to get git history: " +:+ e), w')))
  /\ (forall m e w', exists m',
        tui.Update m (tui.errMsg e) w' = Some ((m', tui.CmdNil), w')
        /\ tui.State m' = tui.StateError /\ tui.Err m' = Some e).
Proof.
  split; [|split].
  - intros e w1 HLoad. pose proof (Load_inv _ _ _ HLoad) as ->.
    unfold tui.checkPrerequisitesCmd, bind. rewrite HLoad.
    split; [reflexivity|]. apply new_calls_app. reflexivity.
  - intros cfg w1 HLoad Hinc Hrp.
    destruct (check_cases w) as (msg & w' & Hrun & Hfound & _).
    destruct (checkFound_loaded _ _ _ _ HLoad Hfound) as [[Hi _]|(_ & Hgit & _)];
      [contradiction|].
    split.
    + intros e Hdc. exists w'. rewrite Hrun. do 2 f_equal.
      destruct msg; cbn in Hgit; try contradiction; try congruence.
      * destruct Hgit as (_ & [(x & H0 & ->)|[(d & H0 & _)|(d & x & H0 & _)]]); congruence.
      * destruct Hgit as (_ & d & H0 & _). congruence.
      * destruct Hgit as (_ & H0 & _). congruence.
    + intros diff e Hdc [Ht Hlen] Hlg. exists w'. rewrite Hrun. do 2 f_equal.
      destruct msg; cbn in Hgit; try contradiction; try congruence.
      * destruct Hgit as (_ & [(x & H0 & _)|[(d & H0 & Hb & _)|(d & x & _ & _ & H0 & ->)]]);
          congruence.
      * destruct Hgit as (_ & d & H0 & _ & Hl). assert (d = diff) by congruence. subst. lia.
      * destruct Hgit as (_ & _ & _ & H0). congruence.
  - intros m e w'. eexists. split; [reflexivity|]. split; reflexivity.
Qed.

End CheckOutcomes.

Section FirstRun.

Context {strings : GoStrings}.

Lemma saveError_None (w : World) :
  spec.saveError w = None ->
  exists home, os_UserHomeDir w = ok home /\ os_MkdirAll w = None /\ os_WriteFile w = None.
Proof.
  unfold spec.saveError. destruct (os_UserHomeDir w) as [home|]; [|discriminate].
  destruct (os_MkdirAll w); [discriminate|]. eauto.
Qed.

Lemma saveError_sameMachine (w w' : World) :
  spec.sameMachine w w' -> spec.saveError w' = spec.saveError w.
Proof.
  intros (_ & H1 & H2 & _ & H3 & _). unfold spec.saveError. rewrite H1, H2, H3. reflexivity.
Qed.

(** Loading when the file is there and can be read. *)
Lemma Load_file (w : World) (home data : string) :
  os_UserHomeDir w = ok home -> os_MkdirAll w = None -> os_ReadFile w = None ->
  configFile w = Some data ->
  config.Load w = Some (config.Unmarshal data, set_calls (call_Load :: calls w) w).
Proof.
  intros Hhome Hmk Hrd Hfile.
  unfold config.Load, config.getConfigPath, bind, record, ask, ret.
  do 4 (cbn [os_UserHomeDir os_MkdirAll os_ReadFile configFile set_calls];
        rewrite ?Hhome, ?Hmk, ?Hfile, ?Hrd).
  reflexivity.
Qed.

(** Loading when there is no file. *)
Lemma Load_defaults (w : World) (home : string) :
  os_UserHomeDir w = ok home -> os_MkdirAll w = None -> configFile w = None ->
  config.Load w
  = Some (ok (config.mkConfig config.ProviderOpenAI (env_OPENAI_API_KEY w) "llama3"
                "http://localhost:11434"),
          set_calls (call_Load :: calls w) w).
Proof.
  intros Hhome Hmk Hfile.
  unfold config.Load, config.getConfigPath, bind, record, ask, ret.
  do 4 (cbn [os_UserHomeDir os_MkdirAll os_ReadFile configFile set_calls];
        rewrite ?Hhome, ?Hmk, ?Hfile).
  reflexivity.
Qed.

Lemma not_In_isGitQuery (g : list Call) (data : string) (err : option error) :
  Forall run.isGitQuery g -> ~ In (call_Save data err) g.
Proof.
  intros Hg Hin. rewrite Forall_forall in Hg.
  apply list_elem_of_In in Hin. exact (Hg _ Hin).
Qed.

(** A check that does not adopt the key of the environment writes nothing. *)
Lemma check_without_adoption (w w1 : World) (cfg : config.Config) :
  config.Load w = Some (ok cfg, w1) ->
  ~ run.adopts cfg (env_OPENAI_API_KEY w) ->
  exists msg w',
    tui.checkPrerequisitesCmd w = Some (msg, w')
    /\ configFile w' = configFile w
    /\ (forall data err, ~ In (call_Save data err) (new_calls w w'))
    /\ (forall c diff history,
          msg = tui.prerequisitesCheckedMsg c diff history ->
          c = spec.effective cfg (env_OPENAI_API_KEY w)).
Proof.
  intros HLoad Hna. pose proof (Load_inv _ _ _ HLoad) as ->.
  destruct (needsSetup_adopts cfg (set_calls (call_Load :: calls w) w)) as [_ Hkeep].
  destruct (Hkeep Hna) as [b Hns]. cbn [env_OPENAI_API_KEY set_calls] in Hns.
  destruct (check_tail _ _ _ _ _ _ HLoad Hns)
    as (msg & w' & g & Hrun & Hg & Hgit & Hfile & _ & Htrue & Hfalse & _).
  exists msg, w'. split; [exact Hrun|]. split; [exact Hfile|]. split.
  - intros data err. rewrite (new_calls_app (g ++ [call_Load]) w w').
    + intros Hin. apply in_app_or in Hin. destruct Hin as [Hin|[Hin|[]]]; [|discriminate].
      exact (not_In_isGitQuery _ _ _ Hgit Hin).
    + rewrite Hg. cbn. rewrite <- app_assoc. reflexivity.
  - destruct b.
    + destruct (Htrue eq_refl) as [-> _]. discriminate.
    + apply Hfalse. reflexivity.
Qed.

(** X2.  The first run.  Without a configuration file [Load] gives the
    defaults: the remote provider with the key of the environment, the model
    "llama3" and the URL "http://localhost:11434".  The prerequisite check
    then writes no configuration file and saves nothing; it asks for Setup
    exactly when the environment holds no key, and otherwise goes on with the
    defaults. *)
Theorem first_run (w : World) (home : string) :
  os_UserHomeDir w = ok home -> os_MkdirAll w = None -> configFile w = None ->
  let defaults := config.mkConfig config.ProviderOpenAI (env_OPENAI_API_KEY w)
                    "llama3" "http://localhost:11434" in
  (exists w1, config.Load w = Some (ok defaults, w1))
  /\ exists msg w',
       tui.checkPrerequisitesCmd w = Some (msg, w')
       /\ configFile w' = None
       /\ (forall data err, ~ In (call_Save data err) (new_calls w w'))
       /\ (env_OPENAI_API_KEY w = "" <-> msg = tui.setupRequiredMsg defaults)
       /\ (forall c diff history,
             msg = tui.prerequisitesCheckedMsg c diff history -> c = defaults).
Proof.
  intros Hhome Hmk Hfile defaults.
  pose proof (Load_defaults w home Hhome Hmk Hfile) as HLoad. fold defaults in HLoad.
  split; [eauto|].
  assert (Hna : ~ run.adopts defaults (env_OPENAI_API_KEY w)).
  { intros (_ & Hk & He). exact (He Hk). }
  assert (Heff : spec.effective defaults (env_OPENAI_API_KEY w) = defaults).
  { unfold spec.effective, defaults. cbn.
    destruct (String.eqb_spec (env_OPENAI_API_KEY w) "") as [He|He]; [|reflexivity].
    cbn. rewrite He. reflexivity. }
  destruct (check_without_adoption _ _ _ HLoad Hna) as (msg & w' & Hrun & Hf & Hsave & Hc).
  exists msg, w'. split; [exact Hrun|]. split; [congruence|]. split; [exact Hsave|].
  split; [|intros c d h Hm; rewrite (Hc c d h Hm); exact Heff].
  destruct (check_cases w) as (msg' & w'' & Hrun' & Hfound & _).
  rewrite Hrun in Hrun'. injection Hrun' as <- <-.
  destruct (checkFound_loaded _ _ _ _ HLoad Hfound) as [[Hi ->]|(Hi & Hgit & _)].
  - split; [reflexivity|]. intros _.
    destruct Hi as [H|[(_ & H & _)|(H & _)]]; [discriminate H|exact H|discriminate H].
  - split.
    + intros He. exfalso. apply Hi. right. left. repeat split; [exact He|exact He].
    + intros ->. destruct Hgit.
Qed.

End FirstRun.

Section Adoption.

Context {strings : GoStrings}.

Lemma plain_set_OpenAIAPIKey (cfg : config.Config) (key : string) :
  spec.plain cfg -> spec.isASCII key -> spec.plain (config.set_OpenAIAPIKey key cfg).
Proof. intros (H1 & _ & H3 & H4) Hk. repeat split; assumption. Qed.

(** X7.  A stored record that names the remote provider without a key
    takes the key of the environment: the check saves the record with that
    key, the file then holds it and loads back as that record, and a second
    check saves nothing and leaves the file alone. *)
Theorem env_key_adopted_once (w w1 : World) (cfg : config.Config) :
  config.Load w = Some (ok cfg, w1) ->
  run.adopts cfg (env_OPENAI_API_KEY w) ->
  spec.saveError w = None -> os_ReadFile w = None ->
  spec.plain cfg -> spec.isASCII (env_OPENAI_API_KEY w) ->
  let cfg' := config.set_OpenAIAPIKey (env_OPENAI_API_KEY w) cfg in
  exists msg w',
    tui.checkPrerequisitesCmd w = Some (msg, w')
    /\ In (call_Save (config.MarshalIndent cfg') None) (new_calls w w')
    /\ configFile w' = Some (config.MarshalIndent cfg')
    /\ (exists w2, config.Load w' = Some (ok cfg', w2))
    /\ exists msg2 w'',
         tui.checkPrerequisitesCmd w' = Some (msg2, w'')
         /\ configFile w'' = configFile w'
         /\ forall data err, ~ In (call_Save data err) (new_calls w' w'').
Proof.
  intros HLoad Had Herr Hrd Hplain Hkey cfg'.
  pose proof (Load_inv _ _ _ HLoad) as ->.
  set (w1 := set_calls (call_Load :: calls w) w) in *.
  destruct (needsSetup_adopts cfg w1) as [Hsave _].
  destruct (Hsave Had) as (w2 & HS & Hns). cbn [env_OPENAI_API_KEY w1 set_calls] in HS, Hns.
  fold cfg' in HS, Hns.
  destruct (Save_run cfg' w1) as (w2' & HS' & Hsame & Hcalls & Hfile).
  rewrite HS in HS'. injection HS' as <-.
  assert (Herr1 : spec.saveError w1 = None) by exact Herr.
  specialize (Hfile Herr1). rewrite Herr1 in Hcalls.
  destruct (check_tail _ _ _ _ _ _ HLoad Hns)
    as (msg & w' & g & Hrun & Hg & Hgit & Hfile' & Hsame' & _).
  exists msg, w'. split; [exact Hrun|].
  assert (Hs : spec.sameMachine w w').
  { eapply sameMachine_trans; [|exact Hsame'].
    eapply sameMachine_trans; [apply (sameMachine_calls (call_Load :: calls w) w)|exact Hsame]. }
  split.
  { rewrite (new_calls_app (g ++ [call_Save (config.MarshalIndent cfg') None; call_Load]) w w').
    - apply in_or_app. right. left. reflexivity.
    - rewrite Hg, Hcalls. cbn. rewrite <- app_assoc. reflexivity. }
  split; [congruence|].
  destruct (saveError_None w Herr) as (home & Hhome & Hmk & _).
  pose proof Hs as (Henv & Hhome' & Hmk' & Hrd' & _).
  assert (HLoad' : config.Load w' = Some (ok cfg', set_calls (call_Load :: calls w') w')).
  { rewrite (Load_file w' home (config.MarshalIndent cfg')); try congruence.
    rewrite (Unmarshal_MarshalIndent cfg'); [reflexivity|].
    apply plain_set_OpenAIAPIKey; assumption. }
  split; [eauto|].
  destruct (check_without_adoption w' _ cfg' HLoad') as (msg2 & w'' & Hrun2 & Hf2 & Hs2 & _).
  { intros (_ & Hk & _). cbn in Hk. destruct Had as (_ & _ & He). exact (He Hk). }
  exists msg2, w''. split; [exact Hrun2|]. split; assumption.
Qed.

End Adoption.

(** X1.  Of two saves the last one wins: after saving any record and then
    a record of ASCII text, loading gives the second record back, on a machine
    where the file can be written and read. *)
Theorem last_save_wins (w : World) (home : string) (c1 c2 : config.Config) :
  os_UserHomeDir w = ok home -> os_MkdirAll w = None ->
  os_WriteFile w = None -> os_ReadFile w = None ->
  spec.plain c2 ->
  exists w1 w2 w3,
    config.Save c1 w = Some (None, w1)
    /\ config.Save c2 w1 = Some (None, w2)
    /\ config.Load w2 = Some (ok c2, w3)
    /\ new_calls w w3
       = [call_Load; call_Save (config.MarshalIndent c2) None;
          call_Save (config.MarshalIndent c1) None].
Proof.
  intros Hhome Hmk Hwr Hrd Hplain.
  assert (Herr : spec.saveError w = None).
  { unfold spec.saveError. rewrite Hhome, Hmk. exact Hwr. }
  destruct (Save_run c1 w) as (w1 & HS1 & Hsame1 & Hcalls1 & _).
  rewrite Herr in HS1, Hcalls1.
  pose proof Hsame1 as (_ & Hhome1 & Hmk1 & Hrd1 & Hwr1 & _).
  destruct (Save_run c2 w1) as (w2 & HS2 & Hsame2 & Hcalls2 & Hfile2).
  rewrite (saveError_sameMachine _ _ Hsame1), Herr in HS2, Hcalls2, Hfile2.
  specialize (Hfile2 eq_refl).
  pose proof Hsame2 as (_ & Hhome2 & Hmk2 & Hrd2 & _).
  exists w1, w2. eexists. split; [exact HS1|]. split; [exact HS2|].
  split.
  - rewrite (Load_file w2 home (config.MarshalIndent c2)); try congruence.
    rewrite (Unmarshal_MarshalIndent c2 Hplain). reflexivity.
  - apply new_calls_app. cbn. rewrite Hcalls2, Hcalls1. reflexivity.
Qed.

(** ** Setup *)

Section SetupLocal.

Context {strings : GoStrings} {widgets : tui.Widgets}.

(** After a record that is complete was saved, the check does not ask for
    Setup again. *)
Lemma check_after_save (w : World) (saved : config.Config) :
  spec.saveError w = None -> os_ReadFile w = None ->
  configFile w = Some (config.MarshalIndent saved) ->
  spec.plain saved ->
  ~ spec.incomplete saved (env_OPENAI_API_KEY w) ->
  exists msg w',
    tui.checkPrerequisitesCmd w = Some (msg, w')
    /\ run.gitFound w msg
    /\ forall c, msg <> tui.setupRequiredMsg c.
Proof.
  intros Herr Hrd Hfile Hplain Hinc.
  destruct (saveError_None w Herr) as (home & Hhome & Hmk & _).
  pose proof (Load_file w home _ Hhome Hmk Hrd Hfile) as HLoad.
  rewrite (Unmarshal_MarshalIndent saved Hplain) in HLoad.
  destruct (check_cases w) as (msg & w' & Hrun & Hfound & _).
  exists msg, w'. split; [exact Hrun|].
  destruct (checkFound_loaded _ _ _ _ HLoad Hfound) as [[Hi _]|(_ & Hgit & _)];
    [contradiction|].
  split; [exact Hgit|]. intros c ->. destruct Hgit.
Qed.

(** X8.  Setting up the local provider.  From the provider step of Setup
    the key "2" asks for the URL, with "http://localhost:11434" filled in;
    Enter on a non-blank text takes the trimmed text as URL and asks for the
    model, with "llama3.1" filled in; Enter on a non-blank text saves the
    record with the provider "ollama", that model and that URL (the API key is
    kept) and dispatches the prerequisite check.  The file then holds this
    record, and the check, when the record is ASCII text and the file can be
    read, does not ask for Setup again. *)
Theorem setup_ollama (m : tui.Model) (cfg : config.Config)
    (ta1 ta2 : tui.textarea_Model) (w : World) :
  tui.State m = tui.StateSetup ->
  tui.setupStep m = tui.SetupStepProvider ->
  tui.Config m = Some cfg ->
  TrimSpace (tui.Value ta1) <> "" ->
  TrimSpace (tui.Value ta2) <> "" ->
  spec.saveError w = None ->
  let saved := config.mkConfig config.ProviderOllama (config.OpenAIAPIKey cfg)
                 (TrimSpace (tui.Value ta2)) (TrimSpace (tui.Value ta1)) in
  exists m1 m2 m3 w',
    tui.Update m (tui.KeyMsg (tui.mkKey tui.KeyRunes "2")) w = Some ((m1, tui.CmdNil), w)
    /\ tui.TextArea m1 = tui.SetValue "http://localhost:11434" (tui.Reset (tui.TextArea m))
    /\ tui.Update (tui.set_TextArea ta1 m1) (tui.KeyMsg tui.enterKey) w
       = Some ((m2, tui.CmdNil), w)
    /\ tui.TextArea m2 = tui.SetValue "llama3.1" (tui.Reset ta1)
    /\ tui.Update (tui.set_TextArea ta2 m2) (tui.KeyMsg tui.enterKey) w
       = Some ((m3, tui.CmdCheckPrerequisites), w')
    /\ tui.Config m3 = Some saved
    /\ new_calls w w' = [call_Save (config.MarshalIndent saved) None]
    /\ configFile w' = Some (config.MarshalIndent saved)
    /\ (spec.plain saved -> os_ReadFile w = None ->
        exists msg w'',
          tui.checkPrerequisitesCmd w' = Some (msg, w'')
          /\ forall c, msg <> tui.setupRequiredMsg c).
Proof.
  intros HS Hstep Hcfg Hurl Hmodel Herr saved.
  destruct (Save_run saved w) as (w' & HSave & Hsame & Hcalls & Hfile).
  rewrite Herr in HSave, Hcalls. specialize (Hfile Herr).
  eexists _, _, _, w'.
  split. { open_Update. cbn. rewrite HS, Hstep. cbn. reflexivity. }
  split; [reflexivity|].
  split. { open_Update. cbn. rewrite HS. cbn.
           rewrite (eqb_false_of_neq _ _ Hurl), Hcfg. cbn. reflexivity. }
  split; [reflexivity|].
  split. { open_Update. cbn. rewrite HS. cbn.
           rewrite (eqb_false_of_neq _ _ Hmodel). cbn.
           change (config.set_OllamaModel _ _) with saved.
           unfold config.Save in *. unfold bind, ret in *. rewrite HSave. reflexivity. }
  split; [reflexivity|].
  split; [apply new_calls_app; rewrite Hcalls; reflexivity|].
  split; [exact Hfile|].
  intros Hplain Hrd.
  destruct (check_after_save w' saved) as (msg & w'' & Hrun & _ & Hno).
  - rewrite (saveError_sameMachine _ _ Hsame). exact Herr.
  - destruct Hsame as (_ & _ & _ & H & _). congruence.
  - exact Hfile.
  - exact Hplain.
  - intros [H|[(H & _)|(_ & [H|H])]]; [discriminate H|discriminate H|..];
      cbn in H; contradiction.
  - eauto.
Qed.

End SetupLocal.

Section SetupRemote.

Context {strings : GoStrings} {widgets : tui.Widgets}.

(** X9.  Setting up the remote provider.  From the provider step of Setup
    the key "1" clears the text area.  When the environment holds no key it
    asks for one, and Enter on a non-blank text saves the record with the
    provider "openai" and the trimmed text as key.  When the environment holds
    a key it asks whether to use it: "y" saves the record with that key, and
    "n" asks for a key instead.  Each save dispatches the prerequisite check,
    which, when the record is ASCII text and the file can be read, does not ask
    for Setup again. *)
Theorem setup_openai (m : tui.Model) (cfg : config.Config) (w : World) :
  tui.State m = tui.StateSetup ->
  tui.setupStep m = tui.SetupStepProvider ->
  tui.Config m = Some cfg ->
  spec.saveError w = None ->
  ToLower "y" = "y" -> ToLower "n" = "n" ->
  let keyed := fun key => config.mkConfig config.ProviderOpenAI key
                            (config.OllamaModel cfg) (config.OllamaURL cfg) in
  let saves := fun (m1 : tui.Model) (k : tui.Key) (key : string) =>
    exists m2 w',
      tui.Update m1 (tui.KeyMsg k) w = Some ((m2, tui.CmdCheckPrerequisites), w')
      /\ tui.Config m2 = Some (keyed key)
      /\ new_calls w w' = [call_Save (config.MarshalIndent (keyed key)) None]
      /\ configFile w' = Some (config.MarshalIndent (keyed key))
      /\ (spec.plain (keyed key) -> os_ReadFile w = None ->
          exists msg w'',
            tui.checkPrerequisitesCmd w' = Some (msg, w'')
            /\ forall c, msg <> tui.setupRequiredMsg c) in
  exists m1,
    tui.Update m (tui.KeyMsg (tui.mkKey tui.KeyRunes "1")) w = Some ((m1, tui.CmdNil), w)
    /\ tui.TextArea m1 = tui.Reset (tui.TextArea m)
    /\ (env_OPENAI_API_KEY w = "" ->
        tui.setupStep m1 = tui.SetupStepOpenAIKey
        /\ forall ta, TrimSpace (tui.Value ta) <> "" ->
             saves (tui.set_TextArea ta m1) tui.enterKey (TrimSpace (tui.Value ta)))
    /\ (env_OPENAI_API_KEY w <> "" ->
        tui.setupStep m1 = tui.SetupStepConfirmOpenAIKey
        /\ saves m1 (tui.mkKey tui.KeyRunes "y") (env_OPENAI_API_KEY w)
        /\ exists m2,
             tui.Update m1 (tui.KeyMsg (tui.mkKey tui.KeyRunes "n")) w
             = Some ((m2, tui.CmdNil), w)
             /\ tui.setupStep m2 = tui.SetupStepOpenAIKey
             /\ tui.Config m2 = Some cfg).
Proof.
  intros HS Hstep Hcfg Herr Hy Hn keyed saves.
  assert (Hsaves : forall (m1 : tui.Model) k key,
            tui.Config m1 = Some cfg -> key <> "" ->
            (forall w', config.Save (keyed key) w = Some (None, w') ->
               exists m2, tui.Update m1 (tui.KeyMsg k) w
                          = Some ((m2, tui.CmdCheckPrerequisites), w')
                          /\ tui.Config m2 = Some (keyed key)) ->
            saves m1 k key).
  { intros m1 k key Hc1 Hkey HU.
    destruct (Save_run (keyed key) w) as (w' & HSave & Hsame & Hcalls & Hfile).
    rewrite Herr in HSave, Hcalls. specialize (Hfile Herr).
    destruct (HU w' HSave) as (m2 & HU2 & Hc2).
    exists m2, w'. split; [exact HU2|]. split; [exact Hc2|].
    split; [apply new_calls_app; rewrite Hcalls; reflexivity|].
    split; [exact Hfile|].
    intros Hplain Hrd.
    destruct (check_after_save w' (keyed key)) as (msg & w'' & Hrun & _ & Hno).
    - rewrite (saveError_sameMachine _ _ Hsame). exact Herr.
    - destruct Hsame as (_ & _ & _ & H & _). congruence.
    - exact Hfile.
    - exact Hplain.
    - intros [H|[(_ & H & _)|(H & _)]]; [discriminate H| |discriminate H].
      cbn in H. contradiction.
    - eauto. }
  destruct (String.eqb_spec (env_OPENAI_API_KEY w) "") as [He|He].
  - eexists. split. { open_Update. cbn. rewrite HS, Hstep. cbn. rewrite He. cbn. reflexivity. }
    split; [reflexivity|]. split; [|contradiction].
    intros _. split; [reflexivity|]. intros ta Hta.
    apply Hsaves; [exact Hcfg|exact Hta|].
    intros w' HSave. open_Update. cbn. rewrite HS. cbn.
    rewrite (eqb_false_of_neq _ _ Hta), Hcfg. cbn.
    change (config.set_OpenAIAPIKey _ _) with (keyed (TrimSpace (tui.Value ta))).
    rewrite HSave. eexists. split; reflexivity.
  - eexists. split.
    { open_Update. cbn. rewrite HS, Hstep. cbn. rewrite (eqb_false_of_neq _ _ He). cbn.
      reflexivity. }
    split; [reflexivity|]. split; [contradiction|].
    intros _. split; [reflexivity|]. split.
    + apply Hsaves; [exact Hcfg|exact He|].
      intros w' HSave. open_Update. cbn. rewrite HS. cbn. rewrite Hy, Hcfg. cbn.
      change (config.set_OpenAIAPIKey _ _) with (keyed (env_OPENAI_API_KEY w)).
      rewrite HSave. eexists. split; reflexivity.
    + eexists. split.
      { open_Update. cbn. rewrite HS. cbn. rewrite Hn. cbn. reflexivity. }
      split; [reflexivity|exact Hcfg].
Qed.

End SetupRemote.

(** ** Keys and passive messages *)

Section ManualCommit.

Context {strings : GoStrings} {widgets : tui.Widgets} (net : ai.Backend).

(** X11.  Writing the message by hand.  The key "2" in Welcome, and the
    keys "m" and Enter in DiffTooLarge, move to Commit with an empty draft and
    dispatch the commit.  That command runs [git commit] without [-m] and
    calls nothing else.  When git succeeds the session moves to Success and
    quits; when git fails it moves to Error with that failure stored. *)
Theorem manual_commit (m : tui.Model) (k : tui.Key) (w : World) :
  (tui.State m = tui.StateWelcome /\ tui.keyString k = "2")
  \/ (tui.State m = tui.StateDiffTooLarge
      /\ (tui.keyString k = "m" \/ tui.keyString k = "enter")) ->
  exists m1 w1,
    tui.Update m (tui.KeyMsg k) w = Some ((m1, tui.CmdCommit ""), w)
    /\ tui.State m1 = tui.StateCommit /\ tui.CommitMsg m1 = ""
    /\ git.CommitCmd "" = ["git"; "commit"]
    /\ new_calls w w1 = [call_Commit ""]
    /\ (git_commit w ["git"; "commit"] = None ->
        tui.exec net (tui.CmdCommit "") w = Some (Some tui.commitSuccessMsg, w1)
        /\ exists m2,
             tui.Update m1 tui.commitSuccessMsg w1 = Some ((m2, tui.CmdQuit), w1)
             /\ tui.State m2 = tui.StateSuccess)
    /\ (forall e, git_commit w ["git"; "commit"] = Some e ->
        tui.exec net (tui.CmdCommit "") w = Some (Some (tui.errMsg e), w1)
        /\ exists m2,
             tui.Update m1 (tui.errMsg e) w1 = Some ((m2, tui.CmdNil), w1)
             /\ tui.State m2 = tui.StateError /\ tui.Err m2 = Some e).
Proof.
  intros Hk.
  assert (HU : exists m1, tui.Update m (tui.KeyMsg k) w = Some ((m1, tui.CmdCommit ""), w)
                          /\ tui.State m1 = tui.StateCommit /\ tui.CommitMsg m1 = "").
  { open_Update. destruct Hk as [[HS Hk]|[HS [Hk|Hk]]]; rewrite HS, Hk; cbn;
      eexists; (split; [reflexivity|split; reflexivity]). }
  destruct HU as (m1 & HU & HS1 & HC1).
  exists m1, (set_calls (call_Commit "" :: calls w) w).
  split; [exact HU|]. split; [exact HS1|]. split; [exact HC1|].
  split; [reflexivity|]. split; [apply new_calls_app; reflexivity|].
  unfold tui.exec, tui.commitCmd, bind, record, ask, ret.
  cbn [git_commit set_calls]. change (git.CommitCmd "") with ["git"; "commit"].
  split.
  - intros ->. split; [reflexivity|]. eexists. split; reflexivity.
  - intros e ->. split; [reflexivity|]. eexists. split; [reflexivity|]. split; reflexivity.
Qed.

End ManualCommit.

Section Frames.

Context {strings : GoStrings} {widgets : tui.Widgets}.

(** X10.  In the three steps of Setup that take text, Enter on an empty or
    blank text saves nothing: the key goes to the text area, and the step, the
    configuration and the world stay as they are. *)
Theorem blank_setup_entry (m : tui.Model) (k : tui.Key) (w : World) :
  tui.State m = tui.StateSetup ->
  tui.setupStep m = tui.SetupStepOpenAIKey
  \/ tui.setupStep m = tui.SetupStepOllamaURL
  \/ tui.setupStep m = tui.SetupStepOllamaModel ->
  tui.keyType k = tui.KeyEnter ->
  tui.keyString k <> "ctrl+c" ->
  TrimSpace (tui.Value (tui.TextArea m)) = "" ->
  exists ta c,
    tui.textarea_Update (tui.TextArea m) (tui.KeyMsg k) = (ta, c)
    /\ tui.Update m (tui.KeyMsg k) w = Some ((tui.set_TextArea ta m, tui.CmdWidget c), w).
Proof.
  intros HS Hstep HK Hc HT. open_Update. rewrite (eqb_false_of_neq _ _ Hc), HS. cbn.
  rewrite andb_false_r.
  destruct (tui.textarea_Update (tui.TextArea m) (tui.KeyMsg k)) as [ta c].
  exists ta, c. split; [reflexivity|].
  destruct Hstep as [H|[H|H]]; rewrite H, HK, HT; reflexivity.
Qed.


(** [Update] never takes back a stored failure, the configuration or the
    client. *)
Lemma Update_keeps (m m' : tui.Model) (msg : tui.Msg) (c : tui.Cmd) (w w' : World) :
  tui.Update m msg w = Some ((m', c), w') ->
  (tui.Err m <> None -> tui.Err m' <> None)
  /\ (tui.Config m <> None -> tui.Config m' <> None)
  /\ (tui.AIClient m <> None -> tui.AIClient m' <> None).
Proof.
  intros H. destruct msg; open_Update; cbn in H; cases_of H;
    injection H as <- <- <-; cbn; (split; [|split]); intros Hn;
    first [exact Hn | discriminate | congruence].
Qed.

End Frames.

(** ** No run-time panic *)

Section Safety.

Context {strings : GoStrings} {widgets : tui.Widgets}.

Lemma Update_total (m : tui.Model) (msg : tui.Msg) (w : World) :
  run.configured m -> run.inRange m ->
  exists m' c w', tui.Update m msg w = Some ((m', c), w').
Proof.
  intros Hc Hr. destruct (tui.Update m msg w) as [[[m' c] w']|] eqn:H; [eauto|].
  exfalso. unfold run.configured, run.inRange in *.
  destruct msg; open_Update; cbn in H; cases_of H.
  all: try (apply Hc; [tauto|reflexivity]).
  all: try match goal with
    | Hl : _ !! _ = None |- _ => apply lookup_ge_None in Hl
    end.
  all: try match goal with
    | Hb : (0 <=? _) = false |- _ => apply Z.leb_gt in Hb
    end.
  all: specialize (Hr eq_refl); lia.
Qed.

Lemma Update_configured (m m' : tui.Model) (msg : tui.Msg) (c : tui.Cmd) (w w' : World) :
  tui.Update m msg w = Some ((m', c), w') ->
  run.configured m -> run.configured m'.
Proof.
  unfold run.configured. intros H Hc.
  destruct msg; open_Update; cbn in H; cases_of H;
    injection H as <- <- <-; cbn; intros Hs;
    first [discriminate | congruence | destruct Hs; congruence
          | apply Hc; tauto | exfalso; apply Hc; [tauto|reflexivity]].
Qed.

End Safety.

Section Delivery.

Context {strings : GoStrings} {widgets : tui.Widgets}.

Lemma Update_inRange (m m' : tui.Model) (msg : tui.Msg) (c : tui.Cmd) (w w' : World) :
  tui.Update m msg w = Some ((m', c), w') ->
  run.isAnalysisResult msg = false ->
  run.inRange m -> run.inRange m'.
Proof.
  unfold run.inRange. intros H Hmsg Hr.
  destruct msg; try discriminate Hmsg; open_Update; cbn in H; cases_of H;
    injection H as <- <- <-; cbn; intros Hs;
    first [discriminate | congruence | apply Hr; congruence | idtac].
  all: specialize (Hr eq_refl).
  all: match goal with
       | Hb : (_ >=? _) = false |- _ => rewrite Z.geb_leb in Hb; apply Z.leb_gt in Hb
       end; lia.
Qed.

Lemma Update_analysis_inRange (m m' : tui.Model) (questions : list string)
    (c : tui.Cmd) (w w' : World) :
  tui.Update m (tui.analysisResultMsg questions) w = Some ((m', c), w') ->
  spec.fresh m -> run.inRange m'.
Proof.
  unfold run.inRange. intros H (HS & Hi & _). cbn in H. unfold ret in H.
  destruct questions as [|q qs]; cbn in H; injection H as <- <- <-; cbn.
  - intros Hs. contradiction.
  - intros _. rewrite Hi. lia.
Qed.

Lemma analyses_cons (msg : tui.Msg) (msgs : list tui.Msg) :
  run.analyses (msg :: msgs)
  = ((if run.isAnalysisResult msg then 1 else 0) + run.analyses msgs)%nat.
Proof.
  unfold run.analyses. rewrite filter_cons.
  destruct (decide (run.isAnalysisResult msg = true)) as [E|E].
  - rewrite E. reflexivity.
  - apply not_true_is_false in E. rewrite E. reflexivity.
Qed.

Lemma deliver_inRange (msgs : list tui.Msg) (m : tui.Model) (w : World) :
  run.analyses msgs = 0%nat ->
  run.configured m -> run.inRange m ->
  exists m' w',
    tui.deliver m msgs w = Some (m', w') /\ run.configured m' /\ run.inRange m'.
Proof.
  revert m w. induction msgs as [|msg msgs IH]; intros m w Hn Hc Hr.
  - exists m, w. split; [reflexivity|]. split; assumption.
  - rewrite analyses_cons in Hn.
    destruct (run.isAnalysisResult msg) eqn:Hmsg; [discriminate Hn|].
    destruct (Update_total m msg w Hc Hr) as (m1 & c1 & w1 & HU).
    cbn [tui.deliver]. unfold bind. rewrite HU.
    apply IH; [exact Hn|exact (Update_configured _ _ _ _ _ _ HU Hc)|].
    exact (Update_inRange _ _ _ _ _ _ HU Hmsg Hr).
Qed.

Lemma fresh_inRange (m : tui.Model) : spec.fresh m -> run.inRange m.
Proof. intros (HS & _) Hs. contradiction. Qed.

Lemma deliver_fresh_total (msgs : list tui.Msg) (m : tui.Model) (w : World) :
  (run.analyses msgs <= 1)%nat ->
  run.configured m -> spec.fresh m ->
  exists m' w',
    tui.deliver m msgs w = Some (m', w') /\ run.configured m' /\ run.inRange m'.
Proof.
  revert m w. induction msgs as [|msg msgs IH]; intros m w Hn Hc Hf.
  - exists m, w. split; [reflexivity|]. split; [assumption|apply fresh_inRange, Hf].
  - rewrite analyses_cons in Hn.
    destruct (Update_total m msg w Hc (fresh_inRange m Hf)) as (m1 & c1 & w1 & HU).
    cbn [tui.deliver]. unfold bind. rewrite HU.
    pose proof (Update_configured _ _ _ _ _ _ HU Hc) as Hc1.
    destruct (run.isAnalysisResult msg) eqn:Hmsg.
    + destruct msg; try discriminate Hmsg.
      apply deliver_inRange; [lia|exact Hc1|].
      exact (Update_analysis_inRange _ _ _ _ _ _ HU Hf).
    + apply IH; [exact Hn|exact Hc1|].
      apply (Update_fresh _ _ _ _ _ _ HU); [|exact Hf].
      destruct msg; try discriminate Hmsg; intros [].
Qed.

(** X14.  [Update] does not panic along any sequence of messages in which
    the question generation completes at most once: from the initial model
    every message is handled, in Setup and in Welcome a configuration is at
    hand, in Questioning the index points at a question, and whatever message
    comes next is handled too. *)
Theorem no_panic (msgs : list tui.Msg) (w : World) :
  (run.analyses msgs <= 1)%nat ->
  exists m w',
    tui.deliver tui.NewModel msgs w = Some (m, w')
    /\ run.configured m /\ run.inRange m
    /\ forall msg, exists m' c w'', tui.Update m msg w' = Some ((m', c), w'').
Proof.
  intros Hn.
  destruct (deliver_fresh_total msgs tui.NewModel w Hn) as (m & w' & Hrun & Hc & Hr).
  - intros [H|H]; discriminate H.
  - apply NewModel_fresh.
  - exists m, w'. split; [exact Hrun|]. split; [exact Hc|]. split; [exact Hr|].
    intros msg. apply Update_total; assumption.
Qed.

End Delivery.

Section SecondList.

Context {strings : GoStrings} {widgets : tui.Widgets}.

(** X15.  A list of questions that arrives during Questioning replaces the
    questions but restarts nothing: the question index and the answers are
    kept.  When the new list has no question at the index, the next submission
    of a non-blank answer panics with an index out of range. *)
Theorem second_question_list (m : tui.Model) (questions : list string) (w : World) :
  tui.State m = tui.StateQuestioning ->
  exists m1 c,
    tui.Update m (tui.analysisResultMsg questions) w = Some ((m1, c), w)
    /\ tui.State m1 = tui.StateQuestioning
    /\ tui.Questions m1 = questions
    /\ tui.CurrentQIdx m1 = tui.CurrentQIdx m
    /\ tui.Answers m1 = tui.Answers m
    /\ (Z.of_nat (length questions) <= tui.CurrentQIdx m ->
        forall ta, TrimSpace (tui.Value ta) <> "" ->
          tui.Update (tui.set_TextArea ta m1) (tui.KeyMsg tui.enterKey) w = None).
Proof.
  intros HS.
  assert (Hpanic : forall m1 : tui.Model,
            tui.State m1 = tui.StateQuestioning ->
            Z.of_nat (length (tui.Questions m1)) <= tui.CurrentQIdx m1 ->
            forall ta, TrimSpace (tui.Value ta) <> "" ->
              tui.Update (tui.set_TextArea ta m1) (tui.KeyMsg tui.enterKey) w = None).
  { intros m1 HS1 Hle ta Hta. open_Update. cbn. rewrite HS1. cbn.
    rewrite (eqb_false_of_neq _ _ Hta). cbn.
    destruct (0 <=? tui.CurrentQIdx m1) eqn:E; [|reflexivity].
    rewrite (proj2 (lookup_ge_None _ _)); [reflexivity|]. lia. }
  destruct questions as [|q qs]; cbn; unfold ret.
  - eexists _, _. split; [reflexivity|]. cbn. repeat split; try assumption.
    intros Hle ta Hta. apply Hpanic; assumption.
  - eexists _, _. split; [reflexivity|]. cbn [tui.State tui.Questions tui.CurrentQIdx
      tui.Answers tui.set_TextArea tui.set_State tui.set_Questions].
    repeat split. intros Hle ta Hta. apply Hpanic; [reflexivity|exact Hle|exact Hta].
Qed.

End SecondList.

(** ** The whole interview *)

Section Answering.

Context {strings : GoStrings} {widgets : tui.Widgets} (net : ai.Backend).

Lemma answer_step (m : tui.Model) (ta : tui.textarea_Model) (w : World)
    (j : nat) (q : string) :
  tui.State m = tui.StateQuestioning ->
  tui.CurrentQIdx m = Z.of_nat j ->
  tui.Questions m !! j = Some q ->
  spec.answerOf ta <> "" ->
  exists m',
    tui.Update (tui.set_TextArea ta m) (tui.KeyMsg tui.enterKey) w
    = Some ((m', if (S j <? length (tui.Questions m))%nat then tui.CmdNil
                 else tui.CmdGenerateCommitMsg (tui.AIClient m) (tui.Diff m)
                        (tui.History m) (tui.HistoryCtx m)
                        (<[q := spec.answerOf ta]> (tui.Answers m))), w)
    /\ tui.Questions m' = tui.Questions m
    /\ tui.CurrentQIdx m' = Z.of_nat (S j)
    /\ tui.Answers m' = <[q := spec.answerOf ta]> (tui.Answers m)
    /\ tui.State m' = (if (S j <? length (tui.Questions m))%nat
                       then tui.StateQuestioning else tui.StateLoading)
    /\ tui.AIClient m' = tui.AIClient m /\ tui.Diff m' = tui.Diff m
    /\ tui.History m' = tui.History m /\ tui.HistoryCtx m' = tui.HistoryCtx m.
Proof.
  intros HS Hi Hq Ha. unfold spec.answerOf in *. open_Update.
  destruct (S j <? length (tui.Questions m))%nat eqn:Elt.
  - apply Nat.ltb_lt in Elt.
    cbn. rewrite HS. cbn. rewrite (eqb_false_of_neq _ _ Ha). cbn.
    rewrite Hi, Nat2Z.id, Hq.
    replace (0 <=? Z.of_nat j) with true by (symmetry; apply Z.leb_le; lia).
    replace (Z.of_nat j + 1 >=? Z.of_nat (length (tui.Questions m))) with false.
    2:{ symmetry. rewrite Z.geb_leb. apply Z.leb_gt. lia. }
    eexists. split; [reflexivity|]. cbn. repeat split; try reflexivity; try assumption. lia.
  - apply Nat.ltb_ge in Elt.
    cbn. rewrite HS. cbn. rewrite (eqb_false_of_neq _ _ Ha). cbn.
    rewrite Hi, Nat2Z.id, Hq.
    replace (0 <=? Z.of_nat j) with true by (symmetry; apply Z.leb_le; lia).
    replace (Z.of_nat j + 1 >=? Z.of_nat (length (tui.Questions m))) with true.
    2:{ symmetry. rewrite Z.geb_leb. apply Z.leb_le. lia. }
    eexists. split; [reflexivity|]. cbn. repeat split; try reflexivity; try assumption. lia.
Qed.

Lemma answerAll_spec (tas : list tui.textarea_Model) (m : tui.Model) (c : tui.Cmd)
    (w : World) (j : nat) :
  tui.State m = tui.StateQuestioning ->
  tui.CurrentQIdx m = Z.of_nat j ->
  (j + length tas = length (tui.Questions m))%nat ->
  tas <> [] ->
  Forall (fun ta => spec.answerOf ta <> "") tas ->
  exists m',
    run.answerAll (m, c) tas w
    = Some ((m', tui.CmdGenerateCommitMsg (tui.AIClient m) (tui.Diff m) (tui.History m)
                   (tui.HistoryCtx m) (tui.Answers m')), w)
    /\ tui.Answers m'
       = spec.stored (tui.Answers m)
           (zip (drop j (tui.Questions m)) (spec.answerOf <$> tas))
    /\ tui.State m' = tui.StateLoading
    /\ tui.CurrentQIdx m' = Z.of_nat (length (tui.Questions m))
    /\ tui.HistoryCtx m' = tui.HistoryCtx m.
Proof.
  revert m c j. induction tas as [|ta tas IH]; intros m c j HS Hi Hlen Hne Hall;
    [congruence|].
  cbn [length] in Hlen. apply Forall_cons in Hall. destruct Hall as [Hta Hall].
  destruct (lookup_lt_is_Some_2 (tui.Questions m) j) as [q Hq]; [lia|].
  destruct (answer_step m ta w j q HS Hi Hq Hta)
    as (m1 & H1 & HQ1 & Hi1 & HA1 & HS1 & Hc1 & Hd1 & Hh1 & Hx1).
  cbn [run.answerAll fst]. unfold bind. rewrite H1.
  rewrite (drop_S _ _ _ Hq). cbn [fmap list_fmap zip zip_with spec.stored foldl fst snd].
  fold (spec.stored (<[q:=spec.answerOf ta]> (tui.Answers m))
          (zip (drop (S j) (tui.Questions m)) (spec.answerOf <$> tas))).
  destruct tas as [|ta2 tas].
  - cbn [length] in Hlen.
    replace (S j <? length (tui.Questions m))%nat with false in *
      by (symmetry; apply Nat.ltb_ge; lia).
    exists m1. cbn. unfold ret. rewrite HA1. split; [reflexivity|].
    split; [destruct (drop (S j) (tui.Questions m)); reflexivity|].
    split; [exact HS1|]. split; [rewrite Hi1; f_equal; lia|exact Hx1].
  - cbn [length] in Hlen.
    replace (S j <? length (tui.Questions m))%nat with true in *
      by (symmetry; apply Nat.ltb_lt; lia).
    destruct (IH m1 tui.CmdNil (S j) HS1 Hi1) as (m' & H' & HA' & HS' & Hi' & Hx');
      [rewrite HQ1; cbn [length]; lia|discriminate|exact Hall|].
    exists m'. rewrite H', Hc1, Hd1, Hh1, Hx1. split; [reflexivity|].
    split; [rewrite HA', HA1, HQ1; reflexivity|]. split; [exact HS'|].
    split; [rewrite Hi', HQ1; reflexivity|congruence].
Qed.

End Answering.

Section WholeInterview.

Context {strings : GoStrings} {widgets : tui.Widgets} (net : ai.Backend).

(** X16.  The interview as a whole.  In Welcome with a client and no
    answers yet, when the backend analyses the history, generates questions
    and, for the answers given, a draft: asking for help, answering every
    question with a non-blank text and letting the commands complete ends in
    Commit with that draft dispatched to [git commit].  The answers sent are
    the trimmed texts stored under their questions, the history analysis is
    kept, the backend was called three times in the order analysis, questions,
    message, and the configuration file is untouched.  With no question the
    draft is generated at once. *)
Theorem interview_commits (m : tui.Model) (p : ai.Provider)
    (analysis : ai.HistoryAnalysisResponse) (questions : list string)
    (tas : list tui.textarea_Model) (draft : string) (w : World) :
  tui.State m = tui.StateWelcome ->
  tui.AIClient m = Some p ->
  tui.CurrentQIdx m = 0 -> tui.Answers m = ∅ ->
  ai.AnalyzeHistory net p (tui.Diff m) (tui.History m) = ok analysis ->
  ai.GenerateQuestions net p (tui.Diff m) (tui.History m) = ok questions ->
  length tas = length questions ->
  Forall (fun ta => TrimSpace (tui.Value ta) <> "") tas ->
  let answers := spec.stored ∅ (zip questions (spec.answerOf <$> tas)) in
  (forall context,
     ai.GenerateCommitMessage net p (tui.Diff m) context answers = ok draft) ->
  exists m' w',
    run.interview net m tas w = Some ((m', tui.CmdCommit draft), w')
    /\ tui.State m' = tui.StateCommit
    /\ tui.CommitMsg m' = draft
    /\ tui.Answers m' = answers
    /\ tui.HistoryCtx m' = ai.KeyContext analysis
    /\ new_calls w w'
       = [call_Backend opGenerateCommitMessage; call_Backend opGenerateQuestions;
          call_Backend opAnalyzeHistory]
    /\ configFile w' = configFile w.
Proof.
  intros HS Hcl Hi Ha Hah Hgq Hlen Hall answers Hgc.
  unfold run.interview, bind.
  (* the user asks for help *)
  assert (H1 : tui.Update m (tui.KeyMsg (tui.mkKey tui.KeyRunes "1")) w
               = Some ((tui.set_State tui.StateHistoryAnalysis m,
                        tui.CmdAnalyzeHistory (Some p) (tui.Diff m) (tui.History m)), w)).
  { open_Update. cbn. rewrite HS. cbn. rewrite Hcl. reflexivity. }
  rewrite H1.
  (* the history is analysed *)
  set (w1 := set_calls (call_Backend opAnalyzeHistory :: calls w) w).
  set (m2 := tui.set_State tui.StateAnalysis
               (tui.set_HistoryCtx (ai.KeyContext analysis)
                  (tui.set_State tui.StateHistoryAnalysis m))).
  assert (H2 : run.complete net
                 (tui.set_State tui.StateHistoryAnalysis m,
                  tui.CmdAnalyzeHistory (Some p) (tui.Diff m) (tui.History m)) w
               = Some ((m2, tui.CmdAnalyzeChanges (Some p) (tui.Diff m) (tui.History m)),
                       w1)).
  { unfold run.complete, tui.exec, tui.analyzeHistoryCmd, tui.callBackend, bind, record, ret.
    cbn [fst snd]. rewrite Hah. cbn. unfold ret. rewrite Hcl. reflexivity. }
  rewrite H2.
  (* the questions are generated *)
  set (w2 := set_calls (call_Backend opGenerateQuestions :: calls w1) w1).
  set (w3 := set_calls (call_Backend opGenerateCommitMessage :: calls w2) w2).
  assert (Hfinal : forall (m4 : tui.Model),
            tui.Answers m4 = answers ->
            tui.HistoryCtx m4 = ai.KeyContext analysis ->
            exists m',
              run.complete net
                (m4, tui.CmdGenerateCommitMsg (Some p) (tui.Diff m) (tui.History m)
                       (ai.KeyContext analysis) answers) w2
              = Some ((m', tui.CmdCommit draft), w3)
              /\ tui.State m' = tui.StateCommit /\ tui.CommitMsg m' = draft
              /\ tui.Answers m' = answers
              /\ tui.HistoryCtx m' = ai.KeyContext analysis).
  { intros m4 Ha4 Hx4.
    unfold run.complete, tui.exec, tui.generateCommitMsgCmd, tui.callBackend,
      bind, record, ret.
    cbn [fst snd]. rewrite Hgc. cbn. unfold ret.
    eexists. split; [reflexivity|]. cbn. repeat split; assumption. }
  assert (Hlog : new_calls w w3
                 = [call_Backend opGenerateCommitMessage; call_Backend opGenerateQuestions;
                    call_Backend opAnalyzeHistory]).
  { apply new_calls_app. reflexivity. }
  destruct questions as [|q qs].
  - (* no question: the message is generated at once *)
    destruct tas; [|discriminate Hlen].
    assert (H3 : run.complete net
                   (m2, tui.CmdAnalyzeChanges (Some p) (tui.Diff m) (tui.History m)) w1
                 = Some ((tui.set_Questions [] m2,
                          tui.CmdGenerateCommitMsg (Some p) (tui.Diff m) (tui.History m)
                            (ai.KeyContext analysis) answers), w2)).
    { unfold run.complete, tui.exec, tui.analyzeChangesCmd, tui.callBackend,
        bind, record, ret.
      cbn [fst snd]. rewrite Hgq. cbn. unfold ret. rewrite Hcl, Ha. reflexivity. }
    rewrite H3. cbn [run.answerAll]. unfold ret.
    destruct (Hfinal (tui.set_Questions [] m2)) as (m' & HF & HS' & HC' & HA' & HX');
      [exact Ha|reflexivity|].
    exists m', w3. rewrite HF. repeat split; assumption.
  - (* the questions are answered *)
    set (m3 := tui.set_TextArea (tui.Focus (tui.TextArea m2))
                 (tui.set_State tui.StateQuestioning
                    (tui.set_Questions (q :: qs) m2))).
    assert (H3 : run.complete net
                   (m2, tui.CmdAnalyzeChanges (Some p) (tui.Diff m) (tui.History m)) w1
                 = Some ((m3, tui.CmdNil), w2)).
    { unfold run.complete, tui.exec, tui.analyzeChangesCmd, tui.callBackend,
        bind, record, ret.
      cbn [fst snd]. rewrite Hgq. reflexivity. }
    rewrite H3.
    destruct (answerAll_spec tas m3 tui.CmdNil w2 0) as (m4 & H4 & HA4 & HS4 & _ & Hx4);
      [reflexivity|exact Hi|exact Hlen|intros ->; discriminate Hlen|exact Hall|].
    rewrite H4. cbn [tui.AIClient tui.Diff tui.History tui.HistoryCtx m3 m2
                       tui.set_TextArea tui.set_State tui.set_Questions
                       tui.set_HistoryCtx] in *.
    rewrite Hcl.
    assert (HA4' : tui.Answers m4 = answers).
    { rewrite HA4. cbn. rewrite Ha. reflexivity. }
    rewrite HA4'.
    destruct (Hfinal m4 HA4' Hx4) as (m' & HF & HS' & HC' & HA' & HX').
    exists m', w3. rewrite HF. repeat split; assumption.
Qed.

End WholeInterview.

(** ** Invariants of the running session *)

Section Completion.

Context {strings : GoStrings} {widgets : tui.Widgets} (net : ai.Backend).

(** What the completion of a command hands to [Update]. *)
Lemma exec_cases (c0 : tui.Cmd) (w w1 : World) (msg : tui.Msg) :
  tui.exec net c0 w = Some (Some msg, w1) ->
  match c0 with
  | tui.CmdNil | tui.CmdQuit => False
  | tui.CmdWidget _ => w1 = w /\ spec.quiet msg /\ spec.inert c0
  | tui.CmdErr e => w1 = w /\ msg = tui.errMsg e
  | tui.CmdCheckPrerequisites =>
      run.checkFound w msg /\ spec.sameMachine w w1
      /\ exists l, calls w1 = l ++ calls w /\ Forall run.isCheckCall l
                   /\ (forall c diff history,
                         msg = tui.prerequisitesCheckedMsg c diff history ->
                         In (call_GetRecentHistory 10) l)
  | tui.CmdAnalyzeHistory client diff history =>
      exists p, client = Some p
        /\ w1 = set_calls (call_Backend opAnalyzeHistory :: calls w) w
        /\ match ai.AnalyzeHistory net p diff history with
           | fail e => msg = tui.errMsg e
           | ok a => msg = tui.historyAnalysisResultMsg (ai.KeyContext a)
           end
  | tui.CmdAnalyzeChanges client diff history =>
      exists p, client = Some p
        /\ w1 = set_calls (call_Backend opGenerateQuestions :: calls w) w
        /\ match ai.GenerateQuestions net p diff history with
           | fail e => msg = tui.errMsg e
           | ok qs => msg = tui.analysisResultMsg qs
           end
  | tui.CmdGenerateCommitMsg client diff history historyCtx answers =>
      exists p context, client = Some p
        /\ w1 = set_calls (call_Backend opGenerateCommitMessage :: calls w) w
        /\ match ai.GenerateCommitMessage net p diff context answers with
           | fail e => msg = tui.errMsg e
           | ok message => msg = tui.commitMsgGeneratedMsg message
           end
  | tui.CmdCommit message =>
      w1 = set_calls (call_Commit message :: calls w) w
      /\ match git_commit w (git.CommitCmd message) with
         | Some e => msg = tui.errMsg e
         | None => msg = tui.commitSuccessMsg
         end
  end.
Proof.
  intros H. destruct c0 as [| |t|e| |client d h|client d h|client d h ctx a|x];
    cbn in H; unfold ret, bind in H.
  - discriminate H.
  - discriminate H.
  - split; [congruence|]. split; [|exact I].
    destruct (tui.widget_fire t) as [[tick|tag]|]; [| |discriminate H];
      injection H as <- _; exact I.
  - injection H as <- <-. split; reflexivity.
  - destruct (check_cases w) as (msg' & w' & Hrun & Hfound & Hsame & Hl).
    rewrite Hrun in H. injection H as <- <-.
    split; [exact Hfound|]. split; assumption.
  - unfold tui.analyzeHistoryCmd, tui.callBackend, bind, record, ret, panic in H.
    destruct client as [p|]; [|discriminate H]. exists p. split; [reflexivity|].
    destruct (ai.AnalyzeHistory net p d h); injection H as <- <-; split; reflexivity.
  - unfold tui.analyzeChangesCmd, tui.callBackend, bind, record, ret, panic in H.
    destruct client as [p|]; [|discriminate H]. exists p. split; [reflexivity|].
    destruct (ai.GenerateQuestions net p d h); injection H as <- <-; split; reflexivity.
  - unfold tui.generateCommitMsgCmd, tui.callBackend, bind, record, ret, panic in H.
    destruct client as [p|]; [|discriminate H]. exists p. eexists. split; [reflexivity|].
    match type of H with context [ai.GenerateCommitMessage net p d ?c a] =>
      destruct (ai.GenerateCommitMessage net p d c a) eqn:E end;
      injection H as <- <-; (split; [reflexivity|]); rewrite E; reflexivity.
  - unfold tui.commitCmd, bind, record, ask, ret in H. cbn [git_commit set_calls] in H.
    destruct (git_commit w (git.CommitCmd x)); injection H as <- <-; split; reflexivity.
Qed.

End Completion.

Section ClientInvariant.

Context {strings : GoStrings} {widgets : tui.Widgets} (net : ai.Backend).

Lemma Update_sameMachine (m m' : tui.Model) (msg : tui.Msg) (c : tui.Cmd) (w w' : World) :
  tui.Update m msg w = Some ((m', c), w') -> spec.sameMachine w w'.
Proof.
  intros H. destruct msg; open_Update; cbn in H; cases_of H;
    injection H as <- <- <-; assumption || apply sameMachine_refl.
Qed.

Lemma Update_modelInv (w0 : World) (m m' : tui.Model) (msg : tui.Msg) (c : tui.Cmd)
    (w w' : World) :
  tui.Update m msg w = Some ((m', c), w') ->
  run.modelInv w0 m -> run.msgInv w0 m msg ->
  run.modelInv w0 m' /\ run.wellFormed w0 c
  /\ (tui.AIClient m' = None -> tui.AIClient m = None /\ run.backendArgs c = None).
Proof.
  unfold run.modelInv, run.msgInv, run.wellFormed.
  intros H [Hnone Hsome] Hmsg.
  destruct (tui.AIClient m) as [p|] eqn:Hcl.
  - assert (Hst : run.staged w0 (tui.Diff m) (tui.History m)) by (apply Hsome; discriminate).
    clear Hnone Hsome.
    destruct msg; open_Update; cbn in H; cases_of H;
      injection H as <- <- <-; cbn; rewrite ?Hcl;
      unfold run.staged, run.checkedDiff in *;
      repeat match goal with Hand : _ /\ _ |- _ => destruct Hand end;
      repeat split; intros; try discriminate; try congruence; try assumption; try exact I.
  - destruct (Hnone eq_refl) as [Hw Hq]. clear Hnone Hsome.
    destruct msg; open_Update; cbn in H; cases_of H;
      injection H as <- <- <-; cbn; rewrite ?Hcl;
      unfold run.staged, run.checkedDiff in *;
      repeat match goal with Hand : _ /\ _ |- _ => destruct Hand end;
      repeat split; intros; try discriminate; try congruence; try assumption; try exact I.
Qed.

End ClientInvariant.

Section Reachable.

Context {strings : GoStrings} {widgets : tui.Widgets} (net : ai.Backend).

Lemma staged_sameMachine (w w' : World) (diff history : string) :
  spec.sameMachine w w' -> run.staged w' diff history -> run.staged w diff history.
Proof.
  intros (_ & _ & _ & _ & _ & _ & Hdc & Hlg & _). unfold run.staged.
  rewrite Hdc, Hlg. tauto.
Qed.

Lemma checkFound_staged (w : World) (cfg : config.Config) (diff history : string) :
  run.checkFound w (tui.prerequisitesCheckedMsg cfg diff history) ->
  run.staged w diff history.
Proof.
  intros [(e & w1 & _ & H)|[(c & w1 & _ & _ & H)|(c & w1 & _ & _ & Hgit & _)]];
    [discriminate H..|].
  destruct Hgit as (_ & Hd & Hc & Hl). repeat split; try assumption; apply Hc.
Qed.

(** The message of a completed command satisfies what [Update] relies on. *)
Lemma exec_msgInv (w0 : World) (m : tui.Model) (P1 P2 : list tui.Cmd) (c0 : tui.Cmd)
    (w w1 : World) (msg : tui.Msg) :
  run.sysInv w0 (tui.mkSys m (P1 ++ c0 :: P2) w) ->
  tui.exec net c0 w = Some (Some msg, w1) ->
  spec.sameMachine w w1 /\ run.msgInv w0 m msg.
Proof.
  intros (Hsame & _ & Hwf & Hnone) Hex. cbn [tui.world tui.model tui.pending] in *.
  assert (Hc0 : tui.AIClient m = None -> run.backendArgs c0 = None).
  { intros Hn. specialize (Hnone Hn). apply Forall_app in Hnone.
    destruct Hnone as [_ Hn2]. apply Forall_cons in Hn2. apply Hn2. }
  apply exec_cases in Hex.
  destruct c0; cbn in Hc0.
  - destruct Hex.
  - destruct Hex.
  - destruct Hex as (-> & Hq & _). split; [apply sameMachine_refl|].
    destruct msg; try contradiction; exact I.
  - destruct Hex as (-> & ->). split; [apply sameMachine_refl|exact I].
  - destruct Hex as (Hfound & Hs & _). split; [exact Hs|].
    destruct msg; try exact I.
    + cbn. eapply staged_sameMachine; [exact Hsame|]. eapply checkFound_staged, Hfound.
    + destruct Hfound as [(e & w2 & _ & H)|[(c & w2 & _ & _ & H)|(c & w2 & _ & _ & [] & _)]];
        discriminate H.
    + destruct Hfound as [(e & w2 & _ & H)|[(c & w2 & _ & _ & H)|(c & w2 & _ & _ & [] & _)]];
        discriminate H.
  - destruct Hex as (p & -> & -> & Hm). split; [apply sameMachine_calls|].
    destruct (ai.AnalyzeHistory net p diff history); subst msg; cbn; [|exact I].
    intros Hn. specialize (Hc0 Hn). discriminate Hc0.
  - destruct Hex as (p & -> & -> & Hm). split; [apply sameMachine_calls|].
    destruct (ai.GenerateQuestions net p diff history); subst msg; cbn; [|exact I].
    intros Hn. specialize (Hc0 Hn). discriminate Hc0.
  - destruct Hex as (p & ctx & -> & -> & Hm). split; [apply sameMachine_calls|].
    destruct (ai.GenerateCommitMessage net p diff ctx answers); subst msg; exact I.
  - destruct Hex as (-> & Hm). split; [apply sameMachine_calls|].
    destruct (git_commit w (git.CommitCmd msg0)); subst msg; exact I.
Qed.

Lemma step_sysInv (w0 : World) (s s' : tui.Sys) :
  tui.step net s s' -> run.sysInv w0 s -> run.sysInv w0 s'.
Proof.
  intros Hstep Hinv.
  destruct Hstep as [m P w msg m' c w' Hin HU|m P1 c0 P2 w msg w1 m' c w' Hex HU].
  - pose proof Hinv as (Hsame & Hm & Hwf & Hnone). cbn [tui.world tui.model tui.pending] in *.
    destruct (Update_modelInv w0 _ _ _ _ _ _ HU Hm) as (Hm' & Hc & Hn').
    { destruct msg; try discriminate Hin; exact I. }
    split; [|split; [exact Hm'|split]]; cbn [tui.world tui.model tui.pending].
    + eapply sameMachine_trans; [exact Hsame|exact (Update_sameMachine _ _ _ _ _ _ HU)].
    + constructor; assumption.
    + intros Hn. destruct (Hn' Hn) as [Hn0 Hc0]. constructor; [exact Hc0|exact (Hnone Hn0)].
  - destruct (exec_msgInv w0 _ _ _ _ _ _ _ Hinv Hex) as [Hs1 Hmsg].
    destruct Hinv as (Hsame & Hm & Hwf & Hnone). cbn [tui.world tui.model tui.pending] in *.
    destruct (Update_modelInv w0 _ _ _ _ _ _ HU Hm Hmsg) as (Hm' & Hc & Hn').
    split; [|split; [exact Hm'|split]]; cbn [tui.world tui.model tui.pending].
    + eapply sameMachine_trans; [exact Hsame|].
      eapply sameMachine_trans; [exact Hs1|exact (Update_sameMachine _ _ _ _ _ _ HU)].
    + apply Forall_app in Hwf. destruct Hwf as [H1 H2]. apply Forall_cons in H2.
      constructor; [exact Hc|]. apply Forall_app. split; [exact H1|apply H2].
    + intros Hn. destruct (Hn' Hn) as [Hn0 Hc0]. specialize (Hnone Hn0).
      apply Forall_app in Hnone. destruct Hnone as [H1 H2]. apply Forall_cons in H2.
      constructor; [exact Hc0|]. apply Forall_app. split; [exact H1|apply H2].
Qed.

Lemma initial_sysInv (w : World) : run.sysInv w (run.initial w).
Proof.
  split; [apply sameMachine_refl|]. split; [|split].
  - split; [intros _; split; discriminate|]. intros H. exfalso. apply H. reflexivity.
  - repeat constructor.
  - intros _. repeat constructor.
Qed.

Lemma steps_sysInv (w0 : World) (s s' : tui.Sys) :
  tui.steps net s s' -> run.sysInv w0 s -> run.sysInv w0 s'.
Proof.
  intros Hsteps. induction Hsteps as [s|s1 s2 s3 Hstep Hsteps IH]; [tauto|].
  intros Hinv. apply IH. exact (step_sysInv w0 _ _ Hstep Hinv).
Qed.


(** X18.  In a session run from the start, every command for the backend
    holds a client and carries what git reported: the staged diff, which is
    not blank and has at most 40,000 bytes, and the last 10 log entries. *)
Theorem backend_gets_staged_diff (w : World) (s : tui.Sys) (c : tui.Cmd)
    (client : option ai.Provider) (diff history : string) :
  tui.steps net (run.initial w) s ->
  In c (tui.pending s) ->
  run.backendArgs c = Some (client, diff, history) ->
  client <> None
  /\ git_diff_cached w = ok diff
  /\ TrimSpace diff <> "" /\ Z.of_nat (String.length diff) <= 40000
  /\ git_log w 10 = ok history.
Proof.
  intros Hsteps Hin Hargs.
  destruct (steps_sysInv w _ _ Hsteps (initial_sysInv w)) as (_ & _ & Hwf & _).
  rewrite Forall_forall in Hwf. apply list_elem_of_In in Hin. specialize (Hwf c Hin).
  unfold run.wellFormed in Hwf. rewrite Hargs in Hwf.
  destruct Hwf as (Hc & Hd & [Ht Hl] & Hg). repeat split; assumption.
Qed.

End Reachable.

Section Log.

Context {strings : GoStrings} {widgets : tui.Widgets} (net : ai.Backend).

Lemma inOrder_app (g l : list Call) :
  Forall run.isCheckCall g -> run.inOrder l -> run.inOrder (g ++ l).
Proof.
  intros Hg Hl. induction Hg as [|c g Hc Hg IH]; [exact Hl|].
  cbn. split; [|exact IH]. destruct c; try exact I; destruct Hc.
Qed.

Lemma cmdLogged_mono (g l : list Call) (c : tui.Cmd) :
  run.cmdLogged net l c -> run.cmdLogged net (g ++ l) c.
Proof. destruct c; cbn; try tauto; intros H; apply in_or_app; right; exact H. Qed.

Lemma modelLogged_mono (w0 : World) (g l : list Call) (m : tui.Model) :
  run.modelLogged w0 l m -> run.modelLogged w0 (g ++ l) m.
Proof.
  intros (H1 & H2 & H3). split; [|split].
  - intros H. apply in_or_app. right. exact (H1 H).
  - intros H. apply in_or_app. right. exact (H2 H).
  - intros H. destruct (H3 H) as (x & Hin & Hok). exists x. split; [|exact Hok].
    apply in_or_app. right. exact Hin.
Qed.

(** [Update] adds at most one save to the log. *)
Lemma Update_log (m m' : tui.Model) (msg : tui.Msg) (c : tui.Cmd) (w w' : World) :
  tui.Update m msg w = Some ((m', c), w') ->
  exists g, calls w' = g ++ calls w /\ Forall run.isCheckCall g.
Proof.
  intros H. destruct (Update_calls _ _ _ _ _ _ H) as [Hc|(_ & [data Hc] & _)].
  - exists []. split; [exact Hc|constructor].
  - eexists [_]. split; [exact Hc|]. repeat constructor.
Qed.

Lemma Update_logged (w0 : World) (l : list Call) (m m' : tui.Model) (msg : tui.Msg)
    (c : tui.Cmd) (w w' : World) :
  tui.Update m msg w = Some ((m', c), w') ->
  run.modelLogged w0 l m -> run.msgLogged net w0 l msg ->
  run.modelLogged w0 l m' /\ run.cmdLogged net l c.
Proof.
  unfold run.modelLogged. intros H (H1 & H2 & H3) Hmsg.
  destruct msg; open_Update; cbn in H; cases_of H;
    injection H as <- <- <-; cbn in *;
    repeat split; intros; try discriminate; try congruence; try assumption;
    try exact I; try (left; reflexivity);
    first [apply H1; congruence | apply H2; congruence | apply H3; congruence].
Qed.

End Log.

Section LogInvariant.

Context {strings : GoStrings} {widgets : tui.Widgets} (net : ai.Backend).

Lemma exec_logged (w0 : World) (l : list Call) (c0 : tui.Cmd) (w w1 : World)
    (msg : tui.Msg) :
  tui.exec net c0 w = Some (Some msg, w1) ->
  spec.sameMachine w0 w ->
  run.inOrder l -> run.cmdLogged net l c0 ->
  spec.sameMachine w w1
  /\ exists g, calls w1 = g ++ calls w
               /\ run.inOrder (g ++ l)
               /\ run.msgLogged net w0 (g ++ l) msg.
Proof.
  intros Hex Hsame Hl Hc0. apply exec_cases in Hex.
  destruct c0; cbn in Hc0.
  - destruct Hex.
  - destruct Hex.
  - destruct Hex as (-> & Hq & _). split; [apply sameMachine_refl|].
    exists []. split; [reflexivity|]. split; [exact Hl|].
    destruct msg; try contradiction; exact I.
  - destruct Hex as (-> & ->). split; [apply sameMachine_refl|].
    exists []. split; [reflexivity|]. split; [exact Hl|exact I].
  - destruct Hex as (Hfound & Hs & g & Hg & Hall & Hlog). split; [exact Hs|].
    exists g. split; [exact Hg|]. split; [apply inOrder_app; assumption|].
    destruct msg; try exact I; cbn.
    + apply in_or_app. left. eapply Hlog. reflexivity.
    + destruct Hfound as [(e & w2 & _ & H)|[(c & w2 & _ & _ & H)|(c & w2 & _ & _ & [] & _)]];
        discriminate H.
    + destruct Hfound as [(e & w2 & _ & H)|[(c & w2 & _ & _ & H)|(c & w2 & _ & _ & [] & _)]];
        discriminate H.
    + destruct Hfound as [(e & w2 & _ & H)|[(c & w2 & _ & _ & H)|(c & w2 & _ & _ & [] & _)]];
        discriminate H.
    + destruct Hfound as [(e & w2 & _ & H)|[(c & w2 & _ & _ & H)|(c & w2 & _ & _ & [] & _)]];
        discriminate H.
  - destruct Hex as (p & -> & -> & Hm). split; [apply sameMachine_calls|].
    exists [call_Backend opAnalyzeHistory]. split; [reflexivity|].
    split; [split; assumption|].
    destruct (ai.AnalyzeHistory net p diff history); subst msg; cbn; [left; reflexivity|exact I].
  - destruct Hex as (p & -> & -> & Hm). split; [apply sameMachine_calls|].
    exists [call_Backend opGenerateQuestions]. split; [reflexivity|].
    split; [split; assumption|].
    destruct (ai.GenerateQuestions net p diff history); subst msg; cbn;
      [left; reflexivity|exact I].
  - destruct Hex as (p & ctx & -> & -> & Hm). split; [apply sameMachine_calls|].
    exists [call_Backend opGenerateCommitMessage]. split; [reflexivity|].
    split; [split; assumption|].
    destruct (ai.GenerateCommitMessage net p diff ctx answers) eqn:E; subst msg; cbn;
      [|exact I].
    right. eauto.
  - destruct Hex as (-> & Hm). split; [apply sameMachine_calls|].
    exists [call_Commit msg0]. split; [reflexivity|].
    split; [split; [exact I|assumption]|].
    destruct (git_commit w (git.CommitCmd msg0)) eqn:E; subst msg; cbn; [exact I|].
    exists msg0. split; [left; reflexivity|].
    destruct Hsame as (_ & _ & _ & _ & _ & _ & _ & _ & Hgc). rewrite <- Hgc. exact E.
Qed.

Lemma step_logInv (w0 : World) (s s' : tui.Sys) :
  tui.step net s s' -> run.logInv net w0 s -> run.logInv net w0 s'.
Proof.
  intros Hstep (Hsame & l & Hcalls & Hord & Hm & HP).
  destruct Hstep as [m P w msg m' c w' Hin HU|m P1 c0 P2 w msg w1 m' c w' Hex HU];
    cbn [tui.world tui.model tui.pending] in *.
  - destruct (Update_log _ _ _ _ _ _ HU) as (g & Hg & Hall).
    destruct (Update_logged net w0 l _ _ _ _ _ _ HU Hm) as [Hm' Hc].
    { destruct msg; try discriminate Hin; exact I. }
    split; [eapply sameMachine_trans; [exact Hsame|exact (Update_sameMachine _ _ _ _ _ _ HU)]|].
    exists (g ++ l). cbn [tui.world tui.model tui.pending].
    split; [rewrite Hg, Hcalls, app_assoc; reflexivity|].
    split; [apply inOrder_app; assumption|]. split; [apply modelLogged_mono, Hm'|].
    constructor; [apply cmdLogged_mono, Hc|].
    eapply Forall_impl; [exact HP|]. intros c1. apply cmdLogged_mono.
  - apply Forall_app in HP. destruct HP as [HP1 HP2].
    apply Forall_cons in HP2. destruct HP2 as [Hc0 HP2].
    destruct (exec_logged w0 l _ _ _ _ Hex Hsame Hord Hc0) as (Hs1 & g1 & Hg1 & Hord1 & Hmsg).
    destruct (Update_log _ _ _ _ _ _ HU) as (g & Hg & Hall).
    destruct (Update_logged net w0 (g1 ++ l) _ _ _ _ _ _ HU (modelLogged_mono _ _ _ _ Hm) Hmsg)
      as [Hm' Hc].
    split.
    { eapply sameMachine_trans; [exact Hsame|].
      eapply sameMachine_trans; [exact Hs1|exact (Update_sameMachine _ _ _ _ _ _ HU)]. }
    exists (g ++ g1 ++ l). cbn [tui.world tui.model tui.pending].
    split; [rewrite Hg, Hg1, Hcalls, !app_assoc; reflexivity|].
    split; [apply inOrder_app; assumption|]. split; [apply modelLogged_mono, Hm'|].
    constructor; [apply cmdLogged_mono, Hc|].
    apply Forall_app. split.
    + eapply Forall_impl; [exact HP1|]. intros c1 H1.
      apply cmdLogged_mono, cmdLogged_mono, H1.
    + eapply Forall_impl; [exact HP2|]. intros c1 H1.
      apply cmdLogged_mono, cmdLogged_mono, H1.
Qed.

Lemma initial_logInv (w : World) : run.logInv net w (run.initial w).
Proof.
  split; [apply sameMachine_refl|]. exists []. split; [reflexivity|].
  split; [exact I|]. split.
  - repeat split; discriminate.
  - repeat constructor.
Qed.

Lemma steps_logInv (w0 : World) (s s' : tui.Sys) :
  tui.steps net s s' -> run.logInv net w0 s -> run.logInv net w0 s'.
Proof.
  intros Hsteps. induction Hsteps as [s|s1 s2 s3 Hstep Hsteps IH]; [tauto|].
  intros Hinv. apply IH. exact (step_logInv w0 _ _ Hstep Hinv).
Qed.

(** X19.  In a session run from the start the calls keep the order of the
    interview: the history is analysed only after the check fetched the log,
    questions are generated only after the history was analysed, and the
    commit message is generated only after the questions were. *)
Theorem calls_in_order (w : World) (s : tui.Sys) :
  tui.steps net (run.initial w) s ->
  run.inOrder (new_calls w (tui.world s)).
Proof.
  intros Hsteps.
  destruct (steps_logInv w _ _ Hsteps (initial_logInv w)) as (_ & l & Hc & Hord & _).
  rewrite (new_calls_app l _ _ Hc). exact Hord.
Qed.

(** X20.  A session run from the start is in Success only after it ran
    [git commit] and git reported no failure. *)
Theorem success_means_committed (w : World) (s : tui.Sys) :
  tui.steps net (run.initial w) s ->
  tui.State (tui.model s) = tui.StateSuccess ->
  exists message,
    In (call_Commit message) (new_calls w (tui.world s))
    /\ git_commit w (git.CommitCmd message) = None.
Proof.
  intros Hsteps HS.
  destruct (steps_logInv w _ _ Hsteps (initial_logInv w))
    as (_ & l & Hc & _ & (_ & _ & Hm) & _).
  destruct (Hm HS) as (x & Hin & Hok). exists x.
  rewrite (new_calls_app l _ _ Hc). split; assumption.
Qed.

(** X21.  In a session run from the start, the message handed to
    [git commit] is either empty (the user writes it in the editor) or one the
    backend generated. *)
Theorem commit_message_origin (w : World) (s : tui.Sys) (message : string) :
  tui.steps net (run.initial w) s ->
  In (tui.CmdCommit message) (tui.pending s) ->
  message = ""
  \/ exists p diff context answers,
       ai.GenerateCommitMessage net p diff context answers = ok message.
Proof.
  intros Hsteps Hin.
  destruct (steps_logInv w _ _ Hsteps (initial_logInv w)) as (_ & l & _ & _ & _ & HP).
  rewrite Forall_forall in HP. apply list_elem_of_In in Hin. exact (HP _ Hin).
Qed.

End LogInvariant.

(** ** The screen *)

Section Screen.

Context {strings : GoStrings} {widgets : tui.Widgets} {renderer : screen.Renderer}
  (net : ai.Backend).

Lemma steps_keeps (s s' : tui.Sys) :
  tui.steps net s s' ->
  (tui.Err (tui.model s) <> None -> tui.Err (tui.model s') <> None)
  /\ (tui.Config (tui.model s) <> None -> tui.Config (tui.model s') <> None)
  /\ (tui.AIClient (tui.model s) <> None -> tui.AIClient (tui.model s') <> None).
Proof.
  intros Hsteps. induction Hsteps as [s|s1 s2 s3 Hstep Hsteps IH]; [tauto|].
  assert (H12 : (tui.Err (tui.model s1) <> None -> tui.Err (tui.model s2) <> None)
                /\ (tui.Config (tui.model s1) <> None -> tui.Config (tui.model s2) <> None)
                /\ (tui.AIClient (tui.model s1) <> None
                    -> tui.AIClient (tui.model s2) <> None)).
  { destruct Hstep as [m P w msg m' c w' Hin HU|m P1 c0 P2 w msg w1 m' c w' Hex HU];
      cbn [tui.model]; exact (Update_keeps _ _ _ _ _ _ HU). }
  tauto.
Qed.

(** X13.  Whatever happens in a session, a stored failure, the
    configuration and the provider client are never taken back: once set,
    each stays set. *)
Theorem never_cleared (s s' : tui.Sys) :
  tui.steps net s s' ->
  (forall e, tui.Err (tui.model s) = Some e -> exists e', tui.Err (tui.model s') = Some e')
  /\ (forall cfg, tui.Config (tui.model s) = Some cfg ->
      exists cfg', tui.Config (tui.model s') = Some cfg')
  /\ (forall p, tui.AIClient (tui.model s) = Some p ->
      exists p', tui.AIClient (tui.model s') = Some p').
Proof.
  intros Hsteps. destruct (steps_keeps _ _ Hsteps) as (He & Hc & Hp).
  split; [|split].
  - intros e H. destruct (tui.Err (tui.model s')); [eauto|]. exfalso. apply He; congruence.
  - intros cfg H. destruct (tui.Config (tui.model s')); [eauto|].
    exfalso. apply Hc; congruence.
  - intros p H. destruct (tui.AIClient (tui.model s')); [eauto|].
    exfalso. apply Hp; congruence.
Qed.

(** X22.  Once a failure is stored, every later screen is the error
    screen: a failure is still stored, the screen can be drawn, and it depends
    on the failure and the configuration only, not on the state the session
    is in. *)
Theorem error_screen_is_final (s s' : tui.Sys) :
  tui.Err (tui.model s) <> None ->
  tui.steps net s s' ->
  exists e text,
    tui.Err (tui.model s') = Some e
    /\ screen.View (tui.model s') = Some text
    /\ forall m : tui.Model,
         tui.Err m = Some e -> tui.Config m = tui.Config (tui.model s') ->
         screen.View m = Some text.
Proof.
  intros He Hsteps. pose proof (proj1 (steps_keeps _ _ Hsteps) He) as He'.
  destruct (tui.Err (tui.model s')) as [e|] eqn:E; [|congruence].
  exists e. unfold screen.View. rewrite E.
  destruct (tui.Config (tui.model s')) as [cfg|] eqn:Ec.
  - destruct (_ && _) eqn:Eb.
    + eexists. split; [reflexivity|]. split; [reflexivity|].
      intros m Hm Hc. rewrite Hm, Hc, Eb. reflexivity.
    + eexists. split; [reflexivity|]. split; [reflexivity|].
      intros m Hm Hc. rewrite Hm, Hc, Eb. reflexivity.
  - eexists. split; [reflexivity|]. split; [reflexivity|].
    intros m Hm Hc. rewrite Hm, Hc. reflexivity.
Qed.

Lemma View_inRange (m : tui.Model) : run.inRange m -> screen.View m <> None.
Proof.
  unfold run.inRange, screen.View. intros Hr.
  destruct (tui.Err m).
  { destruct (tui.Config m); [destruct (_ && _)|]; discriminate. }
  destruct (tui.State m) eqn:HS; try discriminate.
  - specialize (Hr eq_refl).
    destruct (tui.CurrentQIdx m <? _); [|discriminate].
    replace (0 <=? tui.CurrentQIdx m) with true by (symmetry; apply Z.leb_le; lia).
    destruct (lookup_lt_is_Some_2 (tui.Questions m) (Z.to_nat (tui.CurrentQIdx m)))
      as [q ->]; [lia|discriminate].
  - destruct (tui.setupStep m); discriminate.
Qed.

(** X23.  The screen can be drawn after any sequence of messages in which
    the question generation completes at most once. *)
Theorem View_never_panics (msgs : list tui.Msg) (m : tui.Model) (w w' : World) :
  (run.analyses msgs <= 1)%nat ->
  tui.deliver tui.NewModel msgs w = Some (m, w') ->
  exists text, screen.View m = Some text.
Proof.
  intros Hn Hrun.
  destruct (deliver_fresh_total msgs tui.NewModel w Hn) as (m1 & w1 & Hrun1 & _ & Hr).
  - intros [H|H]; discriminate H.
  - apply NewModel_fresh.
  - rewrite Hrun in Hrun1. injection Hrun1 as <- <-.
    destruct (screen.View m) eqn:E; [eauto|]. exfalso. exact (View_inRange m Hr E).
Qed.

(** The screen is undrawable exactly in Questioning with a negative index. *)
Lemma View_panics (m : tui.Model) :
  screen.View m = None
  <-> tui.Err m = None /\ tui.State m = tui.StateQuestioning /\ tui.CurrentQIdx m < 0.
Proof.
  unfold screen.View. split.
  - destruct (tui.Err m).
    { destruct (tui.Config m); [destruct (_ && _)|]; discriminate. }
    destruct (tui.State m) eqn:HS; try discriminate.
    + destruct (Z.ltb_spec (tui.CurrentQIdx m) (Z.of_nat (length (tui.Questions m))));
        [|discriminate].
      destruct (Z.leb_spec 0 (tui.CurrentQIdx m)); [|intros _; repeat split; lia].
      destruct (lookup_lt_is_Some_2 (tui.Questions m) (Z.to_nat (tui.CurrentQIdx m)))
        as [q ->]; [lia|discriminate].
    + destruct (tui.setupStep m); discriminate.
  - intros (-> & -> & Hneg).
    replace (tui.CurrentQIdx m <? _) with true by (symmetry; apply Z.ltb_lt; lia).
    replace (0 <=? tui.CurrentQIdx m) with false by (symmetry; apply Z.leb_gt; lia).
    reflexivity.
Qed.

End Screen.

(** ** The properties at sample inputs *)

Lemma NewClient_kind_witness :
  ai.NewClient (config.mkConfig "openai" "" "llama3" "http://localhost:11434")
  = ok (ai.OpenAI (ai.mkOpenAIClient (ai.mkClient None "")))
  /\ ai.NewClient concrete.ollamaConfig
     = ok (ai.Ollama (ai.NewOllamaClient "http://localhost:11434" "llama3.1"))
  /\ (exists c,
        ai.NewClient (config.mkConfig "gemini" "sk-test" "" "") = ok (ai.OpenAI c)
        /\ ai.APIKey (ai.openai_client c) = "sk-test").
Proof.
  split; [|split].
  - apply (NewClient_kind (config.mkConfig "openai" "" "llama3" "http://localhost:11434")).
    reflexivity.
  - apply (NewClient_kind concrete.ollamaConfig). reflexivity.
  - eexists. split; [reflexivity|].
    destruct (NewClient_kind (config.mkConfig "gemini" "sk-test" "" "")) as (_ & _ & _ & Hkey).
    exact (proj1 (Hkey _ eq_refl)).
Defined.

Lemma last_save_wins_witness :
  exists w1 w2 w3,
    config.Save concrete.keylessConfig (concrete.machine None "" "") = Some (None, w1)
    /\ config.Save concrete.ollamaConfig w1 = Some (None, w2)
    /\ config.Load w2 = Some (ok concrete.ollamaConfig, w3).
Proof.
  destruct (last_save_wins (concrete.machine None "" "") "/home/dev"
              concrete.keylessConfig concrete.ollamaConfig
              eq_refl eq_refl eq_refl eq_refl)
    as (w1 & w2 & w3 & H1 & H2 & H3 & _).
  - repeat split; apply isASCII_literal; reflexivity.
  - exists w1, w2, w3. repeat split; assumption.
Defined.

Lemma first_run_witness :
  exists msg w',
    concrete.checkPrerequisitesCmd (concrete.machine None "" concrete.smallDiff)
    = Some (msg, w')
    /\ msg = tui.setupRequiredMsg concrete.keylessConfig
    /\ configFile w' = None.
Proof.
  destruct (first_run (strings := concrete.asciiStrings)
              (concrete.machine None "" concrete.smallDiff) "/home/dev"
              eq_refl eq_refl eq_refl)
    as (_ & msg & w' & Hrun & Hfile & _ & Hsetup & _).
  exists msg, w'. split; [exact Hrun|]. split; [|exact Hfile].
  apply Hsetup. reflexivity.
Defined.

Lemma env_key_adopted_once_witness :
  exists msg w',
    concrete.checkPrerequisitesCmd
      (concrete.machine (concrete.fileOf concrete.keylessConfig) "sk-env" concrete.smallDiff)
    = Some (msg, w')
    /\ configFile w'
       = Some (config.MarshalIndent (config.set_OpenAIAPIKey "sk-env" concrete.keylessConfig)).
Proof.
  destruct (env_key_adopted_once (strings := concrete.asciiStrings)
              (concrete.machine (concrete.fileOf concrete.keylessConfig) "sk-env"
                 concrete.smallDiff)
              _ concrete.keylessConfig eq_refl)
    as (msg & w' & Hrun & _ & Hfile & _).
  - repeat split. discriminate.
  - reflexivity.
  - reflexivity.
  - repeat split; apply isASCII_literal; reflexivity.
  - apply isASCII_literal. reflexivity.
  - exists msg, w'. split; assumption.
Defined.

Lemma check_reports_failures_witness :
  (exists w',
     concrete.checkPrerequisitesCmd (sample.noHome sample.repo)
     = Some (tui.errMsg "$HOME is not defined", w'))
  /\ (exists w',
        concrete.checkPrerequisitesCmd (sample.lockedIndex sample.repo)
        = Some (tui.errMsg "failed to get staged diff: exit status 128", w')).
Proof.
  split.
  - destruct (check_reports_failures (strings := concrete.asciiStrings)
                (widgets := concrete.plainWidgets) (sample.noHome sample.repo))
      as (Hload & _).
    eexists. apply (Hload "$HOME is not defined" _ eq_refl).
  - destruct (check_reports_failures (strings := concrete.asciiStrings)
                (widgets := concrete.plainWidgets) (sample.lockedIndex sample.repo))
      as (_ & Hgit & _).
    destruct (Hgit concrete.ollamaConfig _ eq_refl) as [Hdiff _].
    + intros [H|[(H & _)|(_ & [H|H])]]; discriminate H.
    + reflexivity.
    + apply (Hdiff "exit status 128"). reflexivity.
Defined.

Lemma manual_commit_witness :
  exists m1 m2 w1,
    concrete.Update sample.welcome (tui.KeyMsg (tui.mkKey tui.KeyRunes "2")) sample.repo
    = Some ((m1, tui.CmdCommit ""), sample.repo)
    /\ concrete.exec (tui.CmdCommit "") sample.repo = Some (Some tui.commitSuccessMsg, w1)
    /\ concrete.Update m1 tui.commitSuccessMsg w1 = Some ((m2, tui.CmdQuit), w1)
    /\ tui.State m2 = tui.StateSuccess.
Proof.
  destruct (manual_commit (strings := concrete.asciiStrings)
              (widgets := concrete.plainWidgets) (concrete.fixedBackend [])
              sample.welcome (tui.mkKey tui.KeyRunes "2") sample.repo)
    as (m1 & w1 & HU & _ & _ & _ & _ & Hok & _).
  - left. split; reflexivity.
  - destruct (Hok eq_refl) as (Hex & m2 & HU2 & HS2).
    exists m1, m2, w1. repeat split; assumption.
Defined.

Lemma setup_ollama_witness :
  exists m1 m2 m3 w',
    concrete.Update (concrete.configuring tui.SetupStepProvider concrete.keylessConfig)
      (tui.KeyMsg (tui.mkKey tui.KeyRunes "2")) (concrete.machine None "" concrete.smallDiff)
    = Some ((m1, tui.CmdNil), concrete.machine None "" concrete.smallDiff)
    /\ concrete.Update (@tui.set_TextArea concrete.plainWidgets
                          (concrete.typed "http://ollama.lan:11434 ") m1)
         (tui.KeyMsg tui.enterKey) (concrete.machine None "" concrete.smallDiff)
       = Some ((m2, tui.CmdNil), concrete.machine None "" concrete.smallDiff)
    /\ concrete.Update (@tui.set_TextArea concrete.plainWidgets
                          (concrete.typed "mistral") m2)
         (tui.KeyMsg tui.enterKey) (concrete.machine None "" concrete.smallDiff)
       = Some ((m3, tui.CmdCheckPrerequisites), w')
    /\ tui.Config m3
       = Some (config.mkConfig "ollama" "" "mistral" "http://ollama.lan:11434").
Proof.
  destruct (setup_ollama (strings := concrete.asciiStrings)
              (widgets := concrete.plainWidgets)
              (concrete.configuring tui.SetupStepProvider concrete.keylessConfig)
              concrete.keylessConfig
              (concrete.typed "http://ollama.lan:11434 ") (concrete.typed "mistral")
              (concrete.machine None "" concrete.smallDiff) eq_refl eq_refl eq_refl)
    as (m1 & m2 & m3 & w' & H1 & _ & H2 & _ & H3 & Hc & _).
  - vm_compute. discriminate.
  - vm_compute. discriminate.
  - reflexivity.
  - exists m1, m2, m3, w'. repeat split; assumption.
Defined.

Lemma setup_openai_witness :
  exists m1 m2 w',
    concrete.Update (concrete.configuring tui.SetupStepProvider concrete.ollamaConfig)
      (tui.KeyMsg (tui.mkKey tui.KeyRunes "1")) (concrete.machine None "sk-env" "")
    = Some ((m1, tui.CmdNil), concrete.machine None "sk-env" "")
    /\ tui.setupStep m1 = tui.SetupStepConfirmOpenAIKey
    /\ concrete.Update m1 (tui.KeyMsg (tui.mkKey tui.KeyRunes "y"))
         (concrete.machine None "sk-env" "")
       = Some ((m2, tui.CmdCheckPrerequisites), w')
    /\ tui.Config m2
       = Some (config.mkConfig "openai" "sk-env" "llama3.1" "http://localhost:11434").
Proof.
  destruct (setup_openai (strings := concrete.asciiStrings)
              (widgets := concrete.plainWidgets)
              (concrete.configuring tui.SetupStepProvider concrete.ollamaConfig)
              concrete.ollamaConfig (concrete.machine None "sk-env" "")
              eq_refl eq_refl eq_refl eq_refl eq_refl eq_refl)
    as (m1 & H1 & _ & _ & Henv).
  destruct Henv as (Hstep & (m2 & w' & H2 & Hc & _) & _); [discriminate|].
  exists m1, m2, w'. repeat split; assumption.
Defined.

Lemma blank_setup_entry_witness :
  concrete.Update
    (concrete.withText "   " (concrete.configuring tui.SetupStepOllamaModel concrete.keylessConfig))
    (tui.KeyMsg tui.enterKey) (concrete.machine None "" "")
  = Some ((concrete.withText "   "
             (concrete.configuring tui.SetupStepOllamaModel concrete.keylessConfig),
           tui.CmdWidget O),
          concrete.machine None "" "").
Proof.
  destruct (blank_setup_entry (strings := concrete.asciiStrings)
              (widgets := concrete.plainWidgets)
              (concrete.withText "   "
                 (concrete.configuring tui.SetupStepOllamaModel concrete.keylessConfig))
              tui.enterKey (concrete.machine None "" "") eq_refl)
    as (ta & c & Hta & HU).
  - right. right. reflexivity.
  - reflexivity.
  - discriminate.
  - reflexivity.
  - injection Hta as <- <-. exact HU.
Defined.


Lemma no_panic_witness :
  exists m w',
    tui.deliver (strings := concrete.asciiStrings) concrete.NewModel
      [tui.setupRequiredMsg concrete.keylessConfig;
       tui.KeyMsg (tui.mkKey tui.KeyRunes "y");
       tui.analysisResultMsg ["Why?"];
       tui.KeyMsg tui.enterKey]
      (concrete.machine None "" "")
    = Some (m, w').
Proof.
  destruct (no_panic (strings := concrete.asciiStrings) (widgets := concrete.plainWidgets)
              [tui.setupRequiredMsg concrete.keylessConfig;
               tui.KeyMsg (tui.mkKey tui.KeyRunes "y");
               tui.analysisResultMsg ["Why?"];
               tui.KeyMsg tui.enterKey]
              (concrete.machine None "" ""))
    as (m & w' & Hrun & _).
  - vm_compute. lia.
  - exists m, w'. exact Hrun.
Defined.

Lemma second_question_list_witness :
  exists m1,
    concrete.Update (tui.set_CurrentQIdx 2 (concrete.asking ["Why?"; "How?"; "What for?"]))
      (tui.analysisResultMsg ["Why?"; "How?"]) (concrete.machine None "" "")
    = Some ((m1, tui.CmdNil), concrete.machine None "" "")
    /\ tui.CurrentQIdx m1 = 2
    /\ concrete.Update (@tui.set_TextArea concrete.plainWidgets (concrete.typed "because") m1)
         (tui.KeyMsg tui.enterKey) (concrete.machine None "" "")
       = None.
Proof.
  destruct (second_question_list (strings := concrete.asciiStrings)
              (widgets := concrete.plainWidgets)
              (tui.set_CurrentQIdx 2 (concrete.asking ["Why?"; "How?"; "What for?"]))
              ["Why?"; "How?"] (concrete.machine None "" "") eq_refl)
    as (m1 & c & HU & _ & _ & Hi & _ & Hpanic).
  assert (Hc : c = tui.CmdNil).
  { assert (HU' : concrete.Update
                    (tui.set_CurrentQIdx 2 (concrete.asking ["Why?"; "How?"; "What for?"]))
                    (tui.analysisResultMsg ["Why?"; "How?"]) (concrete.machine None "" "")
                  = Some ((m1, c), concrete.machine None "" "")) by exact HU.
    vm_compute in HU'. injection HU' as _ Hc. symmetry. exact Hc. }
  subst c. exists m1. split; [exact HU|]. split; [exact Hi|].
  apply Hpanic; [cbn; lia|vm_compute; discriminate].
Defined.

Lemma interview_commits_witness :
  exists m' w',
    run.interview (strings := concrete.asciiStrings) sample.interviewer sample.welcome
      [concrete.typed "to fix the build"; concrete.typed " by pinning the version "]
      sample.repo
    = Some ((m', tui.CmdCommit "fix: pin the version"), w')
    /\ tui.State m' = tui.StateCommit
    /\ tui.Answers m' !! "How?" = Some "by pinning the version".
Proof.
  destruct (interview_commits (strings := concrete.asciiStrings)
              (widgets := concrete.plainWidgets) sample.interviewer
              sample.welcome sample.ollama
              (ai.mkHistoryAnalysisResponse true ["Conventional commits"])
              ["Why?"; "How?"]
              [concrete.typed "to fix the build"; concrete.typed " by pinning the version "]
              "fix: pin the version" sample.repo
              eq_refl eq_refl eq_refl eq_refl eq_refl eq_refl eq_refl)
    as (m' & w' & Hrun & HS & _ & HA & _).
  - repeat constructor; vm_compute; discriminate.
  - reflexivity.
  - exists m', w'. split; [exact Hrun|]. split; [exact HS|].
    rewrite HA. vm_compute. reflexivity.
Defined.

(** ** Sample runs *)

Lemma steps_app `{GoStrings} `{tui.Widgets} (net : ai.Backend) (s1 s2 s3 : tui.Sys) :
  tui.steps net s1 s2 -> tui.steps net s2 s3 -> tui.steps net s1 s3.
Proof.
  intros H12 H23. induction H12 as [s|s1 s2 s4 Hstep Hsteps IH]; [exact H23|].
  eapply tui.steps_next; [exact Hstep|]. apply IH, H23.
Qed.

Lemma sample_welcome_run :
  tui.steps (strings := concrete.asciiStrings) sample.interviewer
    (run.initial sample.repo)
    (tui.mkSys sample.welcome [tui.CmdNil; tui.CmdWidget O] sample.checked).
Proof.
  eapply tui.steps_next; [|apply tui.steps_refl].
  eapply (tui.step_complete (strings := concrete.asciiStrings) sample.interviewer
            concrete.NewModel [tui.CmdWidget O] tui.CmdCheckPrerequisites [] sample.repo
            (tui.prerequisitesCheckedMsg concrete.ollamaConfig concrete.smallDiff
               "Commit: 1a2b3c4") sample.checked).
  - vm_compute. reflexivity.
  - vm_compute. reflexivity.
Qed.

Lemma sample_ai_run :
  tui.steps (strings := concrete.asciiStrings) sample.interviewer
    (run.initial sample.repo)
    (tui.mkSys (tui.set_State tui.StateHistoryAnalysis sample.welcome)
       [tui.CmdAnalyzeHistory (Some sample.ollama) concrete.smallDiff "Commit: 1a2b3c4";
        tui.CmdNil; tui.CmdWidget O] sample.checked).
Proof.
  eapply steps_app; [exact sample_welcome_run|].
  eapply tui.steps_next; [|apply tui.steps_refl].
  apply (tui.step_input (strings := concrete.asciiStrings) sample.interviewer
           sample.welcome _ sample.checked (tui.KeyMsg (tui.mkKey tui.KeyRunes "1")));
    reflexivity.
Qed.

Lemma sample_manual_step :
  tui.steps (strings := concrete.asciiStrings) sample.interviewer
    (tui.mkSys sample.welcome [tui.CmdNil; tui.CmdWidget O] sample.checked)
    (tui.mkSys (tui.set_State tui.StateCommit (tui.set_CommitMsg "" sample.welcome))
       [tui.CmdCommit ""; tui.CmdNil; tui.CmdWidget O] sample.checked).
Proof.
  eapply tui.steps_next; [|apply tui.steps_refl].
  apply (tui.step_input (strings := concrete.asciiStrings) sample.interviewer
           sample.welcome _ sample.checked (tui.KeyMsg (tui.mkKey tui.KeyRunes "2")));
    reflexivity.
Qed.

Lemma sample_commit_step :
  tui.steps (strings := concrete.asciiStrings) sample.interviewer
    (tui.mkSys (tui.set_State tui.StateCommit (tui.set_CommitMsg "" sample.welcome))
       [tui.CmdCommit ""; tui.CmdNil; tui.CmdWidget O] sample.checked)
    (tui.mkSys (tui.set_State tui.StateSuccess
                  (tui.set_State tui.StateCommit (tui.set_CommitMsg "" sample.welcome)))
       [tui.CmdQuit; tui.CmdNil; tui.CmdWidget O]
       (set_calls (call_Commit "" :: calls sample.checked) sample.checked)).
Proof.
  eapply tui.steps_next; [|apply tui.steps_refl].
  apply (tui.step_complete (strings := concrete.asciiStrings) sample.interviewer
           _ [] (tui.CmdCommit "") [tui.CmdNil; tui.CmdWidget O] sample.checked
           tui.commitSuccessMsg
           (set_calls (call_Commit "" :: calls sample.checked) sample.checked));
    reflexivity.
Qed.

Lemma sample_manual_run :
  tui.steps (strings := concrete.asciiStrings) sample.interviewer
    (run.initial sample.repo)
    (tui.mkSys (tui.set_State tui.StateCommit (tui.set_CommitMsg "" sample.welcome))
       [tui.CmdCommit ""; tui.CmdNil; tui.CmdWidget O] sample.checked).
Proof. exact (steps_app _ _ _ _ sample_welcome_run sample_manual_step). Qed.

Lemma sample_success_run :
  tui.steps (strings := concrete.asciiStrings) sample.interviewer
    (run.initial sample.repo)
    (tui.mkSys (tui.set_State tui.StateSuccess
                  (tui.set_State tui.StateCommit (tui.set_CommitMsg "" sample.welcome)))
       [tui.CmdQuit; tui.CmdNil; tui.CmdWidget O]
       (set_calls (call_Commit "" :: calls sample.checked) sample.checked)).
Proof. exact (steps_app _ _ _ _ sample_manual_run sample_commit_step). Qed.

(** A failure is stored while the check is still running; the check then
    completes and moves the state to Welcome. *)
Lemma sample_late_check :
  tui.steps (strings := concrete.asciiStrings) sample.interviewer
    (tui.mkSys concrete.failed [tui.CmdCheckPrerequisites] sample.repo)
    (tui.mkSys (tui.set_Err (Some "connection refused") sample.welcome)
       [tui.CmdNil] sample.checked).
Proof.
  eapply tui.steps_next; [|apply tui.steps_refl].
  eapply (tui.step_complete (strings := concrete.asciiStrings) sample.interviewer
            concrete.failed [] tui.CmdCheckPrerequisites [] sample.repo
            (tui.prerequisitesCheckedMsg concrete.ollamaConfig concrete.smallDiff
               "Commit: 1a2b3c4") sample.checked).
  - vm_compute. reflexivity.
  - vm_compute. reflexivity.
Qed.


Lemma backend_gets_staged_diff_witness :
  git_diff_cached sample.repo = ok concrete.smallDiff
  /\ Z.of_nat (String.length concrete.smallDiff) <= 40000.
Proof.
  destruct (backend_gets_staged_diff (strings := concrete.asciiStrings)
              (widgets := concrete.plainWidgets) sample.interviewer sample.repo _
              (tui.CmdAnalyzeHistory (Some sample.ollama) concrete.smallDiff "Commit: 1a2b3c4")
              (Some sample.ollama) concrete.smallDiff "Commit: 1a2b3c4" sample_ai_run)
    as (_ & Hd & _ & Hl & _).
  - left. reflexivity.
  - reflexivity.
  - split; assumption.
Defined.

Lemma calls_in_order_witness :
  run.inOrder
    [call_GetRecentHistory 10; call_GetStagedDiff; call_IsRepo; call_Load].
Proof.
  exact (calls_in_order (strings := concrete.asciiStrings)
           (widgets := concrete.plainWidgets) sample.interviewer sample.repo _
           sample_ai_run).
Defined.

Lemma success_means_committed_witness :
  exists message,
    In (call_Commit message)
       (new_calls sample.repo
          (set_calls (call_Commit "" :: calls sample.checked) sample.checked))
    /\ git_commit sample.repo (git.CommitCmd message) = None.
Proof.
  exact (success_means_committed (strings := concrete.asciiStrings)
           (widgets := concrete.plainWidgets) sample.interviewer sample.repo _
           sample_success_run eq_refl).
Defined.

Lemma commit_message_origin_witness :
  "" = ""
  \/ exists p diff context answers,
       ai.GenerateCommitMessage sample.interviewer p diff context answers = ok "".
Proof.
  apply (commit_message_origin (strings := concrete.asciiStrings)
           (widgets := concrete.plainWidgets) sample.interviewer sample.repo _ ""
           sample_manual_run).
  left. reflexivity.
Defined.

Lemma never_cleared_witness :
  exists e,
    tui.Err (@tui.set_Err concrete.plainWidgets (Some "connection refused") sample.welcome)
    = Some e.
Proof.
  destruct (never_cleared (strings := concrete.asciiStrings)
              (widgets := concrete.plainWidgets) sample.interviewer _ _
              sample_late_check) as (He & _).
  exact (He "connection refused" eq_refl).
Defined.

Lemma error_screen_is_final_witness :
  exists text,
    @screen.View concrete.plainWidgets sample.plainRenderer
      (tui.set_Err (Some "connection refused") sample.welcome)
    = Some text
    /\ @screen.View concrete.plainWidgets sample.plainRenderer
         (tui.set_Err (Some "connection refused") (tui.set_State tui.StateCommit sample.welcome))
       = Some text.
Proof.
  destruct (error_screen_is_final (strings := concrete.asciiStrings)
              (widgets := concrete.plainWidgets) (renderer := sample.plainRenderer)
              sample.interviewer
              (tui.mkSys concrete.failed [tui.CmdCheckPrerequisites] sample.repo)
              (tui.mkSys (tui.set_Err (Some "connection refused") sample.welcome)
                 [tui.CmdNil] sample.checked))
    as (e & text & He & Hv & Hall); [discriminate|exact sample_late_check|].
  exists text. split; [exact Hv|]. apply Hall; [exact He|reflexivity].
Defined.

Lemma View_never_panics_witness :
  exists text,
    @screen.View concrete.plainWidgets sample.plainRenderer
      (tui.set_TextArea
         (tui.Focus (tui.TextArea concrete.NewModel))
         (tui.set_State tui.StateQuestioning (tui.set_Questions ["Why?"] concrete.NewModel)))
    = Some text.
Proof.
  apply (View_never_panics (strings := concrete.asciiStrings)
           (widgets := concrete.plainWidgets) (renderer := sample.plainRenderer)
           [tui.analysisResultMsg ["Why?"]] _
           (concrete.machine None "" "") (concrete.machine None "" "")).
  - vm_compute. lia.
  - reflexivity.
Defined.

(** ** Runs from the initial state *)

Section Scheduling.

Context {strings : GoStrings} {widgets : tui.Widgets} (net : ai.Backend).

Lemma occur_step (s s' : tui.Sys) (e : run.Event) :
  run.occur net s e = Some s' -> tui.step net s s'.
Proof.
  destruct s as [m P w]. destruct e as [msg|n]; cbn [run.occur tui.model tui.pending tui.world].
  - destruct (tui.userInput msg) eqn:Hin; [|discriminate].
    destruct (tui.Update m msg w) as [[[m' c] w']|] eqn:HU; [|discriminate].
    intros [= <-]. apply (tui.step_input net m P w msg m' c w' Hin HU).
  - destruct (P !! n) as [c0|] eqn:Hn; [|discriminate].
    destruct (tui.exec net c0 w) as [[[msg|] w1]|] eqn:Hex; try discriminate.
    destruct (tui.Update m msg w1) as [[[m' c] w']|] eqn:HU; [|discriminate].
    intros [= <-].
    rewrite <- (take_drop_middle P n c0 Hn) at 1.
    apply (tui.step_complete net m (take n P) c0 (drop (S n) P) w msg w1 m' c w' Hex HU).
Qed.

Lemma schedule_steps (events : list run.Event) (s s' : tui.Sys) :
  run.schedule net s events = Some s' -> tui.steps net s s'.
Proof.
  revert s. induction events as [|e events IH]; intros s; cbn [run.schedule].
  - intros [= <-]. apply tui.steps_refl.
  - destruct (run.occur net s e) as [next|] eqn:He; [|discriminate].
    intros H. eapply tui.steps_next; [exact (occur_step _ _ _ He)|exact (IH _ H)].
Qed.

End Scheduling.

(** C4, counterexample.  A session run from the start can receive a second
    list of questions: "y" pressed twice on the confirmation of Setup
    dispatches two prerequisite checks; the first leads through Welcome to an
    interview in which both questions are answered; the second then brings the
    session back to Welcome, the user asks for help again, and the question
    generation completes a second time.  The session enters Questioning on
    that non-empty list with the question index 2 and two answers stored. *)
Lemma second_list_enters_at_index_2 :
  exists s1 s2 : @tui.Sys sample.typingWidgets,
    tui.steps (strings := concrete.asciiStrings) sample.interviewer
      (run.initial sample.unconfigured) s1
    /\ tui.State (tui.model s1) = tui.StateAnalysis
    /\ tui.step (strings := concrete.asciiStrings) sample.interviewer s1 s2
    /\ tui.State (tui.model s2) = tui.StateQuestioning
    /\ tui.Questions (tui.model s2) = ["Why?"; "How?"]
    /\ tui.CurrentQIdx (tui.model s2) = 2
    /\ size (tui.Answers (tui.model s2)) = 2%nat.
Proof.
  assert (Hrun : exists s1 s2 : @tui.Sys sample.typingWidgets,
            run.schedule (strings := concrete.asciiStrings) sample.interviewer
              (run.initial sample.unconfigured) sample.secondAnalysis = Some s1
            /\ run.occur (strings := concrete.asciiStrings) sample.interviewer s1
                 (run.completes 0) = Some s2
            /\ tui.State (tui.model s1) = tui.StateAnalysis
            /\ tui.State (tui.model s2) = tui.StateQuestioning
            /\ tui.Questions (tui.model s2) = ["Why?"; "How?"]
            /\ tui.CurrentQIdx (tui.model s2) = 2
            /\ size (tui.Answers (tui.model s2)) = 2%nat).
  { eexists _, _. split; [vm_compute; reflexivity|]. split; [vm_compute; reflexivity|].
    repeat split; vm_compute; reflexivity. }
  destruct Hrun as (s1 & s2 & H1 & H2 & HS1 & HS2 & HQ & Hi & Ha).
  exists s1, s2. split; [exact (schedule_steps _ _ _ _ H1)|]. split; [exact HS1|].
  split; [exact (occur_step _ _ _ _ H2)|]. repeat split; assumption.
Qed.

